(** * Patient biometric reconciliation: a shallow embedding of the
      TypeScript sources and the properties of the reconciliation engine.

    The embedding follows the sources function by function:
    - [PatientSyncService] is [src/services/patientSyncService.ts];
    - [ImportPatientDialog] is the import dialog component (its finger table,
      its guarded search and its two import paths);
    - [PatientStore] is the load/save adapter ([savePatients], [toPatientSnake]);
    - [PatientManager] holds the list of patients and its handlers.

    JavaScript strings are sequences of UTF-16 code units; the model keeps
    the code units below 256, one [ascii] each (so "í" is the single code
    unit 237).  Numbers are the integers.  What [invoke] returns is typed
    [any] in the sources and is modelled by the type [value] of JSON data. *)

From Stdlib Require Import String Ascii List ZArith Lia Bool DecimalString.
Import ListNotations.
Local Open Scope string_scope.
Local Open Scope Z_scope.

Set Warnings "-register-all".

(* ===================================================================== *)
(** ** JavaScript strings *)
(* ===================================================================== *)

Module JsString.

(** [\s] of a regular expression and the characters removed by [trim]:
    TAB, LF, VT, FF, CR, SP and NBSP are the ones below 256. *)
Definition isWhiteSpace (c : ascii) : bool :=
  let n := nat_of_ascii c in
  ((9 <=? n)%nat && (n <=? 13)%nat) || (n =? 32)%nat || (n =? 160)%nat.

(** [toLowerCase] on one code unit: A-Z and the Latin-1 capitals
    U+00C0..U+00DE (the multiplication sign U+00D7 apart) move by 32. *)
Definition lowerChar (c : ascii) : ascii :=
  let n := nat_of_ascii c in
  if ((65 <=? n)%nat && (n <=? 90)%nat)
     || ((192 <=? n)%nat && (n <=? 222)%nat && negb (n =? 215)%nat)
  then ascii_of_nat (n + 32) else c.

Fixpoint toLowerCase (s : string) : string :=
  match s with
  | EmptyString => EmptyString
  | String c r => String (lowerChar c) (toLowerCase r)
  end.

Fixpoint trimStart (s : string) : string :=
  match s with
  | EmptyString => EmptyString
  | String c r => if isWhiteSpace c then trimStart r else s
  end.

Fixpoint trimEnd (s : string) : string :=
  match s with
  | EmptyString => EmptyString
  | String c r =>
      match trimEnd r with
      | EmptyString => if isWhiteSpace c then EmptyString else String c EmptyString
      | r' => String c r'
      end
  end.

Definition trim (s : string) : string := trimEnd (trimStart s).

(** [s.replace(/\s+/g, "")]. *)
Fixpoint removeWhiteSpace (s : string) : string :=
  match s with
  | EmptyString => EmptyString
  | String c r =>
      if isWhiteSpace c then removeWhiteSpace r else String c (removeWhiteSpace r)
  end.

(** [s.includes(t)]: [t] starts at some position of [s]. *)
Fixpoint includes (s t : string) : bool :=
  prefix t s ||
  match s with
  | EmptyString => false
  | String _ r => includes r t
  end.

Fixpoint skip (n : nat) (s : string) : string :=
  match n, s with
  | O, _ => s
  | S _, EmptyString => EmptyString
  | S k, String _ r => skip k r
  end.

(** [s.slice(-n)]: the last [n] code units, all of [s] when it is shorter. *)
Definition sliceLast (n : nat) (s : string) : string :=
  skip (String.length s - n) s.

(** [s.replace(/^0+/, "")]. *)
Fixpoint stripLeadingZeros (s : string) : string :=
  match s with
  | String "0"%char r => stripLeadingZeros r
  | _ => s
  end.

Fixpoint zeros (n : nat) : string :=
  match n with
  | O => EmptyString
  | S k => String "0"%char (zeros k)
  end.

(** [s.padStart(n, '0')]. *)
Definition padStart0 (n : nat) (s : string) : string :=
  zeros (n - String.length s) ++ s.

(** [s.split(sep)] for a one-character separator. *)
Fixpoint split (sep : ascii) (s : string) : list string :=
  match s with
  | EmptyString => [EmptyString]
  | String c r =>
      if Ascii.eqb c sep then EmptyString :: split sep r
      else match split sep r with
           | h :: t => String c h :: t
           | [] => [String c EmptyString]
           end
  end.

(** The template literal [`${n}`] of an integer. *)
Definition ofZ (n : Z) : string := NilZero.string_of_int (Z.to_int n).

(** The double quote, as a one-character string. *)
Definition dquote : string := String (ascii_of_nat 34) EmptyString.

Definition iacute : ascii := ascii_of_nat 237.
Definition eacute : ascii := ascii_of_nat 233.

End JsString.

(* ===================================================================== *)
(** ** JavaScript values of type [any] *)
(* ===================================================================== *)

Inductive value : Type :=
| VUndefined
| VNull
| VBool (b : bool)
| VNum (n : Z)
| VStr (s : string)
| VArr (items : list value)
| VObj (fields : list (string * value)).

Module Js.

(** Truthiness, as tested by [||], [&&], [!] and [if]. *)
Definition truthy (v : value) : bool :=
  match v with
  | VUndefined | VNull => false
  | VBool b => b
  | VNum n => negb (n =? 0)
  | VStr s => negb (s =? "")%string
  | VArr _ | VObj _ => true
  end.

Definition nullish (v : value) : bool :=
  match v with
  | VUndefined | VNull => true
  | _ => false
  end.

(** [String(v)] and [`${v}`]. *)
Fixpoint ToString (v : value) : string :=
  match v with
  | VUndefined => "undefined"
  | VNull => "null"
  | VBool true => "true"
  | VBool false => "false"
  | VNum n => JsString.ofZ n
  | VStr s => s
  | VArr items =>
      (fix join (l : list value) : string :=
         match l with
         | [] => ""
         | x :: r =>
             let sx := match x with
                       | VUndefined | VNull => ""
                       | _ => ToString x
                       end in
             match r with
             | [] => sx
             | _ :: _ => sx ++ "," ++ join r
             end
         end) items
  | VObj _ => "[object Object]"
  end.

(** An own property of an object literal; keys are distinct in JSON data. *)
Fixpoint lookup (k : string) (fields : list (string * value)) : value :=
  match fields with
  | [] => VUndefined
  | (k', v) :: r => if (k =? k')%string then v else lookup k r
  end.

(** [Array.isArray(v) ? v : []]. *)
Definition arrayOrEmpty (v : value) : list value :=
  match v with
  | VArr items => items
  | _ => []
  end.

(** A [TypeError] raised by the engine; the text is the engine's own. *)
Definition TypeError (text : string) : value :=
  VObj [("name", VStr "TypeError"); ("message", VStr text)].

End Js.

(* ===================================================================== *)
(** ** Data model *)
(* ===================================================================== *)

(** [types/patient.ts].  [wallet] and [data] are declared [string]; the
    sources store in them what the directory sent, unchecked, so the model
    keeps the value as it is. *)
Record DigitalBiometric : Type := {
  finger : string;
  data : value
}.

Record Patient : Type := {
  id : Z;
  name : string;
  wallet : value;
  facialBiometric : string;
  digitalBiometrics : list DigitalBiometric;
  imported : bool
}.

Record SyncResult : Type := {
  success : bool;
  message : string;
  updatedPatient : option Patient
}.

Record BeneficiarySearchParams : Type := {
  guarantor : string;
  modality : option string;
  proposal : option string;
  contract : option string
}.

Module Beneficiary.
Record t : Type := {
  name : value;
  fullName : value;
  nome : value;
  healthInsurer : string;
  cardNumber : string;
  completeCardNumber : value
}.
End Beneficiary.

(** One element of what [getFingerprints] returns. *)
Record Fingerprint : Type := {
  fingerCode : value;
  biometry : value
}.

(** The kinds of message of the import dialog. *)
Module Msg.
Inductive type : Type := info | success | error.
End Msg.

(* ===================================================================== *)
(** ** Asynchronous computations *)
(* ===================================================================== *)

(** A settled promise: fulfilled with a result or rejected with a reason. *)
Inductive outcome (A : Type) : Type :=
| Ok (a : A)
| Throw (reason : value).
Arguments Ok {A} a.
Arguments Throw {A} reason.

(** What the program does to the outside, in the order it does it: the
    requests to the backend, the pauses, the dialogs of the browser, and the
    state setters and callbacks of the import dialog. *)
Inductive event : Type :=
| Invoke (cmd : string) (args : value)
| Sleep (ms : Z)
| Alert (text : string)
| Confirm (text : string)
| SetMessage (text : string) (kind : Msg.type)
| ClearMessageAfter (ms : Z)
| SetLoading (b : bool)
| SetSearchResults (results : list Beneficiary.t)
| SetShowResults (b : bool)
| OnImport (p : Patient).

(** The outside: how the backend settles each [invoke], as a function of the
    command and its arguments, and what the user answers to [confirm]. *)
Record Env : Type := {
  backend : string -> value -> outcome value;
  answer : string -> bool
}.

Definition M (A : Type) : Type := Env -> outcome A * list event.

Module Async.

Definition ret {A} (a : A) : M A := fun _ => (Ok a, []).

Definition throw {A} (reason : value) : M A := fun _ => (Throw reason, []).

Definition bind {A B} (m : M A) (k : A -> M B) : M B :=
  fun env =>
    match m env with
    | (Ok a, t1) => let (o, t2) := k a env in (o, (t1 ++ t2)%list)
    | (Throw e, t1) => (Throw e, t1)
    end.

(** [try { body } catch (e) { handler }]. *)
Definition try_catch {A} (body : M A) (handler : value -> M A) : M A :=
  fun env =>
    match body env with
    | (Ok a, t1) => (Ok a, t1)
    | (Throw e, t1) => let (o, t2) := handler e env in (o, (t1 ++ t2)%list)
    end.

(** [try { body } finally { final }], [final] having no result of its own. *)
Definition try_finally {A} (body : M A) (final : M unit) : M A :=
  fun env =>
    let (o, t1) := body env in
    match final env with
    | (Ok _, t2) => (o, (t1 ++ t2)%list)
    | (Throw e, t2) => (Throw e, (t1 ++ t2)%list)
    end.

Definition emit (e : event) : M unit := fun _ => (Ok tt, [e]).

(** [await invoke(cmd, args)]. *)
Definition invoke (cmd : string) (args : value) : M value :=
  fun env => (backend env cmd args, [Invoke cmd args]).

(** [await new Promise(resolve => setTimeout(resolve, ms))]. *)
Definition sleep (ms : Z) : M unit := emit (Sleep ms).

Definition alert (text : string) : M unit := emit (Alert text).

Definition confirm (text : string) : M bool :=
  fun env => (Ok (answer env text), [Confirm text]).

(** [await Promise.all([a, b, c])]: the three calls are started in turn and
    the result is the triple of their results, or the rejection of the one
    that rejects (the first of the array, should several reject; in the
    program the first call alone can). *)
Definition all3 {A B C} (a : M A) (b : M B) (c : M C) : M (A * B * C) :=
  fun env =>
    let (oa, ta) := a env in
    let (ob, tb) := b env in
    let (oc, tc) := c env in
    (match oa, ob, oc with
     | Ok x, Ok y, Ok z => Ok (x, y, z)
     | Throw e, _, _ => Throw e
     | _, Throw e, _ => Throw e
     | _, _, Throw e => Throw e
     end, (ta ++ tb ++ tc)%list).

Definition all2 {A B} (a : M A) (b : M B) : M (A * B) :=
  fun env =>
    let (oa, ta) := a env in
    let (ob, tb) := b env in
    (match oa, ob with
     | Ok x, Ok y => Ok (x, y)
     | Throw e, _ => Throw e
     | _, Throw e => Throw e
     end, (ta ++ tb)%list).

(** [xs.map(f)] with a callback that may throw. *)
Fixpoint mapM {A B} (f : A -> M B) (xs : list A) : M (list B) :=
  match xs with
  | [] => ret []
  | x :: r => bind (f x) (fun y => bind (mapM f r) (fun ys => ret (y :: ys)))
  end.

(** [xs.filter(f)] with a callback that may throw. *)
Fixpoint filterM {A} (f : A -> M bool) (xs : list A) : M (list A) :=
  match xs with
  | [] => ret []
  | x :: r =>
      bind (f x) (fun keep =>
      bind (filterM f r) (fun ys => ret (if keep then x :: ys else ys)))
  end.

(** [for (const x of xs) { body }] over the variables the body updates. *)
Fixpoint forOf {A S} (xs : list A) (body : S -> A -> M S) (s : S) : M S :=
  match xs with
  | [] => ret s
  | x :: r => bind (body s x) (forOf r body)
  end.

End Async.

Declare Scope async_scope.
Delimit Scope async_scope with async.
Notation "x <- m ;; k" := (Async.bind m (fun x => k))
  (at level 61, m at next level, right associativity) : async_scope.
Notation "' pat <- m ;; k" := (Async.bind m (fun x => match x with pat => k end))
  (at level 61, pat pattern, m at next level, right associativity) : async_scope.
Notation "m ;; k" := (Async.bind m (fun _ => k))
  (at level 61, right associativity) : async_scope.
Local Open Scope async_scope.

Module JsOps.
Import Async.

(** [v.k]: reading a property of [undefined] or [null] throws; a string,
    a number, a boolean or an array has none of the properties the program
    reads by name. *)
Definition get (v : value) (k : string) : M value :=
  match v with
  | VUndefined =>
      throw (Js.TypeError ("Cannot read properties of undefined (reading '" ++ k ++ "')"))
  | VNull =>
      throw (Js.TypeError ("Cannot read properties of null (reading '" ++ k ++ "')"))
  | VObj fields => ret (Js.lookup k fields)
  | _ => ret VUndefined
  end.

(** [v?.k]. *)
Definition getOpt (v : value) (k : string) : M value :=
  if Js.nullish v then ret VUndefined else get v k.

(** [a || b], the right operand evaluated only when needed. *)
Definition orElse (a b : M value) : M value :=
  x <- a ;; if Js.truthy x then ret x else b.

(** [a ?? b]. *)
Definition coalesce (a b : M value) : M value :=
  x <- a ;; if Js.nullish x then b else ret x.

(** [v.trim()]: only a string has the method. *)
Definition trim (v : value) : M string :=
  match v with
  | VStr s => ret (JsString.trim s)
  | VUndefined | VNull =>
      throw (Js.TypeError "Cannot read properties of undefined (reading 'trim')")
  | _ => throw (Js.TypeError "trim is not a function")
  end.

(** [v?.toLowerCase().includes(t)]. *)
Definition lowerIncludesOpt (v : value) (t : string) : M value :=
  match v with
  | VUndefined | VNull => ret VUndefined
  | VStr s => ret (VBool (JsString.includes (JsString.toLowerCase s) t))
  | _ => throw (Js.TypeError "toLowerCase is not a function")
  end.

(** [v?.includes(t)]: the substring test of a string, the membership test
    of an array. *)
Definition includesOpt (v : value) (t : string) : M value :=
  match v with
  | VUndefined | VNull => ret VUndefined
  | VStr s => ret (VBool (JsString.includes s t))
  | VArr items =>
      ret (VBool (existsb (fun x => match x with
                                    | VStr s => (s =? t)%string
                                    | _ => false
                                    end) items))
  | _ => throw (Js.TypeError "includes is not a function")
  end.

(** An optional field of an object literal: [undefined] when absent. *)
Definition ofOption (o : option string) : value :=
  match o with
  | Some s => VStr s
  | None => VUndefined
  end.

End JsOps.

Notation "a '<||>' b" := (JsOps.orElse a b) (at level 51, left associativity) : async_scope.
Notation "a '<??>' b" := (JsOps.coalesce a b) (at level 51, left associativity) : async_scope.
Notation "v '.[' k ']'" := (JsOps.get v k) (at level 1, left associativity, format "v .[ k ]") : async_scope.
Notation "v '.?[' k ']'" := (JsOps.getOpt v k) (at level 1, left associativity, format "v .?[ k ]") : async_scope.

(** [a || b] on operands already evaluated. *)
Definition orValue (a b : value) : value := if Js.truthy a then a else b.
Definition orString (a b : string) : string := if (a =? "")%string then b else a.
Notation "a '<|>' b" := (orValue a b) (at level 51, left associativity) : async_scope.

(* ===================================================================== *)
(** ** [services/patientSyncService.ts] *)
(* ===================================================================== *)

Module PatientSyncService.
Import Async.

(** The object literal [{ params }] sent with a search. *)
Definition paramsValue (params : BeneficiarySearchParams) : value :=
  VObj [("guarantor", VStr (guarantor params));
        ("modality", JsOps.ofOption (modality params));
        ("proposal", JsOps.ofOption (proposal params));
        ("contract", JsOps.ofOption (contract params))].

(** The callback of [list.map] in [searchBeneficiaries]. *)
Definition normalize (b : value) : M Beneficiary.t :=
  hi <- b.["healthInsurer"] <??> ret (VStr "") ;;
  let healthInsurerStr := Js.ToString hi in
  cn <- b.["cardNumber"] <??> ret (VStr "") ;;
  let cardNumStr := Js.ToString cn in
  completeCard <- b.["completeCardNumber"]
                  <??> ret (VStr (JsString.padStart0 4 healthInsurerStr
                                  ++ JsString.padStart0 13 cardNumStr)) ;;
  resolved <- b.["name"] <||> b.["cardName"] <||> b.["fullName"] <||> b.["nome"]
              <||> ret (VStr "") ;;
  ret {| Beneficiary.name := resolved;
         Beneficiary.fullName := VUndefined;
         Beneficiary.nome := VUndefined;
         Beneficiary.healthInsurer := healthInsurerStr;
         Beneficiary.cardNumber := cardNumStr;
         Beneficiary.completeCardNumber := completeCard |}.

(** The callback of [normalized.filter] in [searchBeneficiaries]. *)
Definition matchesTerm (searchTerm : string) (b : Beneficiary.t) : M bool :=
  keep <- JsOps.lowerIncludesOpt (Beneficiary.name b) searchTerm
          <||> ret (VBool (JsString.includes (Beneficiary.healthInsurer b) searchTerm))
          <||> ret (VBool (JsString.includes (Beneficiary.cardNumber b) searchTerm))
          <||> JsOps.includesOpt (Beneficiary.completeCardNumber b) searchTerm ;;
  ret (Js.truthy keep).

Definition searchBeneficiaries (params : BeneficiarySearchParams)
  : M (list Beneficiary.t) :=
  results <- invoke "search_beneficiaries" (VObj [("params", paramsValue params)]) ;;
  let list := Js.arrayOrEmpty results in
  normalized <- mapM normalize list ;;
  if negb (guarantor params =? "")%string then
    let searchTerm := JsString.toLowerCase (guarantor params) in
    filterM (matchesTerm searchTerm) normalized
  else ret normalized.

(** [cardNumber.slice(-13).replace(/^0+/, "")]. *)
Definition directoryQueryId (cardNumber : string) : string :=
  JsString.stripLeadingZeros (JsString.sliceLast 13 cardNumber).

Definition getBeneficiaryDetails (cardNumber : value) : M Beneficiary.t :=
  numericCard <- match cardNumber with
                 | VStr s => ret (directoryQueryId s)
                 | VUndefined | VNull =>
                     throw (Js.TypeError "Cannot read properties of undefined (reading 'slice')")
                 | VArr _ => throw (Js.TypeError "replace is not a function")
                 | _ => throw (Js.TypeError "slice is not a function")
                 end ;;
  details <- invoke "get_beneficiary_details" (VObj [("cardNumber", VStr numericCard)]) ;;
  resolved <- details.["cardName"] <||> details.["name"]
              <||> (person <- details.["person"] ;; person.?["name"])
              <||> ret (VStr "") ;;
  hi <- details.["healthInsurer"] <||> ret (VStr "") ;;
  let healthInsurer := JsString.padStart0 4 (Js.ToString hi) in
  cn <- details.["cardNumber"] <||> ret cardNumber ;;
  let cardNumberStr := Js.ToString cn in
  completeCardNumber <- details.["completeCardNumber"]
                        <||> ret (VStr (healthInsurer ++ cardNumberStr)) ;;
  ret {| Beneficiary.name := resolved;
         Beneficiary.fullName := VUndefined;
         Beneficiary.nome := VUndefined;
         Beneficiary.healthInsurer := healthInsurer;
         Beneficiary.cardNumber := cardNumberStr;
         Beneficiary.completeCardNumber := completeCardNumber |}.

Definition getFingerprints (cardNumber : value) : M (list Fingerprint) :=
  let numericCard := cardNumber in
  try_catch
    (fingerprints <- invoke "get_fingerprints" (VObj [("cardNumber", numericCard)]) ;;
     let fingerprintsArray := Js.arrayOrEmpty fingerprints in
     mapM (fun fp =>
             code <- fp.["fingerCode"] <||> fp.["code"] <||> ret (VNum 0) ;;
             bio <- fp.["biometry"] <||> fp.["data"] <||> ret (VStr "") ;;
             ret {| fingerCode := code; biometry := bio |})
          fingerprintsArray)
    (fun _ => ret []).

Definition getFacialBiometry (cardNumber : value) : M string :=
  let numericCard := cardNumber in
  try_catch
    (raw <- invoke "get_facial_biometry" (VObj [("cardNumber", numericCard)]) ;;
     base64 <- match raw with
               | VStr s => ret s
               | VObj _ | VArr _ =>
                   photo <- raw.["photo"] ;;
                   if Js.truthy photo then ret (Js.ToString photo) else ret ""
               | _ => ret ""
               end ;;
     let base64 := if JsString.includes base64 ","
                   then last (JsString.split ","%char base64) ""
                   else base64 in
     let base64 := JsString.trim (JsString.removeWhiteSpace base64) in
     ret base64)
    (fun _ => ret "").

Definition getFingerName (code : value) : string :=
  match code with
  | VNum 1 => String "M" (String JsString.iacute "nimo Esquerdo")
  | VNum 2 => "Anelar Esquerdo"
  | VNum 3 => String "M" (String JsString.eacute "dio Esquerdo")
  | VNum 4 => "Indicador Esquerdo"
  | VNum 5 => "Polegar Esquerdo"
  | VNum 6 => "Polegar Direito"
  | VNum 7 => "Indicador Direito"
  | VNum 8 => String "M" (String JsString.eacute "dio Direito")
  | VNum 9 => "Anelar Direito"
  | VNum 10 => String "M" (String JsString.iacute "nimo Direito")
  | _ => "Dedo " ++ Js.ToString code
  end.

(** The merge of [syncPatient]: the object literal [{ ...patient, name,
    wallet, digitalBiometrics, facialBiometric }]. *)
Definition merged (patient : Patient) (details : Beneficiary.t)
    (apiResolvedName : string) (biometrics : list DigitalBiometric)
    (facialBiometry : string) : Patient :=
  {| id := id patient;
     name := orString (name patient) apiResolvedName;
     wallet := Beneficiary.completeCardNumber details <|> wallet patient;
     facialBiometric := facialBiometry;
     digitalBiometrics := biometrics;
     imported := imported patient |}.

Definition syncPatient (patient : Patient) : M SyncResult :=
  if negb (imported patient) then
    ret {| success := false;
           message := "Apenas pacientes importados podem ser sincronizados.";
           updatedPatient := None |}
  else
    try_catch
      ('(details, fingerprints, facialBiometry) <-
         all3 (getBeneficiaryDetails (wallet patient))
              (getFingerprints (wallet patient))
              (getFacialBiometry (wallet patient)) ;;
       let fingerprintsArray := fingerprints in
       let biometrics :=
         map (fun fp => {| finger := getFingerName (fingerCode fp);
                           data := biometry fp |}) fingerprintsArray in
       apiResolvedName <-
         JsOps.trim (Beneficiary.name details <|> Beneficiary.fullName details
                     <|> Beneficiary.nome details <|> VStr "") ;;
       let updated := merged patient details apiResolvedName biometrics facialBiometry in
       ret {| success := true;
              message := "Paciente " ++ JsString.dquote ++ name updated
                         ++ JsString.dquote ++ " sincronizado com sucesso!";
              updatedPatient := Some updated |})
      (fun error =>
         msg <- error.["message"] ;;
         ret {| success := false;
                message := "Erro ao sincronizar paciente: " ++ Js.ToString msg;
                updatedPatient := None |}).

(** The body of the loop of [syncAllPatients]; [results] is the array the
    loop pushes to. *)
Definition syncStep (results : list SyncResult) (patient : Patient)
  : M (list SyncResult) :=
  try_catch
    (result <- syncPatient patient ;;
     let results := (results ++ [result])%list in
     sleep 200 ;;
     ret results)
    (fun error =>
       msg <- error.["message"] ;;
       ret (results ++ [ {| success := false;
                            message := "Erro ao sincronizar " ++ name patient ++ ": "
                                       ++ Js.ToString msg;
                            updatedPatient := None |} ])%list).

Definition syncAllPatients (patients : list Patient) : M (list SyncResult) :=
  let importedPatients := filter imported patients in
  if (length importedPatients =? 0)%nat then
    ret [ {| success := false;
             message := "Nenhum paciente importado para sincronizar.";
             updatedPatient := None |} ]
  else
    forOf importedPatients syncStep [].

End PatientSyncService.

(* ===================================================================== *)
(** ** The import dialog *)
(* ===================================================================== *)

Module ImportPatientDialog.
Import Async.

(** A one-character string, for the letters above 127 of the messages. *)
Definition ch (n : nat) : string := String (ascii_of_nat n) EmptyString.

Definition getFingerNameByCode (code : value) : string :=
  match code with
  | VNum 1 => String "M" (String JsString.iacute "nimo Esquerdo")
  | VNum 2 => "Anelar Esquerdo"
  | VNum 3 => String "M" (String JsString.eacute "dio Esquerdo")
  | VNum 4 => "Indicador Esquerdo"
  | VNum 5 => "Polegar Esquerdo"
  | VNum 6 => "Polegar Direito"
  | VNum 7 => "Indicador Direito"
  | VNum 8 => String "M" (String JsString.eacute "dio Direito")
  | VNum 9 => "Anelar Direito"
  | VNum 10 => String "M" (String JsString.iacute "nimo Direito")
  | _ => "Dedo " ++ Js.ToString code
  end.

Definition updateMessage (text : string) (kind : Msg.type) : M unit :=
  emit (SetMessage text kind) ;;
  match kind with
  | Msg.success => emit (ClearMessageAfter 3000)
  | _ => ret tt
  end.

(** [s.trim() || undefined] in an object literal. *)
Definition trimmedOrUndefined (s : string) : option string :=
  let t := JsString.trim s in
  if (t =? "")%string then None else Some t.

(** The dialog's [searchBeneficiaries], over the four inputs of the form. *)
Definition searchBeneficiaries (guarantor modality proposal contract : string)
  : M unit :=
  if (JsString.trim guarantor =? "")%string then
    updateMessage ("O campo 'Contratante (Guarantor)' " ++ ch 233 ++ " obrigat"
                   ++ ch 243 ++ "rio para a busca avan" ++ ch 231 ++ "ada.")
                  Msg.error
  else
    emit (SetLoading true) ;;
    updateMessage ("Buscando benefici" ++ ch 225 ++ "rios...") Msg.info ;;
    try_finally
      (try_catch
         (let params := {| guarantor := JsString.trim guarantor;
                           modality := trimmedOrUndefined modality;
                           proposal := trimmedOrUndefined proposal;
                           contract := trimmedOrUndefined contract |} in
          results <- PatientSyncService.searchBeneficiaries params ;;
          if (0 <? length results)%nat then
            emit (SetSearchResults results) ;;
            emit (SetShowResults true) ;;
            updateMessage (JsString.ofZ (Z.of_nat (length results)) ++ " benefici"
                           ++ ch 225 ++ "rio(s) encontrado(s). Selecione um para continuar.")
                          Msg.success
          else
            updateMessage ("Nenhum benefici" ++ ch 225
                           ++ "rio encontrado com os filtros informados.") Msg.error ;;
            emit (SetShowResults false))
         (fun err =>
            msg <- err.["message"] ;;
            updateMessage ("Erro na busca: " ++ Js.ToString msg) Msg.error ;;
            emit (SetShowResults false)))
      (emit (SetLoading false)).

(** The conversion of the fetched fingerprints, shared by the two import
    paths: [(fingerprints || []).map(...).filter(b => b.data)]. *)
Definition toDigitalBiometrics (fingerprints : list Fingerprint)
  : list DigitalBiometric :=
  filter (fun b => Js.truthy (data b))
    (map (fun fp =>
            {| finger := match fingerCode fp with
                         | VNum _ => getFingerNameByCode (fingerCode fp)
                         | _ => "Dedo"
                         end;
               data := biometry fp <|> VStr "" |})
         fingerprints).

(** What both import paths do once the name and the wallet are resolved. *)
Definition fetchAndImport (resolvedName : string) (resolvedWallet : value) : M unit :=
  '(fingerprints, facialBiometry) <-
     all2 (PatientSyncService.getFingerprints resolvedWallet)
          (PatientSyncService.getFacialBiometry resolvedWallet) ;;
  let biometrics := toDigitalBiometrics fingerprints in
  let newPatient := {| id := 0;
                       name := resolvedName;
                       wallet := resolvedWallet;
                       facialBiometric := orString facialBiometry "";
                       digitalBiometrics := biometrics;
                       imported := true |} in
  emit (OnImport newPatient) ;;
  updateMessage "Paciente importado com sucesso!" Msg.success.

Definition importPatient (beneficiary : Beneficiary.t) : M unit :=
  emit (SetLoading true) ;;
  updateMessage "Importando paciente..." Msg.info ;;
  try_finally
    (try_catch
       (resolvedName <-
          JsOps.trim (Beneficiary.name beneficiary <|> Beneficiary.fullName beneficiary
                      <|> Beneficiary.nome beneficiary <|> VStr "") ;;
        let resolvedWallet :=
          Beneficiary.completeCardNumber beneficiary
          <|> VStr (JsString.padStart0 4 (Beneficiary.healthInsurer beneficiary)
                    ++ JsString.padStart0 13 (Beneficiary.cardNumber beneficiary)) in
        fetchAndImport resolvedName resolvedWallet)
       (fun err =>
          msg <- err.["message"] ;;
          updateMessage ("Erro ao importar: " ++ Js.ToString msg) Msg.error))
    (emit (SetLoading false)).

Definition handleCardSearch (cardNumber : string) : M unit :=
  if (JsString.trim cardNumber =? "")%string then
    updateMessage ("Digite o n" ++ ch 250 ++ "mero da carteira para buscar.") Msg.error
  else
    emit (SetLoading true) ;;
    updateMessage "Buscando paciente..." Msg.info ;;
    try_finally
      (try_catch
         (beneficiary <-
            PatientSyncService.getBeneficiaryDetails (VStr (JsString.trim cardNumber)) ;;
          resolvedName <-
            JsOps.trim (Beneficiary.name beneficiary <|> Beneficiary.fullName beneficiary
                        <|> Beneficiary.nome beneficiary <|> VStr "") ;;
          let resolvedWallet :=
            Beneficiary.completeCardNumber beneficiary
            <|> VStr (JsString.trim cardNumber) in
          fetchAndImport resolvedName resolvedWallet)
         (fun err =>
            msg <- err.["message"] ;;
            updateMessage ("Erro ao buscar paciente: " ++ Js.ToString msg) Msg.error))
      (emit (SetLoading false)).

End ImportPatientDialog.

(* ===================================================================== *)
(** ** The durable store adapter *)
(* ===================================================================== *)

Module PatientStore.
Import Async.

Definition toPatientSnake (p : Patient) : value :=
  VObj [("id", VNum (id p));
        ("name", VStr (name p));
        ("wallet", wallet p);
        ("facial_biometric", VStr (facialBiometric p));
        ("digital_biometrics",
          VArr (map (fun d => VObj [("finger", VStr (finger d)); ("data", data d)])
                    (digitalBiometrics p)));
        ("imported", VBool (imported p))].

Definition savePatients (patients : list Patient) : M unit :=
  let snake := map toPatientSnake patients in
  invoke "save_patients" (VObj [("patients", VArr snake)]) ;;
  ret tt.

(** The callback of [digital_biometrics.map] in [toPatientCamel]. *)
Definition toBiometricCamel (d : value) : M value :=
  f <- d.["finger"] ;;
  x <- d.["data"] ;;
  ret (VObj [("finger", f); ("data", x)]).

(** [xs.map(f)] on a value typed [any]: only an array has the method; the
    elements of the array are mapped in turn. *)
Definition mapAny (f : value -> M value) (xs : value) : M (list value) :=
  match xs with
  | VArr items => mapM f items
  | VUndefined | VNull =>
      throw (Js.TypeError "Cannot read properties of undefined (reading 'map')")
  | _ => throw (Js.TypeError "map is not a function")
  end.

(** [toPatientCamel]: the patient, as the object the function builds. *)
Definition toPatientCamel (raw : value) : M value :=
  id_ <- raw.["id"] ;;
  name_ <- raw.["name"] <??> raw.["full_name"] <??> raw.["fullName"] <??> raw.["nome"]
           <??> ret (VStr "") ;;
  wallet_ <- raw.["wallet"] ;;
  facial <- raw.["facial_biometric"] <??> ret (VStr "") ;;
  digital <- raw.["digital_biometrics"] <??> ret (VArr []) ;;
  biometrics <- mapAny toBiometricCamel digital ;;
  imported_ <- raw.["imported"] ;;
  ret (VObj [("id", id_);
             ("name", name_);
             ("wallet", wallet_);
             ("facialBiometric", facial);
             ("digitalBiometrics", VArr biometrics);
             ("imported", VBool (Js.truthy imported_))]).

Definition loadPatients : M (list value) :=
  raw <- invoke "load_patients" VUndefined ;;
  mapAny toPatientCamel raw.

End PatientStore.

(* ===================================================================== *)
(** ** Arithmetic on Numbers that hold integers *)
(* ===================================================================== *)

(** An id is a Number, a double: the integers of at most 53 significant
    bits are Numbers, and a sum is the Number nearest to the exact sum, the
    one of even significand when two are as near. *)
Module Number.

(** [Number.MAX_SAFE_INTEGER]. *)
Definition MAX_SAFE_INTEGER : Z := 2 ^ 53 - 1.

(** [Number.isSafeInteger(n)] on an integer. *)
Definition isSafeInteger (n : Z) : bool :=
  (- MAX_SAFE_INTEGER <=? n) && (n <=? MAX_SAFE_INTEGER).

(** The Number nearest to the integer [z], ties to even.  (From 2^1024 on
    the result would be [Infinity]; no sum below comes near.) *)
Definition round (z : Z) : Z :=
  let a := Z.abs z in
  if a <? 2 ^ 53 then z
  else
    let e := Z.log2 a - 52 in
    let q := Z.shiftr a e in
    let r := a - Z.shiftl q e in
    let half := Z.shiftl 1 (e - 1) in
    let q' := if r <? half then q
              else if half <? r then q + 1
              else if Z.even q then q else q + 1 in
    Z.sgn z * Z.shiftl q' e.

(** [a + b] on two Numbers that hold integers. *)
Definition add (a b : Z) : Z := round (a + b).

End Number.

(* ===================================================================== *)
(** ** The patient manager: the list of patients and its handlers *)
(* ===================================================================== *)

(** Each handler takes the list the component holds and returns the list it
    holds afterwards: the argument of [setPatients], or the list unchanged
    when the handler does not call it. *)
Module PatientManager.
Import Async.

Definition withId (patient : Patient) (newId : Z) : Patient :=
  {| id := newId;
     name := name patient;
     wallet := wallet patient;
     facialBiometric := facialBiometric patient;
     digitalBiometrics := digitalBiometrics patient;
     imported := imported patient |}.

(** [patients.reduce((max, p) => Math.max(max, p.id), 0)]: the maximum is
    one of its operands, it is exact; the sum [maxId + 1] of the handlers is
    a sum of Numbers, [Number.add]. *)
Definition maxId (patients : list Patient) : Z :=
  fold_left (fun max p => Z.max max (id p)) patients 0.

(** [patients.map(p => p.id === target ? replacement : p)]. *)
Definition replaceById (patients : list Patient) (target : Z) (replacement : Patient)
  : list Patient :=
  map (fun p => if id p =? target then replacement else p) patients.

Definition handleSavePatient (patients : list Patient) (patient : Patient)
  : M (list Patient) :=
  try_catch
    (let updatedPatients :=
       if id patient =? 0 then
         let newPatient := withId patient (Number.add (maxId patients) 1) in
         (patients ++ [newPatient])%list
       else replaceById patients (id patient) patient in
     PatientStore.savePatients updatedPatients ;;
     ret updatedPatients)
    (fun err =>
       msg <- err.["message"] ;;
       alert ("Erro ao salvar paciente: " ++ Js.ToString msg) ;;
       ret patients).

Definition handleImportPatient (patients : list Patient) (patient : Patient)
  : M (list Patient) :=
  try_catch
    (let newPatient := withId patient (Number.add (maxId patients) 1) in
     let updatedPatients := (patients ++ [newPatient])%list in
     PatientStore.savePatients updatedPatients ;;
     ret updatedPatients)
    (fun err =>
       msg <- err.["message"] ;;
       alert ("Erro ao importar paciente: " ++ Js.ToString msg) ;;
       ret patients).

Definition handleDeletePatient (patients : list Patient) (patient : Patient)
  : M (list Patient) :=
  ok <- confirm ("Tem certeza que deseja remover o paciente " ++ JsString.dquote
                 ++ name patient ++ JsString.dquote ++ "?") ;;
  if negb ok then ret patients
  else
    try_catch
      (let updatedPatients := filter (fun p => negb (id p =? id patient)) patients in
       PatientStore.savePatients updatedPatients ;;
       ret updatedPatients)
      (fun err =>
         msg <- err.["message"] ;;
         alert ("Erro ao remover paciente: " ++ Js.ToString msg) ;;
         ret patients).

Definition handleSyncPatient (patients : list Patient) (patient : Patient)
  : M (list Patient) :=
  if negb (imported patient) then
    alert "Apenas pacientes importados podem ser sincronizados." ;;
    ret patients
  else
    try_catch
      (result <- PatientSyncService.syncPatient patient ;;
       match success result, updatedPatient result with
       | true, Some updated =>
           let updatedPatients := replaceById patients (id patient) updated in
           PatientStore.savePatients updatedPatients ;;
           alert (message result) ;;
           ret updatedPatients
       | _, _ =>
           alert (message result) ;;
           ret patients
       end)
      (fun err =>
         msg <- err.["message"] ;;
         alert ("Erro ao sincronizar paciente: " ++ Js.ToString msg) ;;
         ret patients).

(** The list the component holds after a handler has run: the one it set,
    and the one it had when the handler's promise is rejected. *)
Definition after (patients : list Patient) (handler : M (list Patient)) (env : Env)
  : list Patient :=
  match fst (handler env) with
  | Ok updated => updated
  | Throw _ => patients
  end.

(** The variables the loop of [handleSyncAllPatients] updates: the list
    given to [setPatients] last and the two counters. *)
Record BatchState : Type := {
  current : list Patient;
  updatedCount : Z;
  errorCount : Z
}.

(** The loop of [handleSyncAllPatients] over the results, [patients] being
    the list the handler was created with.  A rejected save ends the loop;
    the variables are then as the turns before have left them, and the
    reason of the rejection goes to the [catch] block of the handler. *)
Fixpoint applyResults (patients : list Patient) (results : list SyncResult)
    (st : BatchState) (env : Env) : (BatchState * option value) * list event :=
  match results with
  | [] => ((st, None), [])
  | result :: rest =>
      match success result, updatedPatient result with
      | true, Some updated =>
          let updatedPatients := replaceById patients (id updated) updated in
          match PatientStore.savePatients updatedPatients env with
          | (Ok _, t1) =>
              let (r, t2) :=
                applyResults patients rest
                  {| current := updatedPatients;
                     updatedCount := updatedCount st + 1;
                     errorCount := errorCount st |} env in
              (r, (t1 ++ t2)%list)
          | (Throw e, t1) => ((st, Some e), t1)
          end
      | _, _ =>
          applyResults patients rest
            {| current := current st;
               updatedCount := updatedCount st;
               errorCount := errorCount st + 1 |} env
      end
  end.

(** The [catch] block of [handleSyncAllPatients]. *)
Definition reportBatchFailure (err : value) : M unit :=
  msg <- err.["message"] ;;
  alert ("Erro ao sincronizar pacientes: " ++ Js.ToString msg).

(** The message that closes a batch. *)
Definition batchSummary (st : BatchState) : string :=
  "Sincroniza" ++ ImportPatientDialog.ch 231 ++ ImportPatientDialog.ch 227
  ++ "o conclu" ++ ImportPatientDialog.ch 237 ++ "da."
  ++ ImportPatientDialog.ch 10 ++ ImportPatientDialog.ch 10
  ++ "Pacientes atualizados: " ++ JsString.ofZ (updatedCount st)
  ++ ImportPatientDialog.ch 10 ++ "Falhas: " ++ JsString.ofZ (errorCount st).

(** [handleSyncAllPatients]: the list the component holds afterwards, how
    the promise of the handler settles, and the events.  The list set by a
    turn of the loop stays set when a later turn fails. *)
Definition handleSyncAllPatients (patients : list Patient) (env : Env)
  : (list Patient * outcome unit) * list event :=
  let importedPatients := filter imported patients in
  if (length importedPatients =? 0)%nat then
    ((patients, Ok tt), [Alert "Nenhum paciente importado para sincronizar."])
  else
    let question := "Sincronizar " ++ JsString.ofZ (Z.of_nat (length importedPatients))
                    ++ " paciente(s) importado(s)?" in
    if negb (answer env question) then ((patients, Ok tt), [Confirm question])
    else
      match PatientSyncService.syncAllPatients patients env with
      | (Ok results, t1) =>
          match applyResults patients results
                  {| current := patients; updatedCount := 0; errorCount := 0 |} env with
          | ((st, None), t2) =>
              ((current st, Ok tt),
               (Confirm question :: t1 ++ t2 ++ [Alert (batchSummary st)])%list)
          | ((st, Some err), t2) =>
              let (o, t3) := reportBatchFailure err env in
              ((current st, o), (Confirm question :: t1 ++ t2 ++ t3)%list)
          end
      | (Throw err, t1) =>
          let (o, t3) := reportBatchFailure err env in
          ((patients, o), (Confirm question :: t1 ++ t3)%list)
      end.

End PatientManager.

(* ===================================================================== *)
(** ** Definitions used to state the properties *)
(* ===================================================================== *)

Module Spec.
Import Async.

(** The finger table as the specification words it: the ten labels in the
    order of the codes, and "Dedo n" for any other integer. *)
Definition fingerLabels : list string :=
  [ String "M" (String JsString.iacute "nimo Esquerdo");
    "Anelar Esquerdo";
    String "M" (String JsString.eacute "dio Esquerdo");
    "Indicador Esquerdo";
    "Polegar Esquerdo";
    "Polegar Direito";
    "Indicador Direito";
    String "M" (String JsString.eacute "dio Direito");
    "Anelar Direito";
    String "M" (String JsString.iacute "nimo Direito") ].

Definition fingerLabel (code : Z) : string :=
  if (1 <=? code) && (code <=? 10)
  then nth (Z.to_nat (code - 1)) fingerLabels ""
  else "Dedo " ++ JsString.ofZ code.

(** What a fetch settles with: the two fetches that swallow their failures
    always have a result. *)
Definition fetchedFingerprints (w : value) (env : Env) : list Fingerprint :=
  match fst (PatientSyncService.getFingerprints w env) with
  | Ok l => l
  | Throw _ => []
  end.

Definition fetchedFacial (w : value) (env : Env) : string :=
  match fst (PatientSyncService.getFacialBiometry w env) with
  | Ok s => s
  | Throw _ => ""
  end.

(** The name [syncPatient] resolves from the details, before trimming. *)
Definition resolvedName (details : Beneficiary.t) : value :=
  Beneficiary.name details <|> Beneficiary.fullName details
  <|> Beneficiary.nome details <|> VStr "".

(** The fetched fingerprints in the format of the patient. *)
Definition mappedBiometrics (fingerprints : list Fingerprint) : list DigitalBiometric :=
  map (fun fp => {| finger := PatientSyncService.getFingerName (fingerCode fp);
                    data := biometry fp |}) fingerprints.

(** The result of a successful [syncPatient]. *)
Definition synchronized (updated : Patient) : SyncResult :=
  {| success := true;
     message := "Paciente " ++ JsString.dquote ++ name updated
                ++ JsString.dquote ++ " sincronizado com sucesso!";
     updatedPatient := Some updated |}.

(** The [catch] block of [syncPatient]. *)
Definition reportFailure (error : value) : M SyncResult :=
  msg <- error.["message"] ;;
  ret {| success := false;
         message := "Erro ao sincronizar paciente: " ++ Js.ToString msg;
         updatedPatient := None |}.

(** A computation is constant when it settles the same way whatever the
    backend and the user answer. *)
Definition constant {A} (m : M A) : Prop := forall env env', m env = m env'.

(** The outside [env], the backend settling every [cmd] request with [o]. *)
Definition withAnswer (env : Env) (cmd : string) (o : outcome value) : Env :=
  {| backend := fun c args => if (c =? cmd)%string then o else backend env c args;
     answer := answer env |}.

(** The filter of the search as the specification words it: every one of
    the four fields compared without regard to letter case. *)
Definition keptCaseInsensitive (guarantor name healthInsurer cardNumber complete : string)
  : bool :=
  let t := JsString.toLowerCase guarantor in
  JsString.includes (JsString.toLowerCase name) t
  || JsString.includes (JsString.toLowerCase healthInsurer) t
  || JsString.includes (JsString.toLowerCase cardNumber) t
  || JsString.includes (JsString.toLowerCase complete) t.

(** The filter with the name alone compared without regard to letter case. *)
Definition keptNameInsensitive (guarantor name healthInsurer cardNumber complete : string)
  : bool :=
  let t := JsString.toLowerCase guarantor in
  JsString.includes (JsString.toLowerCase name) t
  || JsString.includes healthInsurer t
  || JsString.includes cardNumber t
  || JsString.includes complete t.

(** A normalized search result whose name and complete card number are
    strings, and the strings they hold. *)
Definition stringFields (b : Beneficiary.t) : option (string * string) :=
  match Beneficiary.name b, Beneficiary.completeCardNumber b with
  | VStr n, VStr c => Some (n, c)
  | _, _ => None
  end.

Definition keptBy (guarantor : string) (b : Beneficiary.t) : bool :=
  match stringFields b with
  | Some (n, c) =>
      keptNameInsensitive guarantor n (Beneficiary.healthInsurer b)
                          (Beneficiary.cardNumber b) c
  | None => false
  end.

(** The result of a batch for one patient: the result of [syncPatient] for
    that patient, or a failure of its own when [syncPatient] rejects. *)
Definition resultOf (env : Env) (patient : Patient) (r : SyncResult) : Prop :=
  fst (PatientSyncService.syncPatient patient env) = Ok r
  \/ (exists e, fst (PatientSyncService.syncPatient patient env) = Throw e
                /\ success r = false /\ updatedPatient r = None).

(** Every event of a computation satisfies [P], whatever the outside. *)
Definition emits (P : event -> Prop) {A} (m : M A) : Prop :=
  forall env, Forall P (snd (m env)).

(** A patient handed to [onImport] has no fingerprint without image. *)
Definition importsFiltered (ev : event) : Prop :=
  match ev with
  | OnImport p =>
      id p = 0 /\ imported p = true
      /\ Forall (fun d => Js.truthy (data d) = true /\ data d <> VStr "")
                (digitalBiometrics p)
  | _ => True
  end.

(** The requests to the backend among the events. *)
Definition isRequest (ev : event) : bool :=
  match ev with
  | Invoke _ _ => true
  | _ => false
  end.

(** The backend accepts every [save_patients]. *)
Definition savesSucceed (env : Env) : Prop :=
  forall args, exists v, backend env "save_patients" args = Ok v.

End Spec.

(* ===================================================================== *)
(** ** Concrete directories and patients *)
(* ===================================================================== *)

Module Scenario.

(** The card number a request carries. *)
Definition cardOf (args : value) : string :=
  match args with
  | VObj fields => Js.ToString (Js.lookup "cardNumber" fields)
  | _ => ""
  end.

(** A directory given by its three answers, each a function of the card
    number asked for; it accepts every [save_patients] and the user
    confirms every question. *)
Definition directory (details fingerprints facial : string -> outcome value) : Env :=
  {| backend := fun cmd args =>
       if (cmd =? "get_beneficiary_details")%string then details (cardOf args)
       else if (cmd =? "get_fingerprints")%string then fingerprints (cardOf args)
       else if (cmd =? "get_facial_biometry")%string then facial (cardOf args)
       else if (cmd =? "save_patients")%string then Ok VNull
       else Throw (VStr "unknown command");
     answer := fun _ => true |}.

Definition maria : Patient :=
  {| id := 7;
     name := "Maria";
     wallet := VStr "00010000000000042";
     facialBiometric := "b2xk";
     digitalBiometrics := [ {| finger := "Polegar Direito"; data := VStr "QUJD" |} ];
     imported := true |}.

Definition mariaDetails : value :=
  VObj [("name", VStr "Maria Souza"); ("healthInsurer", VStr "0001");
        ("cardNumber", VStr "0000000000042")].

Definition oneFingerprint : value :=
  VArr [VObj [("fingerCode", VNum 6); ("biometry", VStr "QUJD")]].

(** Every request answered. *)
Definition allUp : Env :=
  directory (fun _ => Ok mariaDetails) (fun _ => Ok oneFingerprint)
            (fun _ => Ok (VStr "ZmFjZQ==")).

(** The facial request rejected, the other two answered. *)
Definition facialDown : Env :=
  directory (fun _ => Ok mariaDetails) (fun _ => Ok oneFingerprint)
            (fun _ => Throw (VStr "HTTP 500")).

(** The details request rejected, the other two answered. *)
Definition detailsDown : Env :=
  directory (fun _ => Throw (VStr "HTTP 500")) (fun _ => Ok oneFingerprint)
            (fun _ => Ok (VStr "ZmFjZQ==")).

(** A fingerprint record without image among the answers. *)
Definition emptyFingerprint : Env :=
  directory (fun _ => Ok mariaDetails)
            (fun _ => Ok (VArr [VObj [("fingerCode", VNum 1); ("biometry", VStr "")]]))
            (fun _ => Ok (VStr "ZmFjZQ==")).

(** The details of card 2 rejected, every other request answered. *)
Definition secondDown : Env :=
  directory (fun card => if (card =? "2")%string then Throw (VStr "HTTP 500")
                         else Ok (VObj [("name", VStr "Directory Name")]))
            (fun _ => Ok oneFingerprint)
            (fun _ => Ok (VStr "ZmFjZQ==")).

Definition patientOf (n : Z) (card : string) (fromDirectory : bool) : Patient :=
  {| id := n;
     name := "";
     wallet := VStr card;
     facialBiometric := "";
     digitalBiometrics := [];
     imported := fromDirectory |}.

Definition threeImported : list Patient :=
  [ patientOf 1 "00010000000000001" true;
    patientOf 2 "00010000000000002" true;
    patientOf 3 "00010000000000003" true ].

(** A draft, as the add form and the import dialog hand it to the manager. *)
Definition draft (who : string) : Patient :=
  {| id := 0;
     name := who;
     wallet := VStr "00010000000000042";
     facialBiometric := "";
     digitalBiometrics := [];
     imported := false |}.

(** A search answered with one record whose insurer is in capitals. *)
Definition capitalInsurer : Env :=
  {| backend := fun cmd _ =>
       if (cmd =? "search_beneficiaries")%string
       then Ok (VArr [VObj [("name", VStr "Ana Lima"); ("healthInsurer", VStr "UNIMED");
                            ("cardNumber", VStr "42")]])
       else Throw (VStr "unknown command");
     answer := fun _ => true |}.

(** The store after the manager has saved a new patient called [who]. *)
Definition created (env : Env) (store : list Patient) (who : string) : list Patient :=
  PatientManager.after store (PatientManager.handleSavePatient store (draft who)) env.

(** The store after the manager has deleted the patient of id [target]. *)
Definition removed (env : Env) (store : list Patient) (target : Z) : list Patient :=
  match find (fun p => id p =? target) store with
  | Some p => PatientManager.after store (PatientManager.handleDeletePatient store p) env
  | None => store
  end.

(** A search answered with the record of the specification's scenario;
    "ã" is the code unit 227. *)
Definition joao : string := "Jo" ++ String (ascii_of_nat 227) "o".

Definition oneJoao : Env :=
  {| backend := fun cmd _ =>
       if (cmd =? "search_beneficiaries")%string
       then Ok (VArr [VObj [("name", VStr (joao ++ " Silva")); ("healthInsurer", VStr "1");
                            ("cardNumber", VStr "42")]])
       else Throw (VStr "unknown command");
     answer := fun _ => true |}.

Definition searchFor (term : string) : BeneficiarySearchParams :=
  {| guarantor := term; modality := None; proposal := None; contract := None |}.

End Scenario.

(* ===================================================================== *)
(** ** The biometric uploader *)
(* ===================================================================== *)

(** [window.atob] decodes with the forgiving-base64 algorithm: ASCII white
    space is removed, then one or two [=] at the end when the length is a
    multiple of 4; a length of 1 modulo 4 and any character outside the
    alphabet make it throw. *)
Module Base64.

Definition isAsciiWhitespace (c : ascii) : bool :=
  let n := nat_of_ascii c in
  (n =? 9)%nat || (n =? 10)%nat || (n =? 12)%nat || (n =? 13)%nat || (n =? 32)%nat.

Definition isAlphabet (c : ascii) : bool :=
  let n := nat_of_ascii c in
  ((65 <=? n)%nat && (n <=? 90)%nat) || ((97 <=? n)%nat && (n <=? 122)%nat)
  || ((48 <=? n)%nat && (n <=? 57)%nat) || (n =? 43)%nat || (n =? 47)%nat.

Fixpoint removeAsciiWhitespace (s : string) : list ascii :=
  match s with
  | EmptyString => []
  | String c r =>
      if isAsciiWhitespace c then removeAsciiWhitespace r
      else c :: removeAsciiWhitespace r
  end.

Definition isPad (c : ascii) : bool := Ascii.eqb c "="%char.

Definition dropPadding (data : list ascii) : list ascii :=
  if (length data mod 4 =? 0)%nat then
    match rev data with
    | p :: q :: r => if isPad p then (if isPad q then rev r else rev (q :: r)) else data
    | [p] => if isPad p then [] else data
    | [] => data
    end
  else data.

(** [atob(s)] returns, and does not throw. *)
Definition decodes (s : string) : bool :=
  let data := dropPadding (removeAsciiWhitespace s) in
  negb (length data mod 4 =? 1)%nat && forallb isAlphabet data.

End Base64.

Module BiometricUploader.
Import Async.

Definition getImageSrc (base64 : string) : string :=
  if prefix "data:image" base64 then base64
  else if prefix "/9j/" base64 then "data:image/jpeg;base64," ++ base64
  else if prefix "iVBOR" base64 then "data:image/png;base64," ++ base64
  else if prefix "R0lGOD" base64 then "data:image/gif;base64," ++ base64
  else "data:image;base64," ++ base64.

(** What the [onload] callback of [processFile] stores for the data URL the
    reader has produced: [result.split(",")[1]]. *)
Definition uploaded (result : string) : value :=
  match JsString.split ","%char result with
  | _ :: payload :: _ => VStr payload
  | _ => VUndefined
  end.

(** [saveEditedBase64]: the value given to [setBase64Value] and to
    [onBiometricChange], if any. *)
Definition saveEditedBase64 (editableBase64 : string) : M (option string) :=
  if Base64.decodes (JsString.trim editableBase64) then
    ret (Some (JsString.trim editableBase64))
  else
    alert ("Base64 inv" ++ ImportPatientDialog.ch 225 ++ "lido. Verifique o conte"
           ++ ImportPatientDialog.ch 250 ++ "do e tente novamente.") ;;
    ret None.

End BiometricUploader.

(* ===================================================================== *)
(** ** The form that adds and edits a patient *)
(* ===================================================================== *)

(** The state of the form. *)
Module Form.
Record t : Type := {
  name : string;
  wallet : value;
  facialBiometric : string;
  digitalBiometrics : list DigitalBiometric
}.
End Form.

(** The object [newErrors] of [validateForm]. *)
Module FormErrors.
Record t : Type := {
  name : option string;
  wallet : option string
}.
End FormErrors.

Module AddEditPatient.
Import Async.

(** The initial state, for the patient edited if there is one. *)
Definition initial (patient : option Patient) : Form.t :=
  match patient with
  | Some p =>
      {| Form.name := orString (name p) "";
         Form.wallet := wallet p <|> VStr "";
         Form.facialBiometric := orString (facialBiometric p) "";
         Form.digitalBiometrics := digitalBiometrics p |}
  | None =>
      {| Form.name := "";
         Form.wallet := VStr "";
         Form.facialBiometric := "";
         Form.digitalBiometrics := [] |}
  end.

(** [validateForm]: the errors it sets and its result. *)
Definition validateForm (f : Form.t) : M (FormErrors.t * bool) :=
  let nameError :=
    if (JsString.trim (Form.name f) =? "")%string
    then Some ("Nome " ++ ImportPatientDialog.ch 233 ++ " obrigat"
               ++ ImportPatientDialog.ch 243 ++ "rio")
    else None in
  w <- JsOps.trim (Form.wallet f) ;;
  let walletError :=
    if (w =? "")%string
    then Some ("N" ++ ImportPatientDialog.ch 250 ++ "mero da carteira "
               ++ ImportPatientDialog.ch 233 ++ " obrigat"
               ++ ImportPatientDialog.ch 243 ++ "rio")
    else None in
  ret ({| FormErrors.name := nameError; FormErrors.wallet := walletError |},
       match nameError, walletError with
       | None, None => true
       | _, _ => false
       end).

(** [handleSave]: the errors set, and the patient given to [onSave] if any. *)
Definition handleSave (patient : option Patient) (f : Form.t)
  : M (FormErrors.t * option Patient) :=
  '(errors, valid) <- validateForm f ;;
  if negb valid then ret (errors, None)
  else
    w <- JsOps.trim (Form.wallet f) ;;
    ret (errors,
         Some {| id := match patient with Some p => id p | None => 0 end;
                 name := JsString.trim (Form.name f);
                 wallet := VStr w;
                 facialBiometric := Form.facialBiometric f;
                 digitalBiometrics := Form.digitalBiometrics f;
                 imported := match patient with
                             | Some p => imported p
                             | None => false
                             end |}).

Definition handleAddDigitalBiometric (biometrics : list DigitalBiometric)
  : list DigitalBiometric :=
  (biometrics ++ [ {| finger := "Polegar Direito"; data := VStr "" |} ])%list.

(** [xs.filter((_, i) => i !== index)], [i] counted from [from]. *)
Fixpoint withoutIndex {A} (index from : nat) (xs : list A) : list A :=
  match xs with
  | [] => []
  | x :: r =>
      if (from =? index)%nat then withoutIndex index (S from) r
      else x :: withoutIndex index (S from) r
  end.

Definition handleRemoveDigitalBiometric (index : nat)
    (biometrics : list DigitalBiometric) : list DigitalBiometric :=
  withoutIndex index 0 biometrics.

End AddEditPatient.

(* ===================================================================== *)
(** ** The local biometry server *)
(* ===================================================================== *)

Module BiometryServerService.
Import Async.

Definition startBiometryServer (host : string) (port : Z) (biometryData : list value)
  : M value :=
  try_catch
    (invoke "start_biometry_server"
            (VObj [("host", VStr host);
                   ("port", VNum port);
                   ("biometryData", VArr biometryData);
                   ("match", VBool true);
                   ("message", VStr ("Verifica" ++ ImportPatientDialog.ch 231
                                     ++ ImportPatientDialog.ch 227 ++ "o simulada."));
                   ("success", VBool true)]))
    (fun error => throw error).

Definition stopBiometryServer (host : string) (port : Z) : M value :=
  try_catch
    (invoke "stop_biometry_server" (VObj [("host", VStr host); ("port", VNum port)]))
    (fun error => throw error).

End BiometryServerService.

Module BiometryServerManager.
Import Async.

(** The state of the component. *)
Record State : Type := {
  selectedPatientId : option Z;
  isServerActive : bool;
  serverHost : string;
  serverPort : Z;
  statusText : string;
  statusIsError : bool
}.

Definition withStatus (st : State) (active : bool) (text : string) (isError : bool)
  : State :=
  {| selectedPatientId := selectedPatientId st;
     isServerActive := active;
     serverHost := serverHost st;
     serverPort := serverPort st;
     statusText := text;
     statusIsError := isError |}.

(** [patients.find(p => p.id === selectedPatientId)]. *)
Definition selectedPatient (patients : list Patient) (st : State) : option Patient :=
  match selectedPatientId st with
  | Some n => find (fun p => id p =? n) patients
  | None => None
  end.

(** [name.split(' ')[0]]. *)
Definition firstWord (s : string) : string := hd "" (JsString.split " "%char s).

(** [toggleServer]: the state of the component afterwards.  The setters are
    called once the request has been answered, so that a rejected request
    leaves the state to the [catch] block as it was. *)
Definition toggleServer (patients : list Patient) (st : State) : M State :=
  try_catch
    (if isServerActive st then
       BiometryServerService.stopBiometryServer (serverHost st) (serverPort st) ;;
       ret (withStatus st false "Servidor Local: Desativado" false)
     else
       match selectedPatient patients st with
       | None => ret (withStatus st false "Erro: Selecione um paciente primeiro" true)
       | Some selected =>
           let biometricData := map data (digitalBiometrics selected) in
           if (length biometricData =? 0)%nat then
             ret (withStatus st false
                    ("Erro: O paciente selecionado n" ++ ImportPatientDialog.ch 227
                     ++ "o possui biometrias digitais") true)
           else
             BiometryServerService.startBiometryServer
               (serverHost st) (serverPort st) biometricData ;;
             ret (withStatus st true
                    ("Servidor Local: Ativo para " ++ firstWord (name selected)) false)
       end)
    (fun error =>
       msg <- error.["message"] ;;
       ret (withStatus st (isServerActive st)
              ("Erro: " ++ Js.ToString (msg <|> VStr "Falha ao controlar servidor"))
              true)).

End BiometryServerManager.

(* ===================================================================== *)
(** ** Definitions used to state further properties *)
(* ===================================================================== *)

Module Behaviour.
Import Async.

(** A computation without any event. *)
Definition silent {A} (m : M A) : Prop := Spec.emits (fun _ => False) m.

(** Every character of a string satisfies [ok]. *)
Fixpoint allChars (ok : ascii -> bool) (s : string) : bool :=
  match s with
  | EmptyString => true
  | String c r => ok c && allChars ok r
  end.

Definition isComma (c : ascii) : bool := Ascii.eqb c ","%char.

(** Neither white space nor a comma. *)
Definition payloadChar (c : ascii) : bool :=
  negb (JsString.isWhiteSpace c) && negb (isComma c).

(** [v.k] where [v] is neither [null] nor [undefined]. *)
Definition field (v : value) (k : string) : value :=
  match v with
  | VObj fields => Js.lookup k fields
  | _ => VUndefined
  end.

(** The record [getFingerprints] makes of one element of the answer. *)
Definition recordOf (fp : value) : Fingerprint :=
  {| fingerCode := field fp "fingerCode" <|> field fp "code" <|> VNum 0;
     biometry := field fp "biometry" <|> field fp "data" <|> VStr "" |}.

(** The callback of [fingerprintsArray.map] in [getFingerprints]. *)
Definition toFingerprint (fp : value) : M Fingerprint :=
  code <- fp.["fingerCode"] <||> fp.["code"] <||> ret (VNum 0) ;;
  bio <- fp.["biometry"] <||> fp.["data"] <||> ret (VStr "") ;;
  ret {| fingerCode := code; biometry := bio |}.

(** What [getFingerprints] returns for an answer of the directory: a record
    for each element of an array, unless one of them is [null] or
    [undefined]; nothing for any other answer and for a rejection. *)
Definition recordsOf (answer : outcome value) : list Fingerprint :=
  match answer with
  | Ok (VArr items) => if existsb Js.nullish items then [] else map recordOf items
  | _ => []
  end.

(** The requests of [syncPatient] for a patient: the details by the
    directory query id (none when the wallet is not a string), the
    fingerprints and the facial image by the wallet as it is. *)
Definition requestsOf (p : Patient) : list event :=
  if imported p then
    (match wallet p with
     | VStr w => [Invoke "get_beneficiary_details"
                         (VObj [("cardNumber",
                                 VStr (PatientSyncService.directoryQueryId w))])]
     | _ => []
     end
     ++ [Invoke "get_fingerprints" (VObj [("cardNumber", wallet p)]);
         Invoke "get_facial_biometry" (VObj [("cardNumber", wallet p)])])%list
  else [].

(** The pause of the batch after a patient: there is one when
    [syncPatient] has returned, and none when it has rejected. *)
Definition pauseAfter (env : Env) (p : Patient) : list event :=
  match fst (PatientSyncService.syncPatient p env) with
  | Ok _ => [Sleep 200]
  | Throw _ => []
  end.

Definition isSetLoading (ev : event) : bool :=
  match ev with
  | SetLoading _ => true
  | _ => false
  end.

(** A trace that leaves the loading indicator alone, or switches it on
    first and off last, and not in between. *)
Definition loadingBracketed (t : list event) : Prop :=
  existsb isSetLoading t = false
  \/ exists mid,
       t = (SetLoading true :: mid ++ [SetLoading false])%list
       /\ existsb isSetLoading mid = false.

(** The wallet [importPatient] resolves for a search result. *)
Definition importWallet (b : Beneficiary.t) : value :=
  Beneficiary.completeCardNumber b
  <|> VStr (JsString.padStart0 4 (Beneficiary.healthInsurer b)
            ++ JsString.padStart0 13 (Beneficiary.cardNumber b)).

(** The draft both import paths hand to [onImport]. *)
Definition importedDraft (env : Env) (resolvedName : string) (resolvedWallet : value)
  : Patient :=
  {| id := 0;
     name := resolvedName;
     wallet := resolvedWallet;
     facialBiometric := Spec.fetchedFacial resolvedWallet env;
     digitalBiometrics :=
       ImportPatientDialog.toDigitalBiometrics
         (Spec.fetchedFingerprints resolvedWallet env);
     imported := true |}.

(** The question [handleDeletePatient] asks. *)
Definition deleteQuestion (p : Patient) : string :=
  "Tem certeza que deseja remover o paciente " ++ JsString.dquote
  ++ name p ++ JsString.dquote ++ "?".

(** The request that saves a list of patients. *)
Definition saveRequest (patients : list Patient) : event :=
  Invoke "save_patients"
         (VObj [("patients", VArr (map PatientStore.toPatientSnake patients))]).

(** A patient as the object [toPatientCamel] builds. *)
Definition ofPatient (p : Patient) : value :=
  VObj [("id", VNum (id p));
        ("name", VStr (name p));
        ("wallet", wallet p);
        ("facialBiometric", VStr (facialBiometric p));
        ("digitalBiometrics",
          VArr (map (fun d => VObj [("finger", VStr (finger d)); ("data", data d)])
                    (digitalBiometrics p)));
        ("imported", VBool (imported p))].




(** The backend rejects every [save_patients]. *)
Definition savesFail (env : Env) : Prop :=
  forall args, exists e, backend env "save_patients" args = Throw e.

(** The signatures by which the uploader recognizes an image format. *)
Definition signatures : list (string * string) :=
  [("jpeg", "/9j/"); ("png", "iVBOR"); ("gif", "R0lGOD")].

(** What a string accepted as base64 is made of. *)
Definition base64Char (c : ascii) : bool :=
  Base64.isAlphabet c || Base64.isPad c || Base64.isAsciiWhitespace c.

(** The form has found nothing to report. *)
Definition noErrors : FormErrors.t :=
  {| FormErrors.name := None; FormErrors.wallet := None |}.

(** What [getBeneficiaryDetails] makes of the directory's answer: the name
    it resolves, the insurer code, the card number ([w] is the wallet it was
    asked for) and the complete card number. *)
Definition directoryName (answer : value) : value :=
  field answer "cardName" <|> field answer "name"
  <|> field (field answer "person") "name" <|> VStr "".

Definition directoryInsurer (answer : value) : string :=
  JsString.padStart0 4 (Js.ToString (field answer "healthInsurer" <|> VStr "")).

Definition directoryCard (answer : value) (w : string) : string :=
  Js.ToString (field answer "cardNumber" <|> VStr w).

Definition directoryWallet (answer : value) (w : string) : value :=
  field answer "completeCardNumber"
  <|> VStr (directoryInsurer answer ++ directoryCard answer w).

Definition detailsOf (answer : value) (w : string) : Beneficiary.t :=
  {| Beneficiary.name := directoryName answer;
     Beneficiary.fullName := VUndefined;
     Beneficiary.nome := VUndefined;
     Beneficiary.healthInsurer := directoryInsurer answer;
     Beneficiary.cardNumber := directoryCard answer w;
     Beneficiary.completeCardNumber := directoryWallet answer w |}.

(** The request for the details of the wallet [w]. *)
Definition detailsArgs (w : string) : value :=
  VObj [("cardNumber", VStr (PatientSyncService.directoryQueryId w))].

End Behaviour.

(* ===================================================================== *)
(** ** More backends *)
(* ===================================================================== *)

Module Cases.

(** A backend that rejects every command. *)
Definition allDown : Env :=
  {| backend := fun _ _ => Throw (VStr "disk full");
     answer := fun _ => true |}.

(** A backend whose store holds [patients]; every other command resolves
    with [true]. *)
Definition stored (patients : list Patient) : Env :=
  {| backend := fun cmd _ =>
       if (cmd =? "load_patients")%string
       then Ok (VArr (map PatientStore.toPatientSnake patients))
       else Ok (VBool true);
     answer := fun _ => true |}.

(** The form filled in for a new patient, with blanks around the inputs. *)
Definition filled : Form.t :=
  {| Form.name := "  Ana Lima ";
     Form.wallet := VStr " 00010000000000042";
     Form.facialBiometric := "";
     Form.digitalBiometrics := [] |}.

(** The server manager with Maria selected and the server stopped. *)
Definition mariaSelected : BiometryServerManager.State :=
  {| BiometryServerManager.selectedPatientId := Some 7;
     BiometryServerManager.isServerActive := false;
     BiometryServerManager.serverHost := "127.0.0.1";
     BiometryServerManager.serverPort := 21004;
     BiometryServerManager.statusText := "Servidor Local: Desativado";
     BiometryServerManager.statusIsError := false |}.



(** The directory answers with a name alone. *)
Definition nameOnly : Env :=
  Scenario.directory (fun _ => Ok (VObj [("name", VStr "Maria Souza")]))
                     (fun _ => Ok Scenario.oneFingerprint)
                     (fun _ => Ok (VStr "ZmFjZQ==")).


End Cases.

(* ===================================================================== *)
(** ** Strings *)
(* ===================================================================== *)

Section StringFacts.

Lemma skip_length (n : nat) (s : string) :
  String.length (JsString.skip n s) = (String.length s - n)%nat.
Proof.
  revert s; induction n as [|n IH]; intros s; simpl.
  - lia.
  - destruct s as [|c r]; simpl; [reflexivity | apply IH].
Qed.

Lemma skip_suffix (n : nat) (s : string) :
  exists pre, s = pre ++ JsString.skip n s
              /\ String.length pre = Nat.min n (String.length s).
Proof.
  revert s; induction n as [|n IH]; intros s.
  - exists ""; split; reflexivity.
  - destruct s as [|c r]; simpl.
    + exists ""; split; reflexivity.
    + destruct (IH r) as [pre [E L]].
      exists (String c pre); split; simpl; congruence.
Qed.

Lemma sliceLast_length (n : nat) (s : string) :
  String.length (JsString.sliceLast n s) = Nat.min n (String.length s).
Proof. unfold JsString.sliceLast; rewrite skip_length; lia. Qed.

Lemma sliceLast_short (n : nat) (s : string) :
  (String.length s <= n)%nat -> JsString.sliceLast n s = s.
Proof.
  intros H; unfold JsString.sliceLast.
  replace (String.length s - n)%nat with 0%nat by lia; reflexivity.
Qed.

Lemma strip_zeros (s : string) :
  exists k, s = JsString.zeros k ++ JsString.stripLeadingZeros s.
Proof.
  induction s as [|c r [k IH]].
  - exists 0%nat; reflexivity.
  - destruct (Ascii.eqb_spec c "0"%char) as [->|N].
    + exists (S k); simpl; congruence.
    + exists 0%nat; simpl.
      destruct c as [[] [] [] [] [] [] [] []]; try reflexivity.
      now elim N.
Qed.

Lemma strip_head (s : string) :
  prefix "0" (JsString.stripLeadingZeros s) = false.
Proof.
  induction s as [|c r IH]; [reflexivity|].
  destruct (Ascii.eqb_spec c "0"%char) as [->|N]; [exact IH|].
  destruct c as [[] [] [] [] [] [] [] []]; try reflexivity.
  now elim N.
Qed.

Lemma strip_fixed (s : string) :
  prefix "0" s = false -> JsString.stripLeadingZeros s = s.
Proof.
  destruct s as [|c r]; [reflexivity|].
  destruct c as [[] [] [] [] [] [] [] []]; try reflexivity.
  simpl; destruct r; discriminate.
Qed.

Lemma strip_length (s : string) :
  (String.length (JsString.stripLeadingZeros s) <= String.length s)%nat.
Proof.
  induction s as [|c r IH]; [simpl; lia|].
  destruct (Ascii.eqb_spec c "0"%char) as [->|N]; [simpl in *; lia|].
  destruct c as [[] [] [] [] [] [] [] []]; simpl; lia.
Qed.

End StringFacts.

(** C9: the directory query id of a wallet is what remains of its last 13
    characters (all of it when it is shorter) once the leading zeros are
    removed, and computing it again on the result changes nothing. *)
Theorem directoryQueryId_idempotent (w : string) :
  (exists pre k,
      w = pre ++ JsString.zeros k ++ PatientSyncService.directoryQueryId w
      /\ String.length (JsString.zeros k ++ PatientSyncService.directoryQueryId w)
         = Nat.min 13 (String.length w)
      /\ prefix "0" (PatientSyncService.directoryQueryId w) = false)
  /\ PatientSyncService.directoryQueryId (PatientSyncService.directoryQueryId w)
     = PatientSyncService.directoryQueryId w.
Proof.
  unfold PatientSyncService.directoryQueryId.
  split.
  - destruct (skip_suffix (String.length w - 13) w) as [pre [E _]].
    destruct (strip_zeros (JsString.sliceLast 13 w)) as [k Ek].
    exists pre, k. fold (JsString.sliceLast 13 w) in E.
    rewrite <- Ek. repeat split.
    + exact E.
    + apply sliceLast_length.
    + apply strip_head.
  - rewrite (sliceLast_short 13 (JsString.stripLeadingZeros (JsString.sliceLast 13 w))).
    + apply strip_fixed, strip_head.
    + pose proof (strip_length (JsString.sliceLast 13 w)) as L.
      rewrite sliceLast_length in L. lia.
Qed.

(* ===================================================================== *)
(** ** The finger table *)
(* ===================================================================== *)

Lemma getFingerName_other (n : Z) :
  n < 1 \/ 10 < n ->
  PatientSyncService.getFingerName (VNum n) = "Dedo " ++ JsString.ofZ n.
Proof.
  intros H. destruct n as [|p|p]; try reflexivity.
  do 4 (try (destruct p as [p|p|]); try reflexivity); lia.
Qed.

Lemma getFingerName_same (v : value) :
  ImportPatientDialog.getFingerNameByCode v = PatientSyncService.getFingerName v.
Proof. reflexivity. Qed.

(** C7: the finger-code mapping is defined on every integer: the codes 1 to
    10 have the ten labels of the table, in order, every other integer [n],
    zero and the negative ones included, has "Dedo n"; the import dialog's
    table and the service's give the same label to every integer. *)
Theorem fingerName_table (n : Z) :
  PatientSyncService.getFingerName (VNum n) = Spec.fingerLabel n
  /\ ImportPatientDialog.getFingerNameByCode (VNum n)
     = PatientSyncService.getFingerName (VNum n).
Proof.
  split; [|apply getFingerName_same].
  unfold Spec.fingerLabel.
  destruct ((1 <=? n) && (n <=? 10)) eqn:E.
  - apply andb_true_iff in E as [L U].
    apply Z.leb_le in L, U.
    assert (n = 1 \/ n = 2 \/ n = 3 \/ n = 4 \/ n = 5 \/ n = 6 \/ n = 7
            \/ n = 8 \/ n = 9 \/ n = 10) as C by lia.
    repeat (destruct C as [->|C]; [reflexivity|]); subst n; reflexivity.
  - apply getFingerName_other.
    apply andb_false_iff in E as [E|E]; apply Z.leb_gt in E; lia.
Qed.

(* ===================================================================== *)
(** ** Computations: results and traces *)
(* ===================================================================== *)

Section AsyncFacts.
Import Async.

Lemma fst_bind {A B} (m : M A) (k : A -> M B) (env : Env) :
  fst (bind m k env)
  = match fst (m env) with
    | Ok a => fst (k a env)
    | Throw e => Throw e
    end.
Proof.
  unfold bind. destruct (m env) as [[a|e] t]; simpl; [|reflexivity].
  destruct (k a env); reflexivity.
Qed.

Lemma fst_try_catch {A} (body : M A) (handler : value -> M A) (env : Env) :
  fst (try_catch body handler env)
  = match fst (body env) with
    | Ok a => Ok a
    | Throw e => fst (handler e env)
    end.
Proof.
  unfold try_catch. destruct (body env) as [[a|e] t]; simpl; [reflexivity|].
  destruct (handler e env); reflexivity.
Qed.

Lemma snd_bind {A B} (m : M A) (k : A -> M B) (env : Env) :
  snd (bind m k env)
  = (snd (m env) ++ match fst (m env) with
                    | Ok a => snd (k a env)
                    | Throw _ => []
                    end)%list.
Proof.
  unfold bind. destruct (m env) as [[a|e] t]; cbn [fst snd].
  - destruct (k a env); reflexivity.
  - now rewrite app_nil_r.
Qed.

Lemma snd_try_catch {A} (body : M A) (handler : value -> M A) (env : Env) :
  snd (try_catch body handler env)
  = (snd (body env) ++ match fst (body env) with
                       | Ok _ => []
                       | Throw e => snd (handler e env)
                       end)%list.
Proof.
  unfold try_catch. destruct (body env) as [[a|e] t]; cbn [fst snd].
  - now rewrite app_nil_r.
  - destruct (handler e env); reflexivity.
Qed.

Lemma snd_try_finally {A} (body : M A) (final : M unit) (env : Env) :
  snd (try_finally body final env) = (snd (body env) ++ snd (final env))%list.
Proof.
  unfold try_finally.
  destruct (body env) as [o t], (final env) as [[u|e] t2]; reflexivity.
Qed.

Lemma fst_get (v : value) (k : string) (env : Env) :
  Js.nullish v = false ->
  exists x, fst (JsOps.get v k env) = Ok x.
Proof. destruct v; simpl; intros H; try discriminate; eexists; reflexivity. Qed.

Lemma get_throws (v : value) (k : string) (env : Env) (e : value) :
  fst (JsOps.get v k env) = Throw e -> exists text, e = Js.TypeError text.
Proof.
  destruct v; simpl; intros H; try discriminate;
    injection H as <-; eexists; reflexivity.
Qed.

End AsyncFacts.

Section AsyncAll.
Import Async.

Lemma fst_all3 {A B C} (a : M A) (b : M B) (c : M C) (env : Env) :
  fst (all3 a b c env)
  = match fst (a env), fst (b env), fst (c env) with
    | Ok x, Ok y, Ok z => Ok (x, y, z)
    | Throw e, _, _ => Throw e
    | _, Throw e, _ => Throw e
    | _, _, Throw e => Throw e
    end.
Proof.
  unfold all3.
  destruct (a env) as [oa ta], (b env) as [ob tb], (c env) as [oc tc]; reflexivity.
Qed.

Lemma fst_all2 {A B} (a : M A) (b : M B) (env : Env) :
  fst (all2 a b env)
  = match fst (a env), fst (b env) with
    | Ok x, Ok y => Ok (x, y)
    | Throw e, _ => Throw e
    | _, Throw e => Throw e
    end.
Proof.
  unfold all2. destruct (a env) as [oa ta], (b env) as [ob tb]; reflexivity.
Qed.

End AsyncAll.

(* ===================================================================== *)
(** ** The fetches and [syncPatient] *)
(* ===================================================================== *)

Section SyncFacts.
Import Async PatientSyncService.

Variable env : Env.

(** The two fetches with a [catch] of their own always have a result. *)
Lemma getFingerprints_settles (w : value) :
  fst (getFingerprints w env) = Ok (Spec.fetchedFingerprints w env).
Proof.
  unfold Spec.fetchedFingerprints, getFingerprints.
  rewrite fst_try_catch. destruct (fst _); reflexivity.
Qed.

Lemma getFacialBiometry_settles (w : value) :
  fst (getFacialBiometry w env) = Ok (Spec.fetchedFacial w env).
Proof.
  unfold Spec.fetchedFacial, getFacialBiometry.
  rewrite fst_try_catch. destruct (fst _); reflexivity.
Qed.

(** [syncPatient] on an imported patient, by the outcome of the details. *)
Lemma syncPatient_imported (p : Patient) :
  imported p = true ->
  fst (syncPatient p env)
  = match fst (getBeneficiaryDetails (wallet p) env) with
    | Throw e => fst (Spec.reportFailure e env)
    | Ok d =>
        match fst (JsOps.trim (Spec.resolvedName d) env) with
        | Throw e => fst (Spec.reportFailure e env)
        | Ok apiResolvedName =>
            Ok (Spec.synchronized
                  (merged p d apiResolvedName
                          (Spec.mappedBiometrics (Spec.fetchedFingerprints (wallet p) env))
                          (Spec.fetchedFacial (wallet p) env)))
        end
    end.
Proof.
  intros H. unfold syncPatient. rewrite H. cbn [negb].
  rewrite fst_try_catch, fst_bind, fst_all3.
  rewrite getFingerprints_settles, getFacialBiometry_settles.
  destruct (fst (getBeneficiaryDetails (wallet p) env)) as [d|e]; [|reflexivity].
  rewrite fst_bind. fold (Spec.resolvedName d).
  destruct (fst (JsOps.trim (Spec.resolvedName d) env)); reflexivity.
Qed.

Lemma syncPatient_not_imported (p : Patient) :
  imported p = false ->
  syncPatient p env
  = (Ok {| success := false;
           message := "Apenas pacientes importados podem ser sincronizados.";
           updatedPatient := None |}, []).
Proof. intros H. unfold syncPatient. rewrite H. reflexivity. Qed.

Lemma reportFailure_reports (e : value) :
  Js.nullish e = false ->
  exists msg,
    fst (Spec.reportFailure e env)
    = Ok {| success := false; message := msg; updatedPatient := None |}.
Proof.
  intros H. unfold Spec.reportFailure. rewrite fst_bind.
  destruct (fst_get e "message" env H) as [x ->].
  eexists; reflexivity.
Qed.

Lemma reportFailure_settles (e : value) :
  (exists msg,
      fst (Spec.reportFailure e env)
      = Ok {| success := false; message := msg; updatedPatient := None |})
  \/ (exists text, fst (Spec.reportFailure e env) = Throw (Js.TypeError text)).
Proof.
  destruct (Js.nullish e) eqn:N.
  - right. destruct e; try discriminate; eexists; reflexivity.
  - left. now apply reportFailure_reports.
Qed.

(** The three ways [syncPatient] settles. *)
Lemma syncPatient_settles (p : Patient) :
  (exists r, fst (syncPatient p env) = Ok r
             /\ success r = false /\ updatedPatient r = None)
  \/ (exists d raw,
         imported p = true
         /\ fst (getBeneficiaryDetails (wallet p) env) = Ok d
         /\ Spec.resolvedName d = VStr raw
         /\ fst (syncPatient p env)
            = Ok (Spec.synchronized
                    (merged p d (JsString.trim raw)
                            (Spec.mappedBiometrics (Spec.fetchedFingerprints (wallet p) env))
                            (Spec.fetchedFacial (wallet p) env))))
  \/ (exists text, fst (syncPatient p env) = Throw (Js.TypeError text)).
Proof.
  destruct (imported p) eqn:I.
  2:{ left. rewrite (syncPatient_not_imported p I). eexists; repeat split. }
  rewrite (syncPatient_imported p I).
  assert (forall e,
    (exists r, fst (Spec.reportFailure e env) = Ok r
               /\ success r = false /\ updatedPatient r = None)
    \/ (exists text, fst (Spec.reportFailure e env) = Throw (Js.TypeError text))) as F.
  { intros e. destruct (reportFailure_settles e) as [[msg ->]|[text ->]].
    - left; eexists; repeat split.
    - right; eexists; reflexivity. }
  destruct (fst (getBeneficiaryDetails (wallet p) env)) as [d|e].
  - destruct (Spec.resolvedName d) as [| |b|n|raw|items|fields] eqn:R;
      try (cbn [JsOps.trim throw ret fst];
           destruct (F (Js.TypeError "Cannot read properties of undefined (reading 'trim')"))
             as [Hf|Hf];
           [left; exact Hf | right; right; exact Hf]);
      try (cbn [JsOps.trim throw ret fst];
           destruct (F (Js.TypeError "trim is not a function")) as [Hf|Hf];
           [left; exact Hf | right; right; exact Hf]).
    right; left. exists d, raw. repeat split; try reflexivity; exact R.
  - destruct (F e) as [Hf|Hf]; [left; exact Hf | right; right; exact Hf].
Qed.

End SyncFacts.

(* ===================================================================== *)
(** ** Synchronizing one patient *)
(* ===================================================================== *)

Section SyncOne.
Import Async PatientSyncService.

(** C10: a successful [syncPatient] returns an updated patient with the id
    and the imported flag of the patient it was given. *)
Theorem syncPatient_frame (env : Env) (p : Patient) (r : SyncResult) :
  fst (syncPatient p env) = Ok r ->
  success r = true ->
  exists u, updatedPatient r = Some u /\ id u = id p /\ imported u = imported p.
Proof.
  intros H S.
  destruct (syncPatient_settles env p)
    as [(r' & E & F & _) | [(d & raw & _ & _ & _ & E) | (text & E)]];
    rewrite E in H.
  - injection H as <-. congruence.
  - injection H as <-. eexists; repeat split.
  - discriminate.
Qed.

Lemma syncPatient_frame_witness :
  fst (syncPatient Scenario.maria Scenario.allUp)
  = Ok (Spec.synchronized
          {| id := 7; name := "Maria"; wallet := VStr "00010000000000042";
             facialBiometric := "ZmFjZQ==";
             digitalBiometrics := [ {| finger := "Polegar Direito"; data := VStr "QUJD" |} ];
             imported := true |})
  /\ exists u,
       Some {| id := 7; name := "Maria"; wallet := VStr "00010000000000042";
               facialBiometric := "ZmFjZQ==";
               digitalBiometrics := [ {| finger := "Polegar Direito"; data := VStr "QUJD" |} ];
               imported := true |} = Some u
       /\ id u = 7 /\ imported u = true.
Proof.
  split; [reflexivity|].
  exact (syncPatient_frame Scenario.allUp Scenario.maria _ eq_refl eq_refl).
Defined.

End SyncOne.

(* ===================================================================== *)
(** ** Computations that do not look at the outside *)
(* ===================================================================== *)

Section Constant.
Import Async.

Lemma bind_ext {A B} (m : M A) (k : A -> M B) (env env' : Env) :
  m env = m env' -> (forall a, k a env = k a env') ->
  bind m k env = bind m k env'.
Proof.
  intros Hm Hk. unfold bind. rewrite Hm.
  destruct (m env') as [[a|e] t]; [rewrite Hk|]; reflexivity.
Qed.

Lemma try_catch_ext {A} (body : M A) (handler : value -> M A) (env env' : Env) :
  body env = body env' -> (forall e, handler e env = handler e env') ->
  try_catch body handler env = try_catch body handler env'.
Proof.
  intros Hb Hh. unfold try_catch. rewrite Hb.
  destruct (body env') as [[a|e] t]; [|rewrite Hh]; reflexivity.
Qed.

Lemma constant_ret {A} (a : A) : Spec.constant (ret a).
Proof. intros env env'; reflexivity. Qed.

Lemma constant_throw {A} (e : value) : Spec.constant (@throw A e).
Proof. intros env env'; reflexivity. Qed.

Lemma constant_emit (e : event) : Spec.constant (emit e).
Proof. intros env env'; reflexivity. Qed.

Lemma constant_bind {A B} (m : M A) (k : A -> M B) :
  Spec.constant m -> (forall a, Spec.constant (k a)) -> Spec.constant (bind m k).
Proof. intros Hm Hk env env'. apply bind_ext; [apply Hm | intros a; apply Hk]. Qed.

Lemma constant_get (v : value) (k : string) : Spec.constant (JsOps.get v k).
Proof. intros env env'; destruct v; reflexivity. Qed.

Lemma constant_getOpt (v : value) (k : string) : Spec.constant (JsOps.getOpt v k).
Proof. intros env env'; destruct v; reflexivity. Qed.

Lemma constant_trim (v : value) : Spec.constant (JsOps.trim v).
Proof. intros env env'; destruct v; reflexivity. Qed.

Lemma constant_orElse (a b : M value) :
  Spec.constant a -> Spec.constant b -> Spec.constant (JsOps.orElse a b).
Proof.
  intros Ha Hb. apply constant_bind; [exact Ha|].
  intros x; destruct (Js.truthy x); [apply constant_ret | exact Hb].
Qed.

Lemma constant_coalesce (a b : M value) :
  Spec.constant a -> Spec.constant b -> Spec.constant (JsOps.coalesce a b).
Proof.
  intros Ha Hb. apply constant_bind; [exact Ha|].
  intros x; destruct (Js.nullish x); [exact Hb | apply constant_ret].
Qed.

Lemma constant_mapM {A B} (f : A -> M B) (xs : list A) :
  (forall x, Spec.constant (f x)) -> Spec.constant (mapM f xs).
Proof.
  intros Hf. induction xs as [|x r IH]; simpl.
  - apply constant_ret.
  - apply constant_bind; [apply Hf|]. intros y.
    apply constant_bind; [exact IH|]. intros ys. apply constant_ret.
Qed.

End Constant.

Create HintDb constant.
#[local] Hint Resolve constant_ret constant_throw constant_emit constant_get
  constant_getOpt constant_trim : constant.

(** Goes through a computation built from the operations above. *)
Ltac constant_steps :=
  repeat first
    [ progress intros
    | progress cbv beta
    | apply constant_bind
    | apply constant_orElse
    | apply constant_coalesce
    | apply constant_mapM
    | solve [auto with constant]
    | match goal with
      | |- Spec.constant (match ?x with _ => _ end) => destruct x
      | |- Spec.constant (if ?x then _ else _) => destruct x
      end ].

Section Fetches.
Import Async PatientSyncService.

(** Each fetch looks at the outside through its own request only. *)
Lemma getBeneficiaryDetails_ext (env env' : Env) (w : value) :
  (forall args, backend env "get_beneficiary_details" args
                = backend env' "get_beneficiary_details" args) ->
  getBeneficiaryDetails w env = getBeneficiaryDetails w env'.
Proof.
  intros H. unfold getBeneficiaryDetails.
  apply bind_ext; [destruct w; reflexivity|]. intros numericCard.
  apply bind_ext; [unfold invoke; rewrite H; reflexivity|]. intros details.
  match goal with |- ?m env = ?m env' => cut (Spec.constant m); [intros C; apply C|] end.
  constant_steps.
Qed.

Lemma getFingerprints_ext (env env' : Env) (w : value) :
  (forall args, backend env "get_fingerprints" args
                = backend env' "get_fingerprints" args) ->
  getFingerprints w env = getFingerprints w env'.
Proof.
  intros H. unfold getFingerprints.
  apply try_catch_ext; [|reflexivity].
  apply bind_ext; [unfold invoke; rewrite H; reflexivity|]. intros fingerprints.
  match goal with |- ?m env = ?m env' => cut (Spec.constant m); [intros C; apply C|] end.
  constant_steps.
Qed.

Lemma getFacialBiometry_ext (env env' : Env) (w : value) :
  (forall args, backend env "get_facial_biometry" args
                = backend env' "get_facial_biometry" args) ->
  getFacialBiometry w env = getFacialBiometry w env'.
Proof.
  intros H. unfold getFacialBiometry.
  apply try_catch_ext; [|reflexivity].
  apply bind_ext; [unfold invoke; rewrite H; reflexivity|]. intros raw.
  match goal with |- ?m env = ?m env' => cut (Spec.constant m); [intros C; apply C|] end.
  constant_steps.
Qed.

(** A rejected request for the fingerprints is an empty list of them. *)
Lemma getFingerprints_rejected (env : Env) (w e : value) :
  backend env "get_fingerprints" (VObj [("cardNumber", w)]) = Throw e ->
  Spec.fetchedFingerprints w env = [].
Proof.
  intros H. unfold Spec.fetchedFingerprints, getFingerprints.
  rewrite fst_try_catch, fst_bind. unfold invoke. cbn [fst]. rewrite H. reflexivity.
Qed.

(** A rejected request for the facial image is an empty image. *)
Lemma getFacialBiometry_rejected (env : Env) (w e : value) :
  backend env "get_facial_biometry" (VObj [("cardNumber", w)]) = Throw e ->
  Spec.fetchedFacial w env = "".
Proof.
  intros H. unfold Spec.fetchedFacial, getFacialBiometry.
  rewrite fst_try_catch, fst_bind. unfold invoke. cbn [fst]. rewrite H. reflexivity.
Qed.

(** A rejected request for the details rejects the fetch of the details. *)
Lemma getBeneficiaryDetails_rejected (env : Env) (w : string) (e : value) :
  backend env "get_beneficiary_details"
          (VObj [("cardNumber", VStr (directoryQueryId w))]) = Throw e ->
  fst (getBeneficiaryDetails (VStr w) env) = Throw e.
Proof.
  intros H. unfold getBeneficiaryDetails.
  rewrite fst_bind. cbn [ret fst]. rewrite fst_bind.
  unfold invoke. cbn [fst]. rewrite H. reflexivity.
Qed.

End Fetches.

(* ===================================================================== *)
(** ** Rejected requests *)
(* ===================================================================== *)

Section Rejections.
Import Async PatientSyncService.

Lemma constant_reportFailure (e : value) : Spec.constant (Spec.reportFailure e).
Proof. unfold Spec.reportFailure. constant_steps. Qed.

(** [syncPatient] settles by what its three fetches settle with. *)
Lemma syncPatient_same (env env' : Env) (p : Patient) :
  fst (getBeneficiaryDetails (wallet p) env)
  = fst (getBeneficiaryDetails (wallet p) env') ->
  Spec.fetchedFingerprints (wallet p) env = Spec.fetchedFingerprints (wallet p) env' ->
  Spec.fetchedFacial (wallet p) env = Spec.fetchedFacial (wallet p) env' ->
  fst (syncPatient p env) = fst (syncPatient p env').
Proof.
  intros Hd Hf Hc. destruct (imported p) eqn:I.
  - rewrite !syncPatient_imported by assumption. rewrite Hd, Hf, Hc.
    destruct (fst (getBeneficiaryDetails (wallet p) env')) as [d|e].
    + rewrite (constant_trim (Spec.resolvedName d) env env').
      destruct (fst (JsOps.trim (Spec.resolvedName d) env')) as [n|e];
        [reflexivity | now rewrite (constant_reportFailure e env env')].
    + now rewrite (constant_reportFailure e env env').
  - now rewrite !syncPatient_not_imported.
Qed.

(** After a failed [syncPatient] the manager keeps its list as it is. *)
Lemma handleSyncPatient_failed (env : Env) (patients : list Patient) (p : Patient)
    (msg : string) :
  imported p = true ->
  fst (syncPatient p env)
  = Ok {| success := false; message := msg; updatedPatient := None |} ->
  fst (PatientManager.handleSyncPatient patients p env) = Ok patients.
Proof.
  intros I H. unfold PatientManager.handleSyncPatient. rewrite I. cbn [negb].
  rewrite fst_try_catch, fst_bind, H. reflexivity.
Qed.

(** C1 (amended): for an imported patient, a rejected request for the
    details (the reason being an error value, not [null] or [undefined])
    makes [syncPatient] return [{success: false, message}] without any
    updated patient, and the manager keeps its list of patients as it is.
    A rejected request for the fingerprints or for the
    facial image does not: [syncPatient] settles as it does when the
    directory answers with no fingerprints, or with an empty image, and
    where it succeeds the updated patient has no fingerprint, or an empty
    facial image. *)
Theorem syncPatient_rejections (env : Env) (p : Patient) :
  imported p = true ->
  (forall w e,
      wallet p = VStr w ->
      backend env "get_beneficiary_details"
              (VObj [("cardNumber", VStr (directoryQueryId w))]) = Throw e ->
      Js.nullish e = false ->
      exists msg,
        fst (syncPatient p env)
        = Ok {| success := false; message := msg; updatedPatient := None |}
        /\ forall patients,
             fst (PatientManager.handleSyncPatient patients p env) = Ok patients)
  /\ (forall e,
         backend env "get_fingerprints" (VObj [("cardNumber", wallet p)]) = Throw e ->
         fst (syncPatient p env)
         = fst (syncPatient p (Spec.withAnswer env "get_fingerprints" (Ok (VArr []))))
         /\ forall r,
              fst (syncPatient p env) = Ok r -> success r = true ->
              exists u, updatedPatient r = Some u /\ digitalBiometrics u = [])
  /\ (forall e,
         backend env "get_facial_biometry" (VObj [("cardNumber", wallet p)]) = Throw e ->
         fst (syncPatient p env)
         = fst (syncPatient p (Spec.withAnswer env "get_facial_biometry" (Ok (VStr ""))))
         /\ forall r,
              fst (syncPatient p env) = Ok r -> success r = true ->
              exists u, updatedPatient r = Some u /\ facialBiometric u = "").
Proof.
  intros I. split; [|split].
  - intros w e W R N.
    assert (exists msg,
               fst (syncPatient p env)
               = Ok {| success := false; message := msg; updatedPatient := None |})
      as [msg F].
    { rewrite (syncPatient_imported env p I), W.
      rewrite (getBeneficiaryDetails_rejected env w e R).
      now apply reportFailure_reports. }
    exists msg. split; [exact F|].
    intros patients. now apply handleSyncPatient_failed with (msg := msg).
  - intros e R. split.
    + apply syncPatient_same.
      * f_equal. now apply getBeneficiaryDetails_ext.
      * now rewrite (getFingerprints_rejected env (wallet p) e R).
      * unfold Spec.fetchedFacial.
        now rewrite (getFacialBiometry_ext env
                       (Spec.withAnswer env "get_fingerprints" (Ok (VArr [])))).
    + intros r H S.
      destruct (syncPatient_settles env p)
        as [(r' & E & F & _) | [(d & raw & _ & _ & _ & E) | (text & E)]];
        rewrite E in H; [injection H as <-; congruence | | discriminate].
      injection H as <-. eexists. split; [reflexivity|].
      cbn. now rewrite (getFingerprints_rejected env (wallet p) e R).
  - intros e R. split.
    + apply syncPatient_same.
      * f_equal. now apply getBeneficiaryDetails_ext.
      * unfold Spec.fetchedFingerprints.
        now rewrite (getFingerprints_ext env
                       (Spec.withAnswer env "get_facial_biometry" (Ok (VStr "")))).
      * now rewrite (getFacialBiometry_rejected env (wallet p) e R).
    + intros r H S.
      destruct (syncPatient_settles env p)
        as [(r' & E & F & _) | [(d & raw & _ & _ & _ & E) | (text & E)]];
        rewrite E in H; [injection H as <-; congruence | | discriminate].
      injection H as <-. eexists. split; [reflexivity|].
      cbn. now rewrite (getFacialBiometry_rejected env (wallet p) e R).
Qed.

Lemma syncPatient_rejections_witness :
  imported Scenario.maria = true
  /\ wallet Scenario.maria = VStr "00010000000000042"
  /\ backend Scenario.detailsDown "get_beneficiary_details"
             (VObj [("cardNumber", VStr (directoryQueryId "00010000000000042"))])
     = Throw (VStr "HTTP 500")
  /\ Js.nullish (VStr "HTTP 500") = false
  /\ exists msg,
       fst (syncPatient Scenario.maria Scenario.detailsDown)
       = Ok {| success := false; message := msg; updatedPatient := None |}
       /\ forall patients,
            fst (PatientManager.handleSyncPatient patients Scenario.maria
                                                  Scenario.detailsDown)
            = Ok patients.
Proof.
  repeat (split; [reflexivity|]).
  exact (proj1 (syncPatient_rejections Scenario.detailsDown Scenario.maria eq_refl)
               "00010000000000042" (VStr "HTTP 500") eq_refl eq_refl eq_refl).
Defined.

(** C1, as stated, fails where the facial request is rejected and the two
    other requests are answered: [syncPatient] succeeds, and the updated
    patient has lost the facial image the patient had. *)
Lemma syncPatient_facial_rejected :
  imported Scenario.maria = true
  /\ backend Scenario.facialDown "get_facial_biometry"
             (VObj [("cardNumber", wallet Scenario.maria)]) = Throw (VStr "HTTP 500")
  /\ backend Scenario.facialDown "get_beneficiary_details"
             (VObj [("cardNumber", VStr "42")]) = Ok Scenario.mariaDetails
  /\ backend Scenario.facialDown "get_fingerprints"
             (VObj [("cardNumber", wallet Scenario.maria)]) = Ok Scenario.oneFingerprint
  /\ exists r u,
       fst (syncPatient Scenario.maria Scenario.facialDown) = Ok r
       /\ success r = true
       /\ updatedPatient r = Some u
       /\ facialBiometric u = ""
       /\ facialBiometric Scenario.maria = "b2xk".
Proof.
  repeat split.
  eexists; eexists; repeat split.
Qed.

(** The details request rejected: nothing is updated. *)
Example syncPatient_details_rejected :
  syncPatient Scenario.maria Scenario.detailsDown
  = (Ok {| success := false;
           message := "Erro ao sincronizar paciente: undefined";
           updatedPatient := None |},
     [ Invoke "get_beneficiary_details" (VObj [("cardNumber", VStr "42")]);
       Invoke "get_fingerprints" (VObj [("cardNumber", VStr "00010000000000042")]);
       Invoke "get_facial_biometry" (VObj [("cardNumber", VStr "00010000000000042")]) ]).
Proof. reflexivity. Qed.

(** C2, on the failing input: a fingerprint record without image, fetched by
    [syncPatient], is in the updated patient with its empty [data]. *)
Theorem syncPatient_keeps_empty_data :
  fst (syncPatient Scenario.maria Scenario.emptyFingerprint)
  = Ok (Spec.synchronized
          {| id := 7;
             name := "Maria";
             wallet := VStr "00010000000000042";
             facialBiometric := "ZmFjZQ==";
             digitalBiometrics :=
               [ {| finger := String "M" (String JsString.iacute "nimo Esquerdo");
                    data := VStr "" |} ];
             imported := true |}).
Proof. reflexivity. Qed.

(** The local name "Maria" is kept when the directory resolves
    "Maria Souza". *)
Example syncPatient_maria :
  exists d u,
    fst (getBeneficiaryDetails (wallet Scenario.maria) Scenario.allUp) = Ok d
    /\ Spec.resolvedName d = VStr "Maria Souza"
    /\ fst (syncPatient Scenario.maria Scenario.allUp) = Ok (Spec.synchronized u)
    /\ name u = "Maria".
Proof. eexists; eexists; repeat split. Qed.

End Rejections.

(* ===================================================================== *)
(** ** Synchronizing all the imported patients *)
(* ===================================================================== *)

Section SyncAll.
Import Async PatientSyncService.

Variable env : Env.

(** One turn of the loop adds one result, the patient's own. *)
Lemma syncStep_pushes (results : list SyncResult) (p : Patient) :
  exists r,
    fst (syncStep results p env) = Ok (results ++ [r])%list
    /\ Spec.resultOf env p r.
Proof.
  unfold syncStep. rewrite fst_try_catch, fst_bind.
  destruct (syncPatient_settles env p)
    as [(r & E & _) | [(d & raw & _ & _ & _ & E) | (text & E)]].
  - rewrite E. exists r. split; [reflexivity | left; exact E].
  - rewrite E. eexists. split; [reflexivity | left; exact E].
  - rewrite E. eexists. split; [reflexivity|].
    right. eexists. repeat split. exact E.
Qed.

(** The loop adds the results of the patients, one each, in their order. *)
Lemma forOf_syncStep (ps : list Patient) :
  forall acc,
  exists rs,
    fst (forOf ps syncStep acc env) = Ok (acc ++ rs)%list
    /\ Forall2 (Spec.resultOf env) ps rs.
Proof.
  induction ps as [|p ps IH]; intros acc.
  - exists []. split; [cbn; now rewrite app_nil_r | constructor].
  - cbn [forOf]. rewrite fst_bind.
    destruct (syncStep_pushes acc p) as (r & -> & Hr).
    destruct (IH (acc ++ [r])%list) as (rs & -> & Hrs).
    exists (r :: rs). split; [now rewrite <- app_assoc | now constructor].
Qed.

(** C4: [syncAllPatients] always returns; with no imported patient among
    [patients] it returns the single informational failure, and otherwise
    one result for each imported patient, in the order of the list: the
    result of [syncPatient] for that patient, or a failure of its own when
    [syncPatient] rejects, the patients after it being processed all the
    same. *)
Theorem syncAllPatients_results (patients : list Patient) :
  exists results,
    fst (syncAllPatients patients env) = Ok results
    /\ match filter imported patients with
       | [] => results
               = [ {| success := false;
                      message := "Nenhum paciente importado para sincronizar.";
                      updatedPatient := None |} ]
       | p :: ps => Forall2 (Spec.resultOf env) (p :: ps) results
       end.
Proof.
  unfold syncAllPatients.
  destruct (filter imported patients) as [|p ps] eqn:F.
  - eexists; split; reflexivity.
  - cbn [length Nat.eqb].
    destruct (forOf_syncStep (p :: ps) []) as (rs & E & H).
    exists rs. split; assumption.
Qed.

End SyncAll.

(** Three imported patients, the details of the second rejected: three
    results, the first and the third successful, the second failed, and a
    pause after each. *)
Example syncAllPatients_three :
  exists r1 r2 r3,
    fst (PatientSyncService.syncAllPatients Scenario.threeImported Scenario.secondDown)
    = Ok [r1; r2; r3]
    /\ map success [r1; r2; r3] = [true; false; true]
    /\ map (fun r => option_map id (updatedPatient r)) [r1; r2; r3]
       = [Some 1; None; Some 3]
    /\ filter (fun ev => match ev with Sleep _ => true | _ => false end)
              (snd (PatientSyncService.syncAllPatients Scenario.threeImported
                                                       Scenario.secondDown))
       = [Sleep 200; Sleep 200; Sleep 200].
Proof. do 3 eexists. repeat split. Qed.

(* ===================================================================== *)
(** ** The search *)
(* ===================================================================== *)

Section Search.
Import Async.

(** The service has no guard: it sends its request whatever the guarantor
    is. *)
Lemma service_search_requests (env : Env) (params : BeneficiarySearchParams) :
  exists rest,
    snd (PatientSyncService.searchBeneficiaries params env)
    = Invoke "search_beneficiaries"
             (VObj [("params", PatientSyncService.paramsValue params)]) :: rest.
Proof.
  unfold PatientSyncService.searchBeneficiaries, bind at 1, invoke.
  destruct (backend env _ _) as [results|e]; [|eexists; reflexivity].
  match goal with |- context [let (o, t2) := ?m in _] => destruct m end.
  eexists; reflexivity.
Qed.

(** With an empty guarantor the service returns what it has normalized. *)
Lemma service_search_unfiltered (env : Env) (params : BeneficiarySearchParams) :
  guarantor params = "" ->
  fst (PatientSyncService.searchBeneficiaries params env)
  = match backend env "search_beneficiaries"
                  (VObj [("params", PatientSyncService.paramsValue params)]) with
    | Ok answer =>
        fst (mapM PatientSyncService.normalize (Js.arrayOrEmpty answer) env)
    | Throw e => Throw e
    end.
Proof.
  intros H. unfold PatientSyncService.searchBeneficiaries.
  rewrite fst_bind. unfold invoke at 1. cbn [fst].
  destruct (backend env _ _) as [answer|e]; [|reflexivity].
  rewrite fst_bind, H. cbn [String.eqb negb].
  destruct (fst (mapM PatientSyncService.normalize (Js.arrayOrEmpty answer) env));
    reflexivity.
Qed.

(** C5 (amended): the check of the guarantor is the dialog's, not the search
    operation's.  With a blank guarantor in its form the search of the
    dialog stops at once: it sets the error message that the field is
    required and nothing else happens, in particular no request is sent and
    no error is raised.  The search of the service takes any params: it
    sends its request first, whatever the guarantor is, and with an empty
    guarantor it returns every record of the answer, normalized. *)
Theorem search_blank_guarantor
    (env : Env) (input modality proposal contract : string) :
  JsString.trim input = "" ->
  ImportPatientDialog.searchBeneficiaries input modality proposal contract env
  = (Ok tt,
     [ SetMessage ("O campo 'Contratante (Guarantor)' " ++ ImportPatientDialog.ch 233
                   ++ " obrigat" ++ ImportPatientDialog.ch 243
                   ++ "rio para a busca avan" ++ ImportPatientDialog.ch 231 ++ "ada.")
                  Msg.error ])
  /\ existsb Spec.isRequest
       (snd (ImportPatientDialog.searchBeneficiaries input modality proposal
                                                       contract env)) = false
  /\ (forall params,
        exists rest,
          snd (PatientSyncService.searchBeneficiaries params env)
          = Invoke "search_beneficiaries"
                   (VObj [("params", PatientSyncService.paramsValue params)]) :: rest)
  /\ (forall params,
        guarantor params = "" ->
        fst (PatientSyncService.searchBeneficiaries params env)
        = match backend env "search_beneficiaries"
                        (VObj [("params", PatientSyncService.paramsValue params)]) with
          | Ok answer =>
              fst (mapM PatientSyncService.normalize (Js.arrayOrEmpty answer) env)
          | Throw e => Throw e
          end).
Proof.
  intros H. unfold ImportPatientDialog.searchBeneficiaries. rewrite H.
  split; [reflexivity|]. split; [reflexivity|]. split.
  - intros params. apply service_search_requests.
  - intros params. apply service_search_unfiltered.
Qed.

Lemma search_blank_guarantor_witness :
  JsString.trim "   " = ""
  /\ existsb Spec.isRequest
       (snd (ImportPatientDialog.searchBeneficiaries "   " "" "" "" Scenario.allUp))
     = false.
Proof.
  split; [reflexivity|].
  exact (proj1 (proj2 (search_blank_guarantor Scenario.allUp "   " "" "" "" eq_refl))).
Defined.

(** C5, as stated, fails for the search operation: with an empty guarantor,
    and with one of blanks, the service sends the request and resolves, with
    the record the directory answers and with no record. *)
Lemma service_search_blank :
  PatientSyncService.searchBeneficiaries (Scenario.searchFor "") Scenario.oneJoao
  = (Ok [ {| Beneficiary.name := VStr (Scenario.joao ++ " Silva");
             Beneficiary.fullName := VUndefined;
             Beneficiary.nome := VUndefined;
             Beneficiary.healthInsurer := "1";
             Beneficiary.cardNumber := "42";
             Beneficiary.completeCardNumber := VStr "00010000000000042" |} ],
     [ Invoke "search_beneficiaries"
              (VObj [("params",
                      PatientSyncService.paramsValue (Scenario.searchFor ""))]) ])
  /\ PatientSyncService.searchBeneficiaries (Scenario.searchFor "   ") Scenario.oneJoao
     = (Ok [],
        [ Invoke "search_beneficiaries"
                 (VObj [("params",
                         PatientSyncService.paramsValue (Scenario.searchFor "   "))]) ]).
Proof. split; reflexivity. Qed.

(** With a guarantor that is not blank the dialog does send the request,
    the guarantor trimmed. *)
Lemma search_nonblank_requests
    (env : Env) (guarantor modality proposal contract : string) :
  JsString.trim guarantor <> "" ->
  exists text rest,
    snd (ImportPatientDialog.searchBeneficiaries guarantor modality proposal contract env)
    = SetLoading true :: SetMessage text Msg.info
      :: Invoke "search_beneficiaries"
           (VObj [("params",
                   PatientSyncService.paramsValue
                     {| guarantor := JsString.trim guarantor;
                        modality := ImportPatientDialog.trimmedOrUndefined modality;
                        proposal := ImportPatientDialog.trimmedOrUndefined proposal;
                        contract := ImportPatientDialog.trimmedOrUndefined contract |})])
      :: rest.
Proof.
  intros H. unfold ImportPatientDialog.searchBeneficiaries.
  destruct (String.eqb_spec (JsString.trim guarantor) "") as [E|_]; [now elim H|].
  rewrite snd_bind. cbn [emit snd fst app].
  rewrite snd_bind. cbn [ImportPatientDialog.updateMessage emit bind ret snd fst app].
  rewrite snd_try_finally, snd_try_catch, snd_bind.
  match goal with
  | |- context [snd (PatientSyncService.searchBeneficiaries ?p env)] =>
      destruct (service_search_requests env p) as [rest ->]
  end.
  cbn [app]. eexists; eexists; reflexivity.
Qed.

(** The filter on a record whose name and complete card number are strings. *)
Lemma matchesTerm_strings (env : Env) (guarantor : string) (b : Beneficiary.t) :
  Spec.stringFields b <> None ->
  fst (PatientSyncService.matchesTerm (JsString.toLowerCase guarantor) b env)
  = Ok (Spec.keptBy guarantor b).
Proof.
  unfold Spec.keptBy, Spec.stringFields, PatientSyncService.matchesTerm.
  destruct b as [n f o h c k]; cbn [Beneficiary.name Beneficiary.completeCardNumber
                                    Beneficiary.healthInsurer Beneficiary.cardNumber].
  destruct n; try (intros N; now elim N).
  destruct k; try (intros N; now elim N).
  intros _. unfold Spec.keptNameInsensitive.
  cbn [JsOps.lowerIncludesOpt JsOps.includesOpt].
  destruct (JsString.includes (JsString.toLowerCase s) _);
    destruct (JsString.includes h _);
    destruct (JsString.includes c _);
    destruct (JsString.includes s0 _); reflexivity.
Qed.

Lemma filterM_matchesTerm (env : Env) (guarantor : string) (bs : list Beneficiary.t) :
  Forall (fun b => Spec.stringFields b <> None) bs ->
  fst (filterM (PatientSyncService.matchesTerm (JsString.toLowerCase guarantor)) bs env)
  = Ok (filter (Spec.keptBy guarantor) bs).
Proof.
  induction 1 as [|b bs Hb _ IH]; [reflexivity|].
  cbn [filterM filter]. rewrite fst_bind, (matchesTerm_strings env guarantor b Hb).
  rewrite fst_bind, IH. reflexivity.
Qed.

(** C6 (amended): for a guarantor that is not empty, the search keeps a
    normalized record exactly when the guarantor in lower case is a
    substring of the name in lower case, or of the health insurer, the card
    number or the complete card number as they are: the name alone is
    compared without regard to letter case. *)
Theorem search_filter
    (env : Env) (params : BeneficiarySearchParams) (raw : value)
    (normalized : list Beneficiary.t) :
  guarantor params <> "" ->
  backend env "search_beneficiaries"
          (VObj [("params", PatientSyncService.paramsValue params)]) = Ok raw ->
  fst (mapM PatientSyncService.normalize (Js.arrayOrEmpty raw) env) = Ok normalized ->
  Forall (fun b => Spec.stringFields b <> None) normalized ->
  fst (PatientSyncService.searchBeneficiaries params env)
  = Ok (filter (Spec.keptBy (guarantor params)) normalized).
Proof.
  intros G R N S. unfold PatientSyncService.searchBeneficiaries.
  rewrite fst_bind. unfold invoke at 1. cbn [fst]. rewrite R.
  rewrite fst_bind, N.
  destruct (String.eqb_spec (guarantor params) "") as [E|_]; [now elim G|].
  cbn [negb]. now apply filterM_matchesTerm.
Qed.

Lemma search_filter_witness :
  guarantor (Scenario.searchFor "ana") <> ""
  /\ fst (PatientSyncService.searchBeneficiaries (Scenario.searchFor "ana")
                                                 Scenario.capitalInsurer)
     = Ok [ {| Beneficiary.name := VStr "Ana Lima";
               Beneficiary.fullName := VUndefined;
               Beneficiary.nome := VUndefined;
               Beneficiary.healthInsurer := "UNIMED";
               Beneficiary.cardNumber := "42";
               Beneficiary.completeCardNumber := VStr "UNIMED0000000000042" |} ].
Proof.
  split; [discriminate|].
  refine (search_filter Scenario.capitalInsurer (Scenario.searchFor "ana") _ _
                        _ eq_refl eq_refl _).
  - discriminate.
  - repeat constructor; discriminate.
Defined.

(** C6, as stated, fails on a record whose health insurer is in capitals:
    compared without regard to letter case the record matches "unimed", and
    the search drops it. *)
Lemma search_capital_insurer :
  fst (mapM PatientSyncService.normalize
            (Js.arrayOrEmpty
               (VArr [VObj [("name", VStr "Ana Lima"); ("healthInsurer", VStr "UNIMED");
                            ("cardNumber", VStr "42")]]))
            Scenario.capitalInsurer)
  = Ok [ {| Beneficiary.name := VStr "Ana Lima";
            Beneficiary.fullName := VUndefined;
            Beneficiary.nome := VUndefined;
            Beneficiary.healthInsurer := "UNIMED";
            Beneficiary.cardNumber := "42";
            Beneficiary.completeCardNumber := VStr "UNIMED0000000000042" |} ]
  /\ Spec.keptCaseInsensitive "unimed" "Ana Lima" "UNIMED" "42" "UNIMED0000000000042"
     = true
  /\ fst (PatientSyncService.searchBeneficiaries (Scenario.searchFor "unimed")
                                                 Scenario.capitalInsurer)
     = Ok [].
Proof. repeat split. Qed.

(** The search for "JOÃO", in capitals, finds "João Silva", insurer 1 and
    card 42, with the complete card number padded. *)
Example search_joao :
  fst (PatientSyncService.searchBeneficiaries
         (Scenario.searchFor ("JO" ++ String (ascii_of_nat 195) "O")) Scenario.oneJoao)
  = Ok [ {| Beneficiary.name := VStr (Scenario.joao ++ " Silva");
            Beneficiary.fullName := VUndefined;
            Beneficiary.nome := VUndefined;
            Beneficiary.healthInsurer := "1";
            Beneficiary.cardNumber := "42";
            Beneficiary.completeCardNumber := VStr "00010000000000042" |} ].
Proof. reflexivity. Qed.

End Search.

(** [includes] is the substring test. *)
Lemma prefix_split (t s : string) :
  prefix t s = true <-> exists b, s = t ++ b.
Proof.
  revert s; induction t as [|c t IH]; intros s.
  - split; [intros _; exists s; reflexivity | intros _; destruct s; reflexivity].
  - destruct s as [|c' s]; simpl.
    + split; [discriminate | intros [b Hb]; discriminate].
    + destruct (ascii_dec c c') as [->|N].
      * rewrite IH. split; intros [b Hb]; exists b; congruence.
      * split; [discriminate | intros [b Hb]; congruence].
Qed.

Lemma includes_substring (s t : string) :
  JsString.includes s t = true <-> exists a b, s = a ++ t ++ b.
Proof.
  induction s as [|c s IH].
  - cbn [JsString.includes]. rewrite orb_false_r, prefix_split. split.
    + intros [b Hb]. exists "", b. exact Hb.
    + intros (a & b & H). destruct a; [exists b; exact H|discriminate].
  - cbn [JsString.includes]. rewrite orb_true_iff, prefix_split, IH. split.
    + intros [[b Hb] | (a & b & H)].
      * exists "", b. exact Hb.
      * exists (String c a), b. simpl. congruence.
    + intros (a & b & H). destruct a as [|c' a].
      * left. exists b. exact H.
      * right. exists a, b. simpl in H. congruence.
Qed.

(* ===================================================================== *)
(** ** The ids of the store *)
(* ===================================================================== *)

Section StoreIds.
Import Async PatientManager.

Lemma fold_max_ge (l : list Patient) :
  forall acc,
    acc <= fold_left (fun max p => Z.max max (id p)) l acc
    /\ Forall (fun p => id p <= fold_left (fun max p => Z.max max (id p)) l acc) l.
Proof.
  induction l as [|q l IH]; intros acc; cbn [fold_left].
  - split; [lia | constructor].
  - destruct (IH (Z.max acc (id q))) as [A F]. split; [lia|].
    constructor; [lia | exact F].
Qed.

Lemma maxId_above (l : list Patient) :
  0 < maxId l + 1 /\ Forall (fun p => id p < maxId l + 1) l.
Proof.
  destruct (fold_max_ge l 0) as [A F]. fold (maxId l) in A, F. split; [lia|].
  eapply Forall_impl; [|exact F]. cbn; intros; lia.
Qed.

(** Below 2^53 the sum [maxId + 1] is exact. *)
Lemma add_one_safe (n : Z) :
  0 <= n <= Number.MAX_SAFE_INTEGER -> Number.add n 1 = n + 1.
Proof.
  unfold Number.add, Number.round, Number.MAX_SAFE_INTEGER.
  change (2 ^ 53) with 9007199254740992. intros H.
  destruct (Z.ltb_spec (Z.abs (n + 1)) 9007199254740992) as [L|L]; [reflexivity|].
  assert (n = 9007199254740991) as -> by lia. reflexivity.
Qed.

Lemma maxId_safe (l : list Patient) :
  Forall (fun p => Number.isSafeInteger (id p) = true) l ->
  0 <= maxId l <= Number.MAX_SAFE_INTEGER.
Proof.
  unfold maxId. intros F.
  assert (forall acc, 0 <= acc <= Number.MAX_SAFE_INTEGER ->
                      0 <= fold_left (fun max p => Z.max max (id p)) l acc
                      <= Number.MAX_SAFE_INTEGER) as G.
  { induction F as [|q r S _ IH]; intros acc A; cbn [fold_left]; [exact A|].
    apply IH. unfold Number.isSafeInteger in S. apply andb_true_iff in S as [_ S].
    apply Z.leb_le in S. lia. }
  apply G. split; discriminate.
Qed.

Variable env : Env.
Hypothesis saves : Spec.savesSucceed env.

Lemma savePatients_succeeds (l : list Patient) :
  fst (PatientStore.savePatients l env) = Ok tt.
Proof.
  unfold PatientStore.savePatients. rewrite fst_bind. unfold invoke. cbn [fst].
  destruct (saves (VObj [("patients", VArr (map PatientStore.toPatientSnake l))]))
    as [v ->].
  reflexivity.
Qed.

Lemma handleSavePatient_new (patients : list Patient) (patient : Patient) :
  id patient = 0 ->
  fst (handleSavePatient patients patient env)
  = Ok (patients ++ [withId patient (Number.add (maxId patients) 1)])%list.
Proof.
  intros H. unfold handleSavePatient. rewrite fst_try_catch, H. cbn [Z.eqb].
  rewrite fst_bind, savePatients_succeeds. reflexivity.
Qed.

Lemma handleImportPatient_new (patients : list Patient) (patient : Patient) :
  fst (handleImportPatient patients patient env)
  = Ok (patients ++ [withId patient (Number.add (maxId patients) 1)])%list.
Proof.
  unfold handleImportPatient. rewrite fst_try_catch.
  rewrite fst_bind, savePatients_succeeds. reflexivity.
Qed.

Lemma handleDeletePatient_confirmed (patients : list Patient) (patient : Patient) :
  (forall question, answer env question = true) ->
  fst (handleDeletePatient patients patient env)
  = Ok (filter (fun p => negb (id p =? id patient)) patients).
Proof.
  intros H. unfold handleDeletePatient. rewrite fst_bind.
  unfold confirm. cbn [fst]. rewrite H. cbn [negb].
  rewrite fst_try_catch, fst_bind, savePatients_succeeds. reflexivity.
Qed.

End StoreIds.

(** C8 (amended): in a store whose ids are safe integers (2^53 - 1 at
    most) the manager gives a new patient the id
    [max(existing ids, default 0) + 1], which is above every id of the
    store, so that a deleted id comes back only when every record left has
    a smaller id.  Three patients created in an empty store have the ids 1,
    2 and 3, and after the patient of id 2 is deleted the next one has the
    id 4. *)
Theorem store_id_allocation (env : Env) (patients : list Patient) (patient : Patient) :
  Spec.savesSucceed env ->
  (forall question, answer env question = true) ->
  id patient = 0 ->
  Forall (fun p => Number.isSafeInteger (id p) = true) patients ->
  fst (PatientManager.handleSavePatient patients patient env)
  = Ok (patients ++ [PatientManager.withId patient (PatientManager.maxId patients + 1)])%list
  /\ PatientManager.maxId patients = fold_left Z.max (map id patients) 0
  /\ Forall (fun p => id p < PatientManager.maxId patients + 1) patients
  /\ (forall a b c d : string,
        let three := Scenario.created env (Scenario.created env
                       (Scenario.created env [] a) b) c in
        map id three = [1; 2; 3]
        /\ map id (Scenario.removed env three 2) = [1; 3]
        /\ map id (Scenario.created env (Scenario.removed env three 2) d) = [1; 3; 4]).
Proof.
  intros S Y H B. split; [|split; [|split]].
  - rewrite (handleSavePatient_new env S patients patient H).
    now rewrite (add_one_safe _ (maxId_safe patients B)).
  - unfold PatientManager.maxId. clear B. generalize 0 at 1 2.
    induction patients as [|q l IH]; intros acc; [reflexivity|apply IH].
  - apply maxId_above.
  - intros a b c d.
    assert (forall store who,
               Scenario.created env store who
               = (store ++ [PatientManager.withId (Scenario.draft who)
                              (Number.add (PatientManager.maxId store) 1)])%list)
      as C.
    { intros store who. unfold Scenario.created, PatientManager.after.
      now rewrite (handleSavePatient_new env S store (Scenario.draft who) eq_refl). }
    assert (forall store target p,
               find (fun q => id q =? target) store = Some p ->
               Scenario.removed env store target
               = filter (fun q => negb (id q =? id p)) store) as D.
    { intros store target p F. unfold Scenario.removed, PatientManager.after.
      now rewrite F, (handleDeletePatient_confirmed env S store p Y). }
    cbv zeta. rewrite !C.
    change (([] ++ [PatientManager.withId (Scenario.draft a)
                      (Number.add (PatientManager.maxId []) 1)])%list)
      with [PatientManager.withId (Scenario.draft a) 1].
    change (Number.add (PatientManager.maxId [PatientManager.withId (Scenario.draft a) 1]) 1)
      with 2.
    cbn [app].
    change (Number.add (PatientManager.maxId [PatientManager.withId (Scenario.draft a) 1;
                                              PatientManager.withId (Scenario.draft b) 2]) 1)
      with 3.
    split; [reflexivity|].
    rewrite (D [PatientManager.withId (Scenario.draft a) 1;
                PatientManager.withId (Scenario.draft b) 2;
                PatientManager.withId (Scenario.draft c) 3]
               2 (PatientManager.withId (Scenario.draft b) 2) eq_refl).
    cbn [filter PatientManager.withId id Z.eqb Pos.eqb negb].
    split; reflexivity.
Qed.

Lemma store_id_allocation_witness :
  Spec.savesSucceed Scenario.allUp
  /\ (forall question, answer Scenario.allUp question = true)
  /\ id (Scenario.draft "Ana") = 0
  /\ Forall (fun p => Number.isSafeInteger (id p) = true) [Scenario.maria]
  /\ fst (PatientManager.handleSavePatient [Scenario.maria] (Scenario.draft "Ana")
                                           Scenario.allUp)
     = Ok [Scenario.maria; PatientManager.withId (Scenario.draft "Ana") 8].
Proof.
  assert (Spec.savesSucceed Scenario.allUp) as S by (intros args; exists VNull; reflexivity).
  assert (Forall (fun p => Number.isSafeInteger (id p) = true) [Scenario.maria]) as B
    by (repeat constructor).
  repeat (split; [assumption || reflexivity|]).
  exact (proj1 (store_id_allocation Scenario.allUp [Scenario.maria] (Scenario.draft "Ana")
                                    S (fun _ => eq_refl) eq_refl B)).
Defined.

(** C8, as stated, fails when the deleted patient is the one of highest id:
    three patients created, the patient of id 3 deleted, and the next
    patient created has the id 3 again. *)
Lemma store_id_reused :
  let three := Scenario.created Scenario.allUp
                 (Scenario.created Scenario.allUp
                    (Scenario.created Scenario.allUp [] "Ana") "Bia") "Caio" in
  map id three = [1; 2; 3]
  /\ map id (Scenario.removed Scenario.allUp three 3) = [1; 2]
  /\ map id (Scenario.created Scenario.allUp (Scenario.removed Scenario.allUp three 3) "Davi")
     = [1; 2; 3].
Proof. repeat split. Qed.

(** The bound on the ids is needed: the sum is a sum of Numbers, rounded
    from 2^53 on, and in a store that holds the id 2^53 the next patient is
    given this id again. *)
Example store_id_rounded :
  let big := PatientManager.withId Scenario.maria (2 ^ 53) in
  Number.isSafeInteger (id big) = false
  /\ Number.add (2 ^ 53) 1 = 2 ^ 53
  /\ map id (Scenario.created Scenario.allUp [big] "Ana") = [2 ^ 53; 2 ^ 53].
Proof. repeat split. Qed.

(* ===================================================================== *)
(** ** The import paths *)
(* ===================================================================== *)

Section Traces.
Import Async.

Variable P : event -> Prop.

Lemma emits_ret {A} (a : A) : Spec.emits P (ret a).
Proof. intros env; constructor. Qed.

Lemma emits_throw {A} (e : value) : Spec.emits P (@throw A e).
Proof. intros env; constructor. Qed.

Lemma emits_emit (e : event) : P e -> Spec.emits P (emit e).
Proof. intros H env; repeat constructor; exact H. Qed.

Lemma emits_invoke (cmd : string) (args : value) :
  P (Invoke cmd args) -> Spec.emits P (invoke cmd args).
Proof. intros H env; repeat constructor; exact H. Qed.

Lemma emits_bind {A B} (m : M A) (k : A -> M B) :
  Spec.emits P m -> (forall a, Spec.emits P (k a)) -> Spec.emits P (bind m k).
Proof.
  intros Hm Hk env. unfold bind. specialize (Hm env).
  destruct (m env) as [[a|e] t]; [|exact Hm].
  specialize (Hk a env). destruct (k a env) as [o t2].
  apply Forall_app; split; assumption.
Qed.

Lemma emits_try_catch {A} (body : M A) (handler : value -> M A) :
  Spec.emits P body -> (forall e, Spec.emits P (handler e)) ->
  Spec.emits P (try_catch body handler).
Proof.
  intros Hb Hh env. unfold try_catch. specialize (Hb env).
  destruct (body env) as [[a|e] t]; [exact Hb|].
  specialize (Hh e env). destruct (handler e env) as [o t2].
  apply Forall_app; split; assumption.
Qed.

Lemma emits_try_finally {A} (body : M A) (final : M unit) :
  Spec.emits P body -> Spec.emits P final -> Spec.emits P (try_finally body final).
Proof.
  intros Hb Hf env. unfold try_finally. specialize (Hb env). specialize (Hf env).
  destruct (body env) as [o t], (final env) as [[u|e] t2];
    apply Forall_app; split; assumption.
Qed.

Lemma emits_all2 {A B} (a : M A) (b : M B) :
  Spec.emits P a -> Spec.emits P b -> Spec.emits P (all2 a b).
Proof.
  intros Ha Hb env. unfold all2. specialize (Ha env). specialize (Hb env).
  destruct (a env) as [oa ta], (b env) as [ob tb].
  apply Forall_app; split; assumption.
Qed.

Lemma emits_get (v : value) (k : string) : Spec.emits P (JsOps.get v k).
Proof. intros env; destruct v; constructor. Qed.

Lemma emits_getOpt (v : value) (k : string) : Spec.emits P (JsOps.getOpt v k).
Proof. intros env; destruct v; constructor. Qed.

Lemma emits_trim (v : value) : Spec.emits P (JsOps.trim v).
Proof. intros env; destruct v; constructor. Qed.

Lemma emits_orElse (a b : M value) :
  Spec.emits P a -> Spec.emits P b -> Spec.emits P (JsOps.orElse a b).
Proof.
  intros Ha Hb. apply emits_bind; [exact Ha|].
  intros x; destruct (Js.truthy x); [apply emits_ret | exact Hb].
Qed.

Lemma emits_mapM {A B} (f : A -> M B) (xs : list A) :
  (forall x, Spec.emits P (f x)) -> Spec.emits P (mapM f xs).
Proof.
  intros Hf. induction xs as [|x r IH]; cbn [mapM].
  - apply emits_ret.
  - apply emits_bind; [apply Hf|]. intros y.
    apply emits_bind; [exact IH|]. intros ys. apply emits_ret.
Qed.

End Traces.

Create HintDb traces.
#[local] Hint Resolve emits_ret emits_throw emits_get emits_getOpt emits_trim : traces.

(** Goes through a computation, leaving the events to be checked. *)
Ltac trace_steps :=
  repeat first
    [ progress intros
    | progress cbv beta
    | solve [auto with traces]
    | apply emits_bind
    | apply emits_try_catch
    | apply emits_try_finally
    | apply emits_all2
    | apply emits_orElse
    | apply emits_mapM
    | solve [apply emits_emit; exact I]
    | solve [apply emits_invoke; exact I]
    | match goal with
      | |- Spec.emits _ (match ?x with _ => _ end) => destruct x
      | |- Spec.emits _ (if ?x then _ else _) => destruct x
      | |- Spec.emits _ (let '(_, _) := ?x in _) => destruct x
      end ].

Section ImportPaths.
Import Async.

Lemma toDigitalBiometrics_filtered (fingerprints : list Fingerprint) :
  Forall (fun d => Js.truthy (data d) = true /\ data d <> VStr "")
         (ImportPatientDialog.toDigitalBiometrics fingerprints).
Proof.
  unfold ImportPatientDialog.toDigitalBiometrics.
  apply Forall_forall. intros d H. apply filter_In in H as [_ T].
  split; [exact T|]. intros E. rewrite E in T. discriminate.
Qed.

Lemma getFingerprints_quiet (w : value) :
  Spec.emits Spec.importsFiltered (PatientSyncService.getFingerprints w).
Proof. unfold PatientSyncService.getFingerprints. trace_steps. Qed.

Lemma getFacialBiometry_quiet (w : value) :
  Spec.emits Spec.importsFiltered (PatientSyncService.getFacialBiometry w).
Proof. unfold PatientSyncService.getFacialBiometry. trace_steps. Qed.

Lemma getBeneficiaryDetails_quiet (w : value) :
  Spec.emits Spec.importsFiltered (PatientSyncService.getBeneficiaryDetails w).
Proof. unfold PatientSyncService.getBeneficiaryDetails. trace_steps. Qed.

Lemma updateMessage_quiet (text : string) (kind : Msg.type) :
  Spec.emits Spec.importsFiltered (ImportPatientDialog.updateMessage text kind).
Proof. unfold ImportPatientDialog.updateMessage. trace_steps. Qed.

Lemma fetchAndImport_filtered (resolvedName : string) (resolvedWallet : value) :
  Spec.emits Spec.importsFiltered
             (ImportPatientDialog.fetchAndImport resolvedName resolvedWallet).
Proof.
  unfold ImportPatientDialog.fetchAndImport.
  apply emits_bind.
  - apply emits_all2; [apply getFingerprints_quiet | apply getFacialBiometry_quiet].
  - intros [fingerprints facialBiometry].
    apply emits_bind; [|intros _; apply updateMessage_quiet].
    apply emits_emit. cbn. repeat split. apply toDigitalBiometrics_filtered.
Qed.

(** Both import paths hand to [onImport] a draft (id 0, imported) whose
    fingerprints all have an image: the records without one are filtered
    out. *)
Lemma importPatient_filtered (beneficiary : Beneficiary.t) :
  Spec.emits Spec.importsFiltered (ImportPatientDialog.importPatient beneficiary).
Proof.
  unfold ImportPatientDialog.importPatient.
  pose proof fetchAndImport_filtered. pose proof updateMessage_quiet.
  trace_steps.
Qed.

Lemma handleCardSearch_filtered (cardNumber : string) :
  Spec.emits Spec.importsFiltered (ImportPatientDialog.handleCardSearch cardNumber).
Proof.
  unfold ImportPatientDialog.handleCardSearch.
  pose proof fetchAndImport_filtered. pose proof updateMessage_quiet.
  pose proof getBeneficiaryDetails_quiet.
  trace_steps.
Qed.

(** The card search of the dialog, every request answered. *)
Example handleCardSearch_imports :
  snd (ImportPatientDialog.handleCardSearch "42" Scenario.emptyFingerprint)
  = [ SetLoading true;
      SetMessage "Buscando paciente..." Msg.info;
      Invoke "get_beneficiary_details" (VObj [("cardNumber", VStr "42")]);
      Invoke "get_fingerprints" (VObj [("cardNumber", VStr "00010000000000042")]);
      Invoke "get_facial_biometry" (VObj [("cardNumber", VStr "00010000000000042")]);
      OnImport {| id := 0; name := "Maria Souza"; wallet := VStr "00010000000000042";
                  facialBiometric := "ZmFjZQ=="; digitalBiometrics := [];
                  imported := true |};
      SetMessage "Paciente importado com sucesso!" Msg.success;
      ClearMessageAfter 3000;
      SetLoading false ].
Proof. reflexivity. Qed.

End ImportPaths.

(* ===================================================================== *)
(** ** Further properties: the requests of a synchronization *)
(* ===================================================================== *)

Section Silence.
Import Async.

Lemma silent_snd {A} (m : M A) (env : Env) :
  Behaviour.silent m -> snd (m env) = [].
Proof.
  intros H. specialize (H env). destruct (snd (m env)) as [|ev t]; [reflexivity|].
  inversion H as [|? ? F _]. destruct F.
Qed.

Lemma snd_all3 {A B C} (a : M A) (b : M B) (c : M C) (env : Env) :
  snd (all3 a b c env) = (snd (a env) ++ snd (b env) ++ snd (c env))%list.
Proof.
  unfold all3.
  destruct (a env) as [oa ta], (b env) as [ob tb], (c env) as [oc tc]; reflexivity.
Qed.

Lemma snd_all2 {A B} (a : M A) (b : M B) (env : Env) :
  snd (all2 a b env) = (snd (a env) ++ snd (b env))%list.
Proof.
  unfold all2. destruct (a env) as [oa ta], (b env) as [ob tb]; reflexivity.
Qed.

Lemma snd_bind_silent {A B} (m : M A) (k : A -> M B) (env : Env) :
  (forall a, Behaviour.silent (k a)) -> snd (bind m k env) = snd (m env).
Proof.
  intros H. rewrite snd_bind. destruct (fst (m env)) as [a|e].
  - now rewrite (silent_snd (k a) env (H a)), app_nil_r.
  - now rewrite app_nil_r.
Qed.

Lemma snd_try_catch_silent {A} (body : M A) (handler : value -> M A) (env : Env) :
  (forall e, Behaviour.silent (handler e)) ->
  snd (try_catch body handler env) = snd (body env).
Proof.
  intros H. rewrite snd_try_catch. destruct (fst (body env)) as [a|e].
  - now rewrite app_nil_r.
  - now rewrite (silent_snd (handler e) env (H e)), app_nil_r.
Qed.

(** A request followed by a silent computation is the request alone. *)
Lemma snd_invoke_silent {A} (cmd : string) (args : value) (k : value -> M A)
    (env : Env) :
  (forall v, Behaviour.silent (k v)) ->
  snd (bind (invoke cmd args) k env) = [Invoke cmd args].
Proof.
  intros H. rewrite snd_bind. unfold invoke at 1 2. cbn [fst snd].
  destruct (backend env cmd args) as [v|e]; [|reflexivity].
  now rewrite (silent_snd (k v) env (H v)).
Qed.

End Silence.

Section SyncRequests.
Import Async PatientSyncService.

Lemma getFingerprints_requests (env : Env) (w : value) :
  snd (getFingerprints w env) = [Invoke "get_fingerprints" (VObj [("cardNumber", w)])].
Proof.
  unfold getFingerprints.
  rewrite snd_try_catch_silent by (intros e; unfold Behaviour.silent; trace_steps).
  apply snd_invoke_silent. intros v. unfold Behaviour.silent. trace_steps.
Qed.

Lemma getFacialBiometry_requests (env : Env) (w : value) :
  snd (getFacialBiometry w env)
  = [Invoke "get_facial_biometry" (VObj [("cardNumber", w)])].
Proof.
  unfold getFacialBiometry.
  rewrite snd_try_catch_silent by (intros e; unfold Behaviour.silent; trace_steps).
  apply snd_invoke_silent. intros v. unfold Behaviour.silent. trace_steps.
Qed.

Lemma getBeneficiaryDetails_requests (env : Env) (w : value) :
  snd (getBeneficiaryDetails w env)
  = match w with
    | VStr s => [Invoke "get_beneficiary_details"
                        (VObj [("cardNumber", VStr (directoryQueryId s))])]
    | _ => []
    end.
Proof.
  unfold getBeneficiaryDetails. rewrite snd_bind.
  destruct w; try reflexivity.
  cbn [ret fst snd app]. rewrite snd_invoke_silent; [reflexivity|].
  intros v. unfold Behaviour.silent. trace_steps.
Qed.

Lemma reportFailure_silent (e : value) : Behaviour.silent (Spec.reportFailure e).
Proof. unfold Behaviour.silent, Spec.reportFailure. trace_steps. Qed.

Lemma syncPatient_sends (env : Env) (p : Patient) :
  snd (syncPatient p env) = Behaviour.requestsOf p.
Proof.
  unfold Behaviour.requestsOf, syncPatient.
  destruct (imported p); [|reflexivity]. cbn [negb].
  rewrite snd_try_catch_silent by (intros e; apply reportFailure_silent).
  rewrite snd_bind_silent
    by (intros [[d f] c]; unfold Behaviour.silent; trace_steps).
  rewrite snd_all3, getBeneficiaryDetails_requests, getFingerprints_requests,
    getFacialBiometry_requests.
  reflexivity.
Qed.

(** X1: [syncPatient] sends nothing for a patient that is not imported, and
    for an imported one exactly its three requests, whatever they are
    answered: the details asked by the directory query id of the wallet,
    the fingerprints and the facial image by the wallet as it is.  It
    neither pauses, nor saves, nor alerts. *)
Theorem syncPatient_requests (env : Env) (p : Patient) :
  snd (syncPatient p env) = Behaviour.requestsOf p.
Proof. apply syncPatient_sends. Qed.

(** X2: the batch works on the imported patients one after the other, in
    their order: the requests of a patient, then a pause of 200 ms when its
    [syncPatient] has returned (a failure included, and after the last
    patient too), and nothing else. *)
Theorem syncAllPatients_trace (env : Env) (patients : list Patient) :
  snd (syncAllPatients patients env)
  = flat_map (fun p => (Behaviour.requestsOf p ++ Behaviour.pauseAfter env p)%list)
             (filter imported patients).
Proof.
  unfold syncAllPatients.
  destruct (filter imported patients) as [|q qs] eqn:F; [reflexivity|].
  cbn [length Nat.eqb]. generalize (q :: qs) as ps. clear.
  intros ps. generalize (@nil SyncResult) as acc.
  induction ps as [|p ps IH]; intros acc; [reflexivity|].
  cbn [forOf flat_map]. rewrite snd_bind.
  assert (snd (syncStep acc p env)
          = (Behaviour.requestsOf p ++ Behaviour.pauseAfter env p)%list) as S.
  { unfold syncStep, Behaviour.pauseAfter.
    rewrite snd_try_catch_silent by (intros e; unfold Behaviour.silent; trace_steps).
    rewrite snd_bind, syncPatient_sends.
    destruct (fst (syncPatient p env)); reflexivity. }
  rewrite S. destruct (syncStep_pushes env acc p) as (r & -> & _).
  now rewrite IH.
Qed.

End SyncRequests.

(* ===================================================================== *)
(** ** Further properties: what the fetches return *)
(* ===================================================================== *)

Section Inversion.
Import Async.

Lemma fst_bind_ok {A B} (m : M A) (k : A -> M B) (env : Env) (b : B) :
  fst (bind m k env) = Ok b ->
  exists a, fst (m env) = Ok a /\ fst (k a env) = Ok b.
Proof.
  rewrite fst_bind. destruct (fst (m env)) as [a|e]; [|discriminate].
  intros H. exists a. split; [reflexivity | exact H].
Qed.

Lemma orElse_ok (a b : M value) (env : Env) (x : value) :
  fst (JsOps.orElse a b env) = Ok x ->
  Js.truthy x = true \/ fst (b env) = Ok x.
Proof.
  unfold JsOps.orElse. intros H. apply fst_bind_ok in H as (y & _ & H).
  destruct (Js.truthy y) eqn:T; [|right; exact H].
  left. cbn in H. now injection H as <-.
Qed.

Lemma mapM_ok {A B} (f : A -> M B) (g : A -> B) (xs : list A) (env : Env) :
  Forall (fun x => fst (f x env) = Ok (g x)) xs ->
  fst (mapM f xs env) = Ok (map g xs).
Proof.
  induction 1 as [|x r Hx _ IH]; [reflexivity|].
  cbn [mapM map]. now rewrite fst_bind, Hx, fst_bind, IH.
Qed.

Lemma bind_pure {A B} (m : M A) (k : A -> M B) (env : Env) (a : A) :
  m env = (Ok a, []) -> bind m k env = k a env.
Proof. intros H. unfold bind. rewrite H. now destruct (k a env). Qed.

Lemma get_pure (v : value) (k : string) (env : Env) :
  Js.nullish v = false -> JsOps.get v k env = (Ok (Behaviour.field v k), []).
Proof. destruct v; try discriminate; reflexivity. Qed.

Lemma getOpt_pure (v : value) (k : string) (env : Env) :
  JsOps.getOpt v k env = (Ok (Behaviour.field v k), []).
Proof. destruct v; reflexivity. Qed.

Lemma orElse_pure (a b : M value) (env : Env) (x y : value) :
  a env = (Ok x, []) -> b env = (Ok y, []) ->
  JsOps.orElse a b env = (Ok (x <|> y), []).
Proof.
  intros Ha Hb. unfold JsOps.orElse. rewrite (bind_pure _ _ env x Ha).
  unfold orValue. destruct (Js.truthy x); [reflexivity | exact Hb].
Qed.

End Inversion.

Section StringShapes.

Lemma length_app (s t : string) :
  String.length (s ++ t) = (String.length s + String.length t)%nat.
Proof. induction s as [|c s IH]; cbn; [reflexivity | now rewrite IH]. Qed.

Lemma zeros_length (n : nat) : String.length (JsString.zeros n) = n.
Proof. induction n as [|n IH]; cbn; [reflexivity | now rewrite IH]. Qed.

Lemma padStart0_length (n : nat) (s : string) :
  String.length (JsString.padStart0 n s) = Nat.max n (String.length s).
Proof. unfold JsString.padStart0. rewrite length_app, zeros_length. lia. Qed.

Lemma truthy_nonempty (s : string) :
  (0 < String.length s)%nat -> Js.truthy (VStr s) = true.
Proof. destruct s; cbn; [lia | reflexivity]. Qed.

Lemma allChars_both (p q : ascii -> bool) (s : string) :
  Behaviour.allChars (fun c => p c && q c) s
  = Behaviour.allChars p s && Behaviour.allChars q s.
Proof.
  induction s as [|c s IH]; cbn; [reflexivity|]. rewrite IH.
  destruct (p c), (q c), (Behaviour.allChars p s); reflexivity.
Qed.

Lemma removeWhiteSpace_none (s : string) :
  Behaviour.allChars (fun c => negb (JsString.isWhiteSpace c))
                     (JsString.removeWhiteSpace s) = true.
Proof.
  induction s as [|c s IH]; cbn; [reflexivity|].
  destruct (JsString.isWhiteSpace c) eqn:W; [exact IH|]. cbn. now rewrite W.
Qed.

Lemma removeWhiteSpace_keeps (ok : ascii -> bool) (s : string) :
  Behaviour.allChars ok s = true ->
  Behaviour.allChars ok (JsString.removeWhiteSpace s) = true.
Proof.
  induction s as [|c s IH]; cbn; [reflexivity|].
  intros H. apply andb_true_iff in H as [Hc Hs].
  destruct (JsString.isWhiteSpace c); [now apply IH|]. cbn. now rewrite Hc, IH.
Qed.

Lemma trimStart_keeps (ok : ascii -> bool) (s : string) :
  Behaviour.allChars ok s = true ->
  Behaviour.allChars ok (JsString.trimStart s) = true.
Proof.
  induction s as [|c s IH]; cbn; [reflexivity|].
  intros H. destruct (JsString.isWhiteSpace c); [|exact H].
  apply andb_true_iff in H as [_ Hs]. now apply IH.
Qed.

Lemma trimEnd_keeps (ok : ascii -> bool) (s : string) :
  Behaviour.allChars ok s = true ->
  Behaviour.allChars ok (JsString.trimEnd s) = true.
Proof.
  induction s as [|c s IH]; cbn; [reflexivity|].
  intros H. apply andb_true_iff in H as [Hc Hs]. specialize (IH Hs).
  destruct (JsString.trimEnd s) as [|c' r].
  - destruct (JsString.isWhiteSpace c); cbn; [reflexivity | now rewrite Hc].
  - cbn [Behaviour.allChars] in *. now rewrite Hc, IH.
Qed.

Lemma trim_keeps (ok : ascii -> bool) (s : string) :
  Behaviour.allChars ok s = true -> Behaviour.allChars ok (JsString.trim s) = true.
Proof. intros H. unfold JsString.trim. now apply trimEnd_keeps, trimStart_keeps. Qed.

(** White space apart, there is nothing to remove nor to trim. *)
Lemma removeWhiteSpace_fixed (s : string) :
  Behaviour.allChars (fun c => negb (JsString.isWhiteSpace c)) s = true ->
  JsString.removeWhiteSpace s = s.
Proof.
  induction s as [|c s IH]; cbn; [reflexivity|].
  intros H. apply andb_true_iff in H as [Hc Hs].
  destruct (JsString.isWhiteSpace c); [discriminate | now rewrite IH].
Qed.

Lemma trimEnd_fixed (s : string) :
  Behaviour.allChars (fun c => negb (JsString.isWhiteSpace c)) s = true ->
  JsString.trimEnd s = s.
Proof.
  induction s as [|c s IH]; cbn; [reflexivity|].
  intros H. apply andb_true_iff in H as [Hc Hs]. rewrite (IH Hs).
  destruct s; [|reflexivity].
  destruct (JsString.isWhiteSpace c); [discriminate | reflexivity].
Qed.

Lemma trim_fixed (s : string) :
  Behaviour.allChars (fun c => negb (JsString.isWhiteSpace c)) s = true ->
  JsString.trim s = s.
Proof.
  intros H. unfold JsString.trim.
  replace (JsString.trimStart s) with s; [now apply trimEnd_fixed|].
  destruct s as [|c s]; [reflexivity|]. cbn in *.
  apply andb_true_iff in H as [Hc _].
  destruct (JsString.isWhiteSpace c); [discriminate | reflexivity].
Qed.

Lemma includes_comma_false (s : string) :
  JsString.includes s "," = false ->
  Behaviour.allChars (fun c => negb (Behaviour.isComma c)) s = true.
Proof.
  induction s as [|c s IH]; cbn [JsString.includes Behaviour.allChars]; [reflexivity|].
  intros H. apply orb_false_iff in H as [P R]. rewrite (IH R), andb_true_r.
  unfold Behaviour.isComma. cbn in P.
  destruct (ascii_dec ","%char c) as [<-|N].
  - destruct s; discriminate.
  - destruct (Ascii.eqb_spec c ","%char) as [->|_]; [now elim N | reflexivity].
Qed.

Lemma split_nonempty (sep : ascii) (s : string) : JsString.split sep s <> [].
Proof.
  destruct s as [|c s]; cbn; [discriminate|].
  destruct (Ascii.eqb c sep); [discriminate|].
  destruct (JsString.split sep s); discriminate.
Qed.

Lemma split_parts (s : string) :
  Forall (fun part => Behaviour.allChars (fun c => negb (Behaviour.isComma c)) part = true)
         (JsString.split ","%char s).
Proof.
  induction s as [|c s IH]; cbn [JsString.split]; [repeat constructor|].
  destruct (Ascii.eqb c ","%char) eqn:E; [constructor; [reflexivity | exact IH]|].
  destruct (JsString.split ","%char s) as [|h t]; [|inversion IH as [|? ? Hh Ht]; subst];
    constructor; try assumption; try constructor;
    cbn; unfold Behaviour.isComma; rewrite E; cbn; try assumption; reflexivity.
Qed.

Lemma last_in {A} (l : list A) (d : A) : l <> [] -> In (last l d) l.
Proof.
  induction l as [|x l IH]; [now intros H; elim H|].
  intros _. destruct l as [|y l]; [left; reflexivity|].
  right. apply IH. discriminate.
Qed.

Lemma last_app_nonempty {A} (l r : list A) (d : A) :
  r <> [] -> last (l ++ r) d = last r d.
Proof.
  intros H. induction l as [|x l IH]; [reflexivity|].
  cbn [app]. destruct (l ++ r)%list as [|y t] eqn:E.
  - destruct l; [now elim H | discriminate].
  - exact IH.
Qed.

(** What follows a separator is split on its own. *)
Lemma split_after (sep : ascii) (h b : string) :
  exists l, l <> []
            /\ JsString.split sep (h ++ String sep b)
               = (l ++ JsString.split sep b)%list.
Proof.
  induction h as [|c h (l & N & IH)]; cbn [append JsString.split].
  - rewrite Ascii.eqb_refl. exists [""]. split; [discriminate | reflexivity].
  - rewrite IH. destruct (Ascii.eqb c sep).
    + exists ("" :: l). split; [discriminate | reflexivity].
    + destruct l as [|x l]; [now elim N|].
      exists (String c x :: l). split; [discriminate | reflexivity].
Qed.

Lemma split_no_separator (s : string) :
  Behaviour.allChars (fun c => negb (Behaviour.isComma c)) s = true ->
  JsString.split ","%char s = [s].
Proof.
  induction s as [|c s IH]; cbn; [reflexivity|].
  intros H. apply andb_true_iff in H as [Hc Hs]. rewrite (IH Hs).
  unfold Behaviour.isComma in Hc. destruct (Ascii.eqb c ","%char); [discriminate|].
  reflexivity.
Qed.

(** The sanitizing of [getFacialBiometry], on any string. *)
Lemma sanitized_clean (base64 : string) :
  Behaviour.allChars Behaviour.payloadChar
    (JsString.trim
       (JsString.removeWhiteSpace
          (if JsString.includes base64 ","
           then last (JsString.split ","%char base64) ""
           else base64))) = true.
Proof.
  unfold Behaviour.payloadChar. rewrite allChars_both. apply andb_true_iff. split.
  - apply trim_keeps, removeWhiteSpace_none.
  - apply trim_keeps, removeWhiteSpace_keeps.
    destruct (JsString.includes base64 ",") eqn:I.
    + pose proof (split_parts base64) as F. rewrite Forall_forall in F.
      apply F, last_in, split_nonempty.
    + now apply includes_comma_false.
Qed.

Lemma sanitized_payload (h b : string) :
  Behaviour.allChars Behaviour.payloadChar b = true ->
  JsString.trim
    (JsString.removeWhiteSpace
       (if JsString.includes (h ++ "," ++ b) ","
        then last (JsString.split ","%char (h ++ "," ++ b)) ""
        else h ++ "," ++ b)) = b.
Proof.
  unfold Behaviour.payloadChar. rewrite allChars_both. intros H.
  apply andb_true_iff in H as [W C].
  replace (JsString.includes (h ++ "," ++ b) ",") with true
    by (symmetry; apply includes_substring; exists h, b; reflexivity).
  destruct (split_after ","%char h b) as (l & N & E).
  change (h ++ "," ++ b) with (h ++ String ","%char b). rewrite E.
  rewrite last_app_nonempty by apply split_nonempty.
  rewrite (split_no_separator b C). cbn [last].
  now rewrite (removeWhiteSpace_fixed b W), (trim_fixed b W).
Qed.

End StringShapes.

Section FetchResults.
Import Async PatientSyncService.

(** The details always carry a complete card number, and an insurer code of
    four characters at least. *)
Lemma getBeneficiaryDetails_complete (env : Env) (w : value) (d : Beneficiary.t) :
  fst (getBeneficiaryDetails w env) = Ok d ->
  Js.truthy (Beneficiary.completeCardNumber d) = true
  /\ (4 <= String.length (Beneficiary.healthInsurer d))%nat.
Proof.
  intros H. unfold getBeneficiaryDetails in H.
  apply fst_bind_ok in H as (numericCard & _ & H).
  apply fst_bind_ok in H as (details & _ & H).
  apply fst_bind_ok in H as (resolved & _ & H).
  apply fst_bind_ok in H as (hi & _ & H).
  apply fst_bind_ok in H as (cn & _ & H).
  apply fst_bind_ok in H as (complete & C & H).
  unfold ret in H. cbn [fst] in H. injection H as <-.
  cbn [Beneficiary.completeCardNumber Beneficiary.healthInsurer].
  assert (4 <= String.length (JsString.padStart0 4 (Js.ToString hi)))%nat as L
    by (rewrite padStart0_length; lia).
  split; [|exact L].
  apply orElse_ok in C as [T|C]; [exact T|].
  unfold ret in C. cbn [fst] in C. injection C as <-.
  apply truthy_nonempty. rewrite length_app. lia.
Qed.

(** What [getBeneficiaryDetails] returns, read off the directory's answer. *)
Lemma getBeneficiaryDetails_answer (env : Env) (w : string) (d : Beneficiary.t) :
  fst (getBeneficiaryDetails (VStr w) env) = Ok d ->
  exists answer,
    backend env "get_beneficiary_details" (Behaviour.detailsArgs w) = Ok answer
    /\ d = Behaviour.detailsOf answer w.
Proof.
  unfold getBeneficiaryDetails, Behaviour.detailsArgs.
  rewrite (bind_pure _ _ env (directoryQueryId w)) by reflexivity.
  rewrite fst_bind. unfold invoke at 1. cbn [fst].
  destruct (backend env "get_beneficiary_details" _) as [answer|e]; [|discriminate].
  intros H. exists answer. split; [reflexivity|].
  destruct (Js.nullish answer) eqn:N; [destruct answer; discriminate|].
  assert ((person <- answer.["person"] ;; person.?["name"]) env
          = (Ok (Behaviour.field (Behaviour.field answer "person") "name"), [])) as P.
  { rewrite (bind_pure _ _ env _ (get_pure answer "person" env N)).
    apply getOpt_pure. }
  rewrite (bind_pure _ _ env (Behaviour.directoryName answer)) in H
    by (repeat apply orElse_pure; try exact P; try (now apply get_pure); reflexivity).
  rewrite (bind_pure _ _ env (Behaviour.field answer "healthInsurer" <|> VStr "")) in H
    by (apply orElse_pure; [now apply get_pure | reflexivity]).
  rewrite (bind_pure _ _ env (Behaviour.field answer "cardNumber" <|> VStr w)) in H
    by (apply orElse_pure; [now apply get_pure | reflexivity]).
  rewrite (bind_pure _ _ env (Behaviour.directoryWallet answer w)) in H
    by (apply orElse_pure; [now apply get_pure | reflexivity]).
  cbn in H. now injection H as <-.
Qed.

Lemma resolvedName_detailsOf (answer : value) (w : string) :
  Spec.resolvedName (Behaviour.detailsOf answer w) = Behaviour.directoryName answer.
Proof.
  unfold Spec.resolvedName, Behaviour.detailsOf.
  cbn [Beneficiary.name Beneficiary.fullName Beneficiary.nome].
  unfold Behaviour.directoryName.
  set (x := Behaviour.field answer "cardName" <|> Behaviour.field answer "name"
            <|> Behaviour.field (Behaviour.field answer "person") "name").
  clearbody x. unfold orValue. destruct (Js.truthy x) eqn:T; [|reflexivity].
  now rewrite !T.
Qed.

(** A successful [syncPatient], read off the directory's answer. *)
Lemma syncPatient_succeeded (env : Env) (p : Patient) (r : SyncResult) :
  fst (syncPatient p env) = Ok r ->
  success r = true ->
  exists w answer raw,
    wallet p = VStr w
    /\ backend env "get_beneficiary_details" (Behaviour.detailsArgs w) = Ok answer
    /\ Behaviour.directoryName answer = VStr raw
    /\ r = Spec.synchronized
             (merged p (Behaviour.detailsOf answer w) (JsString.trim raw)
                     (Spec.mappedBiometrics (Spec.fetchedFingerprints (wallet p) env))
                     (Spec.fetchedFacial (wallet p) env)).
Proof.
  intros H S.
  destruct (syncPatient_settles env p)
    as [(r' & E & F & _) | [(d & raw & _ & D & R & E) | (text & E)]];
    rewrite E in H; [injection H as <-; congruence | | discriminate].
  injection H as <-.
  destruct (wallet p) as [| |b|n|w|l|o] eqn:W; try discriminate D.
  destruct (getBeneficiaryDetails_answer env w d D) as (answer & B & ->).
  exists w, answer, raw. repeat split; try assumption.
  now rewrite resolvedName_detailsOf in R.
Qed.

(** X3: a successful [syncPatient] takes the new wallet from the answer of
    the directory: its complete card number when it has one, otherwise the
    insurer code padded to four characters followed by the card number of
    the answer.  The branch that would keep the wallet of the patient is
    never taken: the new wallet is never empty, and when the answer has no
    card number either it is the insurer code followed by the old wallet,
    four characters at least longer than the old one. *)
Theorem syncPatient_wallet (env : Env) (p : Patient) (r : SyncResult) :
  fst (syncPatient p env) = Ok r ->
  success r = true ->
  exists w answer u,
    wallet p = VStr w
    /\ backend env "get_beneficiary_details"
         (VObj [("cardNumber", VStr (directoryQueryId w))]) = Ok answer
    /\ updatedPatient r = Some u
    /\ wallet u = Behaviour.directoryWallet answer w
    /\ Js.truthy (wallet u) = true
    /\ (Js.truthy (Behaviour.field answer "completeCardNumber") = true ->
        wallet u = Behaviour.field answer "completeCardNumber")
    /\ (Js.truthy (Behaviour.field answer "completeCardNumber") = false ->
        wallet u = VStr (JsString.padStart0 4
                           (Js.ToString (Behaviour.field answer "healthInsurer" <|> VStr ""))
                         ++ Js.ToString (Behaviour.field answer "cardNumber" <|> VStr w))
        /\ (Js.truthy (Behaviour.field answer "cardNumber") = false ->
            exists insurer,
              wallet u = VStr (insurer ++ w)
              /\ (4 <= String.length insurer)%nat)).
Proof.
  intros H S.
  destruct (syncPatient_succeeded env p r H S) as (w & answer & raw & W & B & _ & ->).
  exists w, answer. eexists. split; [exact W|]. split; [exact B|].
  split; [reflexivity|]. cbn [wallet merged Beneficiary.completeCardNumber
                               Behaviour.detailsOf].
  assert (Js.truthy (Behaviour.directoryWallet answer w) = true) as T.
  { unfold Behaviour.directoryWallet, orValue.
    destruct (Js.truthy (Behaviour.field answer "completeCardNumber")) eqn:C; [exact C|].
    apply truthy_nonempty. unfold Behaviour.directoryInsurer.
    rewrite length_app, padStart0_length. lia. }
  assert (Behaviour.directoryWallet answer w <|> wallet p
          = Behaviour.directoryWallet answer w) as -> by (unfold orValue at 1; now rewrite T).
  split; [reflexivity|]. split; [exact T|].
  split; intros C.
  - unfold Behaviour.directoryWallet, orValue. now rewrite C.
  - assert (Behaviour.directoryWallet answer w
            = VStr (Behaviour.directoryInsurer answer ++ Behaviour.directoryCard answer w))
      as -> by (unfold Behaviour.directoryWallet, orValue at 1; now rewrite C).
    split; [reflexivity|]. intros N.
    exists (Behaviour.directoryInsurer answer). split.
    + unfold Behaviour.directoryCard, orValue. now rewrite N.
    + unfold Behaviour.directoryInsurer. rewrite padStart0_length. lia.
Qed.

Lemma syncPatient_wallet_witness :
  fst (syncPatient Scenario.maria Cases.nameOnly)
  = Ok (Spec.synchronized
          {| id := 7; name := "Maria"; wallet := VStr "000000010000000000042";
             facialBiometric := "ZmFjZQ==";
             digitalBiometrics := [ {| finger := "Polegar Direito"; data := VStr "QUJD" |} ];
             imported := true |})
  /\ exists w answer u,
       wallet Scenario.maria = VStr w
       /\ backend Cases.nameOnly "get_beneficiary_details"
            (VObj [("cardNumber", VStr (directoryQueryId w))]) = Ok answer
       /\ Some {| id := 7; name := "Maria"; wallet := VStr "000000010000000000042";
                  facialBiometric := "ZmFjZQ==";
                  digitalBiometrics :=
                    [ {| finger := "Polegar Direito"; data := VStr "QUJD" |} ];
                  imported := true |} = Some u
       /\ wallet u = Behaviour.directoryWallet answer w
       /\ Js.truthy (wallet u) = true.
Proof.
  split; [reflexivity|].
  destruct (syncPatient_wallet Cases.nameOnly Scenario.maria _ eq_refl eq_refl)
    as (w & answer & u & W & B & U & E & T & _).
  exists w, answer, u. repeat split; assumption.
Defined.




(** What [getFacialBiometry] makes of the string it has extracted. *)
Lemma getFacialBiometry_sanitizes (env : Env) (w : value) :
  Spec.fetchedFacial w env = ""
  \/ exists base64,
       Spec.fetchedFacial w env
       = JsString.trim
           (JsString.removeWhiteSpace
              (if JsString.includes base64 ","
               then last (JsString.split ","%char base64) ""
               else base64)).
Proof.
  unfold Spec.fetchedFacial, getFacialBiometry. rewrite fst_try_catch.
  match goal with |- context [fst (bind ?m ?k env)] =>
    destruct (fst (bind m k env)) as [s|e] eqn:H end; [|left; reflexivity].
  right. apply fst_bind_ok in H as (raw & _ & H).
  apply fst_bind_ok in H as (base64 & _ & H).
  cbn in H. injection H as <-. exists base64. reflexivity.
Qed.

(** X4: whatever the directory answers, the facial image [getFacialBiometry]
    returns holds neither white space nor a comma: no data URL prefix and
    no line break reaches the patient. *)
Theorem getFacialBiometry_clean (env : Env) (w : value) :
  exists s,
    fst (getFacialBiometry w env) = Ok s
    /\ Behaviour.allChars Behaviour.payloadChar s = true.
Proof.
  exists (Spec.fetchedFacial w env). split; [apply getFacialBiometry_settles|].
  destruct (getFacialBiometry_sanitizes env w) as [-> | [base64 ->]];
    [reflexivity | apply sanitized_clean].
Qed.

(** X5: an answer in the form of a data URL, bare or under the key [photo],
    is reduced to its payload: what follows the last comma, when it holds
    neither white space nor a comma itself. *)
Theorem getFacialBiometry_data_url (env : Env) (w : value) (header payload : string) :
  Behaviour.allChars Behaviour.payloadChar payload = true ->
  (backend env "get_facial_biometry" (VObj [("cardNumber", w)])
   = Ok (VStr (header ++ "," ++ payload))
   \/ backend env "get_facial_biometry" (VObj [("cardNumber", w)])
      = Ok (VObj [("photo", VStr (header ++ "," ++ payload))])) ->
  fst (getFacialBiometry w env) = Ok payload.
Proof.
  intros P B. unfold getFacialBiometry.
  rewrite fst_try_catch, fst_bind. unfold invoke at 1. cbn [fst].
  assert (Js.truthy (VStr (header ++ "," ++ payload)) = true) as T
    by (apply truthy_nonempty; rewrite length_app; cbn; lia).
  destruct B as [-> | ->].
  - rewrite fst_bind. cbn [ret fst]. now rewrite (sanitized_payload header payload P).
  - rewrite fst_bind, fst_bind.
    change (fst ((VObj [("photo", VStr (header ++ "," ++ payload))]).["photo"] env))
      with (@Ok value (VStr (header ++ "," ++ payload))).
    cbv iota beta. rewrite T. cbn [ret fst Js.ToString].
    now rewrite (sanitized_payload header payload P).
Qed.

Lemma getFacialBiometry_data_url_witness :
  Behaviour.allChars Behaviour.payloadChar "iVBORw0KGgo=" = true
  /\ fst (getFacialBiometry (VStr "00010000000000042")
            (Scenario.directory (fun _ => Ok Scenario.mariaDetails)
                                (fun _ => Ok Scenario.oneFingerprint)
                                (fun _ => Ok (VStr ("data:image/png;base64"
                                                    ++ "," ++ "iVBORw0KGgo=")))))
     = Ok "iVBORw0KGgo=".
Proof.
  split; [reflexivity|].
  apply (getFacialBiometry_data_url _ (VStr "00010000000000042")
           "data:image/png;base64" "iVBORw0KGgo=" eq_refl).
  left. reflexivity.
Defined.

End FetchResults.

Section Fingerprints.
Import Async PatientSyncService.

Lemma toFingerprint_record (env : Env) (fp : value) :
  Js.nullish fp = false ->
  fst (Behaviour.toFingerprint fp env) = Ok (Behaviour.recordOf fp).
Proof.
  intros N.
  destruct fp as [| |b|n|s|items|fields]; try discriminate; try reflexivity.
  unfold Behaviour.toFingerprint, Behaviour.recordOf, Behaviour.field, orValue.
  unfold JsOps.orElse, JsOps.get, bind, ret.
  repeat match goal with
         | |- context [Js.truthy ?x] => destruct (Js.truthy x); cbn
         end; reflexivity.
Qed.

Lemma toFingerprint_throws (env : Env) (fp : value) :
  Js.nullish fp = true -> exists e, fst (Behaviour.toFingerprint fp env) = Throw e.
Proof. destruct fp; try discriminate; intros _; eexists; reflexivity. Qed.

Lemma mapM_toFingerprint (env : Env) (items : list value) :
  if existsb Js.nullish items
  then exists e, fst (mapM Behaviour.toFingerprint items env) = Throw e
  else fst (mapM Behaviour.toFingerprint items env)
       = Ok (map Behaviour.recordOf items).
Proof.
  induction items as [|fp items IH]; [reflexivity|].
  cbn [existsb mapM map]. rewrite fst_bind.
  destruct (Js.nullish fp) eqn:N; cbn [orb].
  - destruct (toFingerprint_throws env fp N) as [e ->]. now exists e.
  - rewrite (toFingerprint_record env fp N), fst_bind.
    destruct (existsb Js.nullish items).
    + destruct IH as [e ->]. now exists e.
    + now rewrite IH.
Qed.

(** X6: [getFingerprints] returns one record for each element of the array
    the directory answers, in the order of the array, the code being the
    first non-empty of [fingerCode], [code] and 0, and the image the first
    non-empty of [biometry], [data] and the empty string.  One [null] among
    the elements loses them all: the list is empty then, as it is for an
    answer that is not an array and for a rejected request. *)
Theorem getFingerprints_records (env : Env) (w : value) :
  fst (getFingerprints w env)
  = Ok (Behaviour.recordsOf (backend env "get_fingerprints" (VObj [("cardNumber", w)]))).
Proof.
  unfold getFingerprints, Behaviour.recordsOf.
  rewrite fst_try_catch, fst_bind. unfold invoke at 1. cbn [fst].
  destruct (backend env "get_fingerprints" (VObj [("cardNumber", w)])) as [answer|e];
    [|reflexivity].
  change (fun fp : value => _) with Behaviour.toFingerprint.
  destruct answer as [| |b|n|s|items|fields]; try reflexivity.
  cbn [Js.arrayOrEmpty].
  pose proof (mapM_toFingerprint env items) as H.
  destruct (existsb Js.nullish items).
  - destruct H as [e ->]. reflexivity.
  - now rewrite H.
Qed.

(** The directory answering an array with a [null] in it. *)
Example getFingerprints_null_element :
  fst (getFingerprints (VStr "00010000000000042")
         (Scenario.directory
            (fun _ => Ok Scenario.mariaDetails)
            (fun _ => Ok (VArr [VObj [("fingerCode", VNum 6); ("biometry", VStr "QUJD")];
                                VNull]))
            (fun _ => Ok (VStr ""))))
  = Ok [].
Proof. reflexivity. Qed.

(** X7: on fingerprints whose codes are numbers the two conversions agree:
    the import dialog keeps, of what [syncPatient] would store, the entries
    that have an image, with the same labels and images in the same order. *)
Theorem conversions_agree (fingerprints : list Fingerprint) :
  Forall (fun fp => exists n, fingerCode fp = VNum n) fingerprints ->
  ImportPatientDialog.toDigitalBiometrics fingerprints
  = filter (fun d => Js.truthy (data d)) (Spec.mappedBiometrics fingerprints).
Proof.
  unfold ImportPatientDialog.toDigitalBiometrics, Spec.mappedBiometrics.
  induction 1 as [|fp fps [n Hn] _ IH]; [reflexivity|].
  cbn [map filter data]. rewrite IH, Hn.
  rewrite getFingerName_same. unfold orValue.
  destruct (Js.truthy (biometry fp)) eqn:T; [rewrite T|]; reflexivity.
Qed.

Lemma conversions_agree_witness :
  Forall (fun fp => exists n, fingerCode fp = VNum n)
         [ {| fingerCode := VNum 6; biometry := VStr "QUJD" |};
           {| fingerCode := VNum 1; biometry := VStr "" |} ]
  /\ ImportPatientDialog.toDigitalBiometrics
       [ {| fingerCode := VNum 6; biometry := VStr "QUJD" |};
         {| fingerCode := VNum 1; biometry := VStr "" |} ]
     = [ {| finger := "Polegar Direito"; data := VStr "QUJD" |} ].
Proof.
  assert (Forall (fun fp => exists n, fingerCode fp = VNum n)
                 [ {| fingerCode := VNum 6; biometry := VStr "QUJD" |};
                   {| fingerCode := VNum 1; biometry := VStr "" |} ]) as F
    by (repeat constructor; eexists; reflexivity).
  split; [exact F|].
  exact (conversions_agree _ F).
Defined.

End Fingerprints.

(* ===================================================================== *)
(** ** Further properties: card numbers and the search *)
(* ===================================================================== *)

Section CardNumbers.
Import Async PatientSyncService.

Lemma skip_app (a b : string) : JsString.skip (String.length a) (a ++ b) = b.
Proof. induction a as [|c a IH]; cbn; [destruct b; reflexivity | exact IH]. Qed.

Lemma sliceLast_app (n : nat) (a b : string) :
  String.length b = n -> JsString.sliceLast n (a ++ b) = b.
Proof.
  intros H. unfold JsString.sliceLast. rewrite length_app.
  replace (String.length a + String.length b - n)%nat with (String.length a) by lia.
  apply skip_app.
Qed.

Lemma strip_zeros_app (k : nat) (s : string) :
  JsString.stripLeadingZeros (JsString.zeros k ++ s) = JsString.stripLeadingZeros s.
Proof. induction k as [|k IH]; [reflexivity | exact IH]. Qed.

Lemma directoryQueryId_padded (h c : string) :
  (String.length c <= 13)%nat ->
  directoryQueryId (JsString.padStart0 4 h ++ JsString.padStart0 13 c)
  = JsString.stripLeadingZeros c.
Proof.
  intros L. unfold directoryQueryId.
  rewrite sliceLast_app by (rewrite padStart0_length; lia).
  apply strip_zeros_app.
Qed.

(** X8: for a wallet made of an insurer code padded to 4 characters and a
    card number of 13 characters at most padded to 13, the directory query
    id is the card number without its leading zeros, and this is what
    [syncPatient] asks the details for. *)
Theorem padded_wallet_query (env : Env) (p : Patient) (h c : string) :
  (String.length c <= 13)%nat ->
  imported p = true ->
  wallet p = VStr (JsString.padStart0 4 h ++ JsString.padStart0 13 c) ->
  directoryQueryId (JsString.padStart0 4 h ++ JsString.padStart0 13 c)
  = JsString.stripLeadingZeros c
  /\ hd_error (snd (syncPatient p env))
     = Some (Invoke "get_beneficiary_details"
                    (VObj [("cardNumber", VStr (JsString.stripLeadingZeros c))])).
Proof.
  intros L I W. split; [now apply directoryQueryId_padded|].
  rewrite syncPatient_sends. unfold Behaviour.requestsOf. rewrite I, W.
  cbn [app hd_error]. now rewrite (directoryQueryId_padded h c L).
Qed.

Lemma padded_wallet_query_witness :
  (String.length "42" <= 13)%nat
  /\ imported Scenario.maria = true
  /\ wallet Scenario.maria = VStr (JsString.padStart0 4 "1" ++ JsString.padStart0 13 "42")
  /\ hd_error (snd (syncPatient Scenario.maria Scenario.detailsDown))
     = Some (Invoke "get_beneficiary_details" (VObj [("cardNumber", VStr "42")])).
Proof.
  assert (String.length "42" <= 13)%nat as L by (cbn; lia).
  repeat (split; [assumption || reflexivity|]).
  exact (proj2 (padded_wallet_query Scenario.detailsDown Scenario.maria "1" "42"
                                    L eq_refl eq_refl)).
Defined.

(** X9: a search result keeps the complete card number the directory sent,
    whatever it is, unless it is absent or [null]; the search then makes
    one of the insurer code padded to 4 characters and the card number
    padded to 13: seventeen characters, or more when one of the two is
    longer than its width. *)
Theorem normalize_complete (env : Env) (b : value) (n : Beneficiary.t) :
  fst (normalize b env) = Ok n ->
  if Js.nullish (Behaviour.field b "completeCardNumber") then
    exists s,
      Beneficiary.completeCardNumber n = VStr s
      /\ s = JsString.padStart0 4 (Beneficiary.healthInsurer n)
             ++ JsString.padStart0 13 (Beneficiary.cardNumber n)
      /\ String.length s
         = (Nat.max 4 (String.length (Beneficiary.healthInsurer n))
            + Nat.max 13 (String.length (Beneficiary.cardNumber n)))%nat
      /\ (17 <= String.length s)%nat
  else Beneficiary.completeCardNumber n = Behaviour.field b "completeCardNumber".
Proof.
  intros H. unfold normalize in H.
  apply fst_bind_ok in H as (hi & Hhi & H).
  apply fst_bind_ok in H as (cn & _ & H).
  apply fst_bind_ok in H as (complete & C & H).
  apply fst_bind_ok in H as (resolved & _ & H).
  unfold ret in H. cbn [fst] in H. injection H as <-.
  cbn [Beneficiary.completeCardNumber Beneficiary.healthInsurer Beneficiary.cardNumber].
  assert (fst (b.["completeCardNumber"] env)
          = Ok (Behaviour.field b "completeCardNumber")) as G.
  { destruct b; try reflexivity;
      unfold JsOps.coalesce in Hhi; rewrite fst_bind in Hhi; discriminate. }
  unfold JsOps.coalesce in C. rewrite fst_bind, G in C.
  destruct (Js.nullish (Behaviour.field b "completeCardNumber")).
  - unfold ret in C. cbn [fst] in C. injection C as <-.
    eexists. split; [reflexivity|]. split; [reflexivity|].
    rewrite length_app, !padStart0_length. split; lia.
  - unfold ret in C. cbn [fst] in C. now injection C as <-.
Qed.

Lemma normalize_complete_witness :
  fst (normalize (VObj [("name", VStr "Ana Lima"); ("healthInsurer", VNum 1);
                        ("cardNumber", VNum 42)]) Scenario.allUp)
  = Ok {| Beneficiary.name := VStr "Ana Lima";
          Beneficiary.fullName := VUndefined;
          Beneficiary.nome := VUndefined;
          Beneficiary.healthInsurer := "1";
          Beneficiary.cardNumber := "42";
          Beneficiary.completeCardNumber := VStr "00010000000000042" |}
  /\ exists s,
       VStr "00010000000000042" = VStr s
       /\ s = JsString.padStart0 4 "1" ++ JsString.padStart0 13 "42"
       /\ String.length s = (Nat.max 4 1 + Nat.max 13 2)%nat
       /\ (17 <= String.length s)%nat.
Proof.
  split; [reflexivity|].
  exact (normalize_complete Scenario.allUp
           (VObj [("name", VStr "Ana Lima"); ("healthInsurer", VNum 1);
                  ("cardNumber", VNum 42)]) _ eq_refl).
Defined.

End CardNumbers.

Section SearchResults.
Import Async PatientSyncService.

Lemma mapM_length {A B} (f : A -> M B) (xs : list A) (env : Env) (ys : list B) :
  fst (mapM f xs env) = Ok ys -> length ys = length xs.
Proof.
  revert ys. induction xs as [|x r IH]; intros ys H.
  - cbn in H. now injection H as <-.
  - cbn [mapM] in H. apply fst_bind_ok in H as (y & _ & H).
    apply fst_bind_ok in H as (ys' & R & H).
    unfold ret in H. cbn [fst] in H. injection H as <-.
    cbn. now rewrite (IH ys' R).
Qed.

Lemma filterM_sublist {A} (f : A -> M bool) (xs : list A) (env : Env) (ys : list A) :
  fst (filterM f xs env) = Ok ys ->
  incl ys xs /\ (length ys <= length xs)%nat.
Proof.
  revert ys. induction xs as [|x r IH]; intros ys H.
  - cbn in H. injection H as <-. split; [apply incl_refl | lia].
  - cbn [filterM] in H. apply fst_bind_ok in H as (keep & _ & H).
    apply fst_bind_ok in H as (ys' & R & H).
    unfold ret in H. cbn [fst] in H. injection H as <-.
    destruct (IH ys' R) as [I L]. destruct keep; cbn [length]; split; try lia.
    + now apply incl_cons; [left | apply incl_tl].
    + now apply incl_tl.
Qed.

(** X10: the search returns nothing the directory has not sent: every
    record it returns is the normalized form of an element of the answer,
    there are no more records than elements, none when the answer is not an
    array, and with an empty guarantor all of them are returned. *)
Theorem search_within_answer (env : Env) (params : BeneficiarySearchParams)
    (found : list Beneficiary.t) :
  fst (searchBeneficiaries params env) = Ok found ->
  exists raw normalized,
    backend env "search_beneficiaries" (VObj [("params", paramsValue params)]) = Ok raw
    /\ fst (mapM normalize (Js.arrayOrEmpty raw) env) = Ok normalized
    /\ incl found normalized
    /\ (length found <= length (Js.arrayOrEmpty raw))%nat
    /\ (if (guarantor params =? "")%string then found = normalized else True).
Proof.
  intros H. unfold searchBeneficiaries in H.
  apply fst_bind_ok in H as (raw & R & H).
  apply fst_bind_ok in H as (normalized & N & H).
  unfold invoke in R. cbn [fst] in R.
  exists raw, normalized. split; [exact R|]. split; [exact N|].
  pose proof (mapM_length _ _ _ _ N) as L.
  destruct (guarantor params =? "")%string; cbn [negb] in H.
  - unfold ret in H. cbn [fst] in H. injection H as <-.
    repeat split; [apply incl_refl | lia].
  - apply filterM_sublist in H as [I Lf]. repeat split; [exact I | lia].
Qed.

Lemma search_within_answer_witness :
  fst (searchBeneficiaries (Scenario.searchFor "ana") Scenario.capitalInsurer)
  = Ok [ {| Beneficiary.name := VStr "Ana Lima";
            Beneficiary.fullName := VUndefined;
            Beneficiary.nome := VUndefined;
            Beneficiary.healthInsurer := "UNIMED";
            Beneficiary.cardNumber := "42";
            Beneficiary.completeCardNumber := VStr "UNIMED0000000000042" |} ]
  /\ exists raw normalized,
       backend Scenario.capitalInsurer "search_beneficiaries"
               (VObj [("params", paramsValue (Scenario.searchFor "ana"))]) = Ok raw
       /\ fst (mapM normalize (Js.arrayOrEmpty raw) Scenario.capitalInsurer)
          = Ok normalized
       /\ incl [ {| Beneficiary.name := VStr "Ana Lima";
                    Beneficiary.fullName := VUndefined;
                    Beneficiary.nome := VUndefined;
                    Beneficiary.healthInsurer := "UNIMED";
                    Beneficiary.cardNumber := "42";
                    Beneficiary.completeCardNumber := VStr "UNIMED0000000000042" |} ]
               normalized
       /\ (1 <= length (Js.arrayOrEmpty raw))%nat
       /\ True.
Proof.
  split; [reflexivity|].
  exact (search_within_answer Scenario.capitalInsurer (Scenario.searchFor "ana") _ eq_refl).
Defined.

End SearchResults.

(* ===================================================================== *)
(** ** Further properties: the handlers of the patient manager *)
(* ===================================================================== *)

Section ManagerHandlers.
Import Async PatientManager.

Variable env : Env.

(** The [catch] blocks of the handlers alert and leave the list alone. *)
Lemma alert_keeps (patients l : list Patient) (text : value -> string) (e : value) :
  fst ((msg <- e.["message"] ;; alert (text msg) ;; ret patients) env) = Ok l ->
  l = patients.
Proof.
  intros H. apply fst_bind_ok in H as (msg & _ & H).
  apply fst_bind_ok in H as (u & _ & H).
  unfold ret in H. cbn [fst] in H. now injection H as <-.
Qed.

Lemma guarded_result (patients l : list Patient) (body : M (list Patient))
    (text : value -> string) :
  fst (try_catch body
         (fun err => msg <- err.["message"] ;; alert (text msg) ;; ret patients) env)
  = Ok l ->
  fst (body env) = Ok l \/ (l = patients /\ exists e, fst (body env) = Throw e).
Proof.
  rewrite fst_try_catch. destruct (fst (body env)) as [l'|e]; [now left|].
  intros H. right. split; [now apply alert_keeps in H | now exists e].
Qed.

(** What a handler with such a [catch] block leaves in the component. *)
Lemma after_guarded (patients : list Patient) (body : M (list Patient))
    (text : value -> string) :
  after patients
        (try_catch body
           (fun err => msg <- err.["message"] ;; alert (text msg) ;; ret patients))
        env
  = match fst (body env) with
    | Ok l => l
    | Throw _ => patients
    end.
Proof.
  unfold after.
  destruct (fst (try_catch _ _ env)) as [l|e] eqn:H.
  - apply guarded_result in H as [-> | [-> [e ->]]]; reflexivity.
  - rewrite fst_try_catch in H. destruct (fst (body env)); [discriminate | reflexivity].
Qed.

Lemma fst_saved (l : list Patient) :
  fst ((PatientStore.savePatients l ;; ret l) env) = Ok l
  \/ exists e, fst ((PatientStore.savePatients l ;; ret l) env) = Throw e.
Proof.
  rewrite fst_bind. destruct (fst (PatientStore.savePatients l env)) as [u|e];
    [left; reflexivity | right; now exists e].
Qed.

Lemma after_handleSavePatient (patients : list Patient) (p : Patient) :
  after patients (handleSavePatient patients p) env = patients
  \/ after patients (handleSavePatient patients p) env
     = (if id p =? 0
        then (patients ++ [withId p (Number.add (maxId patients) 1)])%list
        else replaceById patients (id p) p).
Proof.
  unfold handleSavePatient. rewrite after_guarded.
  match goal with |- context [fst ((PatientStore.savePatients ?l ;; ret ?l) env)] =>
    destruct (fst_saved l) as [-> | [e ->]] end; [right | left]; reflexivity.
Qed.

Lemma after_handleImportPatient (patients : list Patient) (p : Patient) :
  after patients (handleImportPatient patients p) env = patients
  \/ after patients (handleImportPatient patients p) env
     = (patients ++ [withId p (Number.add (maxId patients) 1)])%list.
Proof.
  unfold handleImportPatient. rewrite after_guarded.
  match goal with |- context [fst ((PatientStore.savePatients ?l ;; ret ?l) env)] =>
    destruct (fst_saved l) as [-> | [e ->]] end; [right | left]; reflexivity.
Qed.

Lemma after_handleDeletePatient (patients : list Patient) (p : Patient) :
  after patients (handleDeletePatient patients p) env = patients
  \/ after patients (handleDeletePatient patients p) env
     = filter (fun q => negb (id q =? id p)) patients.
Proof.
  unfold handleDeletePatient.
  unfold confirm. fold (Behaviour.deleteQuestion p).
  unfold after at 1 2. rewrite !fst_bind. cbn [fst].
  destruct (answer env (Behaviour.deleteQuestion p)); cbn [negb]; [|left; reflexivity].
  match goal with |- context [fst (try_catch ?b ?h env)] =>
    pose proof (after_guarded patients b
                  (fun msg => "Erro ao remover paciente: " ++ Js.ToString msg)) as G end.
  unfold after in G. rewrite G.
  match goal with |- context [fst ((PatientStore.savePatients ?l ;; ret ?l) env)] =>
    destruct (fst_saved l) as [-> | [e ->]] end; [right | left]; reflexivity.
Qed.

Lemma after_handleSyncPatient (patients : list Patient) (p : Patient) :
  after patients (handleSyncPatient patients p) env = patients
  \/ exists u,
       id u = id p
       /\ after patients (handleSyncPatient patients p) env
          = replaceById patients (id p) u.
Proof.
  unfold handleSyncPatient.
  destruct (imported p) eqn:I; cbn [negb]; [|left; reflexivity].
  rewrite after_guarded, fst_bind.
  destruct (syncPatient_settles env p)
    as [(r & E & F & U) | [(d & raw & _ & _ & _ & E) | (text & E)]]; rewrite E.
  - left. rewrite F. destruct (updatedPatient r); reflexivity.
  - cbn [Spec.synchronized success updatedPatient].
    rewrite fst_bind.
    destruct (fst (PatientStore.savePatients _ env)); [|left; reflexivity].
    right. eexists. split; [|reflexivity]. reflexivity.
  - left. reflexivity.
Qed.

End ManagerHandlers.

Section UniqueIds.
Import Async PatientManager.

Lemma replaceById_ids (patients : list Patient) (u : Patient) :
  map id (replaceById patients (id u) u) = map id patients.
Proof.
  unfold replaceById. induction patients as [|q l IH]; [reflexivity|].
  cbn [map]. rewrite IH. destruct (Z.eqb_spec (id q) (id u)) as [E|_]; congruence.
Qed.

Lemma replaceById_absent (patients : list Patient) (u : Patient) :
  ~ In (id u) (map id patients) -> replaceById patients (id u) u = patients.
Proof.
  unfold replaceById. induction patients as [|q l IH]; [reflexivity|].
  cbn [map In]. intros N.
  destruct (Z.eqb_spec (id q) (id u)) as [E|_]; [elim N; now left|].
  rewrite IH; [reflexivity|]. intros H. apply N. now right.
Qed.

Lemma fresh_id_unique (patients : list Patient) (p : Patient) :
  Forall (fun q => Number.isSafeInteger (id q) = true) patients ->
  NoDup (map id patients) ->
  NoDup (map id (patients ++ [withId p (Number.add (maxId patients) 1)])%list).
Proof.
  intros B N. rewrite (add_one_safe _ (maxId_safe patients B)).
  rewrite map_app. cbn [map withId id].
  apply NoDup_app; [exact N | repeat constructor; intros [] |].
  intros x Hx [<-|[]].
  destruct (maxId_above patients) as [_ F].
  apply in_map_iff in Hx as (q & Hq & Q).
  rewrite Forall_forall in F. specialize (F q Q). lia.
Qed.

Lemma filter_ids_unique (f : Patient -> bool) (patients : list Patient) :
  NoDup (map id patients) -> NoDup (map id (filter f patients)).
Proof.
  induction patients as [|q l IH]; [intros _; constructor|].
  cbn [map filter]. intros N. inversion N as [|? ? Hq Hl]; subst.
  destruct (f q); [|now apply IH].
  cbn [map]. constructor; [|now apply IH].
  intros H. apply Hq. apply in_map_iff in H as (x & <- & X).
  apply filter_In in X as [X _]. now apply in_map.
Qed.

(** X11: on a list whose ids are safe integers (2^53 - 1 at most) the
    handlers of the manager keep the ids distinct, whatever the backend and
    the user answer: saving (a new patient or an edited one), importing and
    deleting leave no two patients with one id, and synchronizing a patient
    leaves the ids as they are, each at its place. *)
Theorem ids_stay_unique (env : Env) (patients : list Patient) (p : Patient) :
  Forall (fun q => Number.isSafeInteger (id q) = true) patients ->
  NoDup (map id patients) ->
  NoDup (map id (after patients (handleSavePatient patients p) env))
  /\ NoDup (map id (after patients (handleImportPatient patients p) env))
  /\ NoDup (map id (after patients (handleDeletePatient patients p) env))
  /\ map id (after patients (handleSyncPatient patients p) env) = map id patients.
Proof.
  intros B N. repeat split.
  - destruct (after_handleSavePatient env patients p) as [-> | ->]; [exact N|].
    destruct (id p =? 0); [now apply fresh_id_unique | now rewrite replaceById_ids].
  - destruct (after_handleImportPatient env patients p) as [-> | ->];
      [exact N | now apply fresh_id_unique].
  - destruct (after_handleDeletePatient env patients p) as [-> | ->];
      [exact N | now apply filter_ids_unique].
  - destruct (after_handleSyncPatient env patients p) as [-> | (u & U & ->)];
      [reflexivity|]. rewrite <- U. apply replaceById_ids.
Qed.

Lemma ids_stay_unique_witness :
  Forall (fun q => Number.isSafeInteger (id q) = true) Scenario.threeImported
  /\ NoDup (map id Scenario.threeImported)
  /\ NoDup (map id (after Scenario.threeImported
                          (handleSavePatient Scenario.threeImported (Scenario.draft "Ana"))
                          Scenario.allUp)).
Proof.
  assert (NoDup (map id Scenario.threeImported)) as N.
  { cbn. repeat constructor; cbn; intuition discriminate. }
  assert (Forall (fun q => Number.isSafeInteger (id q) = true) Scenario.threeImported)
    as B by (repeat constructor).
  split; [exact B|]. split; [exact N|].
  exact (proj1 (ids_stay_unique Scenario.allUp Scenario.threeImported
                                (Scenario.draft "Ana") B N)).
Defined.

(** Beyond the safe integers the ids do collide: importing into a list that
    holds the id 2^53 gives this id a second time. *)
Example ids_collide_beyond_safe :
  let big := withId Scenario.maria (2 ^ 53) in
  NoDup (map id [big])
  /\ map id (after [big] (handleImportPatient [big] (Scenario.draft "Ana")) Scenario.allUp)
     = [2 ^ 53; 2 ^ 53].
Proof. split; [repeat constructor; intros [] | reflexivity]. Qed.

(** X12: a rejected save leaves the list of the component as it was: after
    saving, importing, deleting or synchronizing a patient the component
    holds no list that the backend has not accepted. *)
Theorem rejected_save_keeps_list (env : Env) (patients : list Patient) (p : Patient) :
  Behaviour.savesFail env ->
  after patients (handleSavePatient patients p) env = patients
  /\ after patients (handleImportPatient patients p) env = patients
  /\ after patients (handleDeletePatient patients p) env = patients
  /\ after patients (handleSyncPatient patients p) env = patients.
Proof.
  intros F.
  assert (forall l, exists e, fst (PatientStore.savePatients l env) = Throw e) as S.
  { intros l. unfold PatientStore.savePatients. rewrite fst_bind.
    unfold invoke. cbn [fst].
    destruct (F (VObj [("patients", VArr (map PatientStore.toPatientSnake l))]))
      as [e ->].
    now exists e. }
  repeat split.
  - unfold handleSavePatient. rewrite after_guarded, fst_bind.
    match goal with |- context [PatientStore.savePatients ?l env] =>
      destruct (S l) as [e ->] end. reflexivity.
  - unfold handleImportPatient. rewrite after_guarded, fst_bind.
    match goal with |- context [PatientStore.savePatients ?l env] =>
      destruct (S l) as [e ->] end. reflexivity.
  - destruct (after_handleDeletePatient env patients p) as [H | H]; [exact H|].
    unfold handleDeletePatient, after in *. rewrite fst_bind in *.
    unfold confirm in *. cbn [fst] in *.
    destruct (answer env _); cbn [negb] in *; [|reflexivity].
    rewrite fst_try_catch, fst_bind in *.
    match goal with |- context [PatientStore.savePatients ?l env] =>
      destruct (S l) as [e E] end.
    rewrite E in *.
    destruct (fst (_ env)) as [l|e'] eqn:K; [|reflexivity].
    now apply alert_keeps in K.
  - unfold handleSyncPatient.
    destruct (imported p) eqn:I; cbn [negb]; [|reflexivity].
    rewrite after_guarded, fst_bind.
    destruct (syncPatient_settles env p)
      as [(r & E & Fl & U) | [(d & raw & _ & _ & _ & E) | (text & E)]]; rewrite E.
    + rewrite Fl. destruct (updatedPatient r); reflexivity.
    + cbn [Spec.synchronized success updatedPatient]. rewrite fst_bind.
      match goal with |- context [PatientStore.savePatients ?l env] =>
        destruct (S l) as [e ->] end. reflexivity.
    + reflexivity.
Qed.

End UniqueIds.

Section EditAndDelete.
Import Async PatientManager.

Lemma savePatients_trace (env : Env) (l : list Patient) :
  snd (PatientStore.savePatients l env) = [Behaviour.saveRequest l].
Proof.
  unfold PatientStore.savePatients, Behaviour.saveRequest.
  apply snd_invoke_silent. intros v. unfold Behaviour.silent. trace_steps.
Qed.

(** X13: saving an edited patient (an id other than 0) replaces the patient
    of that id at its place: the list keeps its length and its ids, and one
    request saves it.  When no patient has that id nothing is replaced and
    nothing is reported: the list is saved as it is. *)
Theorem edit_replaces_in_place (env : Env) (patients : list Patient) (p : Patient) :
  Spec.savesSucceed env ->
  id p <> 0 ->
  handleSavePatient patients p env
  = (Ok (replaceById patients (id p) p),
     [Behaviour.saveRequest (replaceById patients (id p) p)])
  /\ map id (replaceById patients (id p) p) = map id patients
  /\ (In (id p) (map id patients) -> In p (replaceById patients (id p) p))
  /\ (~ In (id p) (map id patients) -> replaceById patients (id p) p = patients).
Proof.
  intros S N. split; [|split; [apply replaceById_ids | split; [|apply replaceById_absent]]].
  - apply injective_projections.
    + cbn [fst]. unfold handleSavePatient. rewrite fst_try_catch.
      destruct (Z.eqb_spec (id p) 0) as [E|_]; [now elim N|].
      now rewrite fst_bind, (savePatients_succeeds env S).
    + cbn [snd]. unfold handleSavePatient.
      destruct (Z.eqb_spec (id p) 0) as [E|_]; [now elim N|].
      rewrite snd_try_catch, snd_bind, fst_bind, savePatients_trace.
      rewrite (savePatients_succeeds env S). reflexivity.
  - intros H. apply in_map_iff in H as (q & Q & I).
    unfold replaceById. apply in_map_iff. exists q. split; [|exact I].
    now rewrite Q, Z.eqb_refl.
Qed.

Lemma edit_replaces_in_place_witness :
  Spec.savesSucceed Scenario.allUp
  /\ id (withId (Scenario.draft "Ana") 9) <> 0
  /\ handleSavePatient Scenario.threeImported (withId (Scenario.draft "Ana") 9)
                       Scenario.allUp
     = (Ok Scenario.threeImported, [Behaviour.saveRequest Scenario.threeImported]).
Proof.
  assert (Spec.savesSucceed Scenario.allUp) as S by (intros args; exists VNull; reflexivity).
  assert (id (withId (Scenario.draft "Ana") 9) <> 0) as N by discriminate.
  repeat (split; [assumption|]).
  exact (proj1 (edit_replaces_in_place Scenario.allUp Scenario.threeImported
                                       (withId (Scenario.draft "Ana") 9) S N)).
Defined.

(** X14: a deletion the user confirms removes every patient of the id of
    the one given and keeps the others in their order; the list is saved
    once.  A deletion the user declines sends nothing and changes
    nothing. *)
Theorem delete_removes_by_id (env : Env) (patients : list Patient) (p : Patient) :
  Spec.savesSucceed env ->
  (answer env (Behaviour.deleteQuestion p) = false ->
   handleDeletePatient patients p env
   = (Ok patients, [Confirm (Behaviour.deleteQuestion p)]))
  /\ (answer env (Behaviour.deleteQuestion p) = true ->
      exists kept,
        handleDeletePatient patients p env
        = (Ok kept, [Confirm (Behaviour.deleteQuestion p); Behaviour.saveRequest kept])
        /\ kept = filter (fun q => negb (id q =? id p)) patients
        /\ ~ In (id p) (map id kept)
        /\ forall q, In q kept <-> In q patients /\ id q <> id p).
Proof.
  intros S. split; intros A.
  - unfold handleDeletePatient, confirm, bind.
    fold (Behaviour.deleteQuestion p). now rewrite A.
  - exists (filter (fun q => negb (id q =? id p)) patients).
    assert (forall q, In q (filter (fun q => negb (id q =? id p)) patients)
                      <-> In q patients /\ id q <> id p) as F.
    { intros q. rewrite filter_In.
      destruct (Z.eqb_spec (id q) (id p)); cbn; intuition congruence. }
    split; [|split; [reflexivity | split; [|exact F]]].
    + apply injective_projections.
      * cbn [fst]. unfold handleDeletePatient. rewrite fst_bind.
        unfold confirm at 1. fold (Behaviour.deleteQuestion p). cbn [fst].
        rewrite A. cbn [negb].
        now rewrite fst_try_catch, fst_bind, (savePatients_succeeds env S).
      * cbn [snd]. unfold handleDeletePatient. rewrite snd_bind.
        unfold confirm. fold (Behaviour.deleteQuestion p). cbn [fst snd].
        rewrite A. cbn [negb].
        rewrite snd_try_catch, snd_bind, fst_bind, savePatients_trace.
        now rewrite (savePatients_succeeds env S).
    + intros H. apply in_map_iff in H as (q & Q & I).
      apply F in I as [_ I]. now apply I.
Qed.

Lemma delete_removes_by_id_witness :
  Spec.savesSucceed Scenario.allUp
  /\ answer Scenario.allUp (Behaviour.deleteQuestion (Scenario.patientOf 2 "" true)) = true
  /\ exists kept,
       handleDeletePatient Scenario.threeImported (Scenario.patientOf 2 "" true)
                           Scenario.allUp
       = (Ok kept, [Confirm (Behaviour.deleteQuestion (Scenario.patientOf 2 "" true));
                    Behaviour.saveRequest kept])
       /\ kept = filter (fun q => negb (id q =? 2)) Scenario.threeImported
       /\ ~ In 2 (map id kept)
       /\ forall q, In q kept <-> In q Scenario.threeImported /\ id q <> 2.
Proof.
  assert (Spec.savesSucceed Scenario.allUp) as S by (intros args; exists VNull; reflexivity).
  split; [exact S|]. split; [reflexivity|].
  exact (proj2 (delete_removes_by_id Scenario.allUp Scenario.threeImported
                                     (Scenario.patientOf 2 "" true) S) eq_refl).
Defined.

End EditAndDelete.

(* ===================================================================== *)
(** ** Further properties: the import dialog *)
(* ===================================================================== *)

Section MoreTraces.
Import Async.

Variable P : event -> Prop.

Lemma emits_coalesce (a b : M value) :
  Spec.emits P a -> Spec.emits P b -> Spec.emits P (JsOps.coalesce a b).
Proof.
  intros Ha Hb. apply emits_bind; [exact Ha|].
  intros x; destruct (Js.nullish x); [exact Hb | apply emits_ret].
Qed.

Lemma emits_filterM {A} (f : A -> M bool) (xs : list A) :
  (forall x, Spec.emits P (f x)) -> Spec.emits P (filterM f xs).
Proof.
  intros Hf. induction xs as [|x r IH]; cbn [filterM].
  - apply emits_ret.
  - apply emits_bind; [apply Hf|]. intros y.
    apply emits_bind; [exact IH|]. intros ys. apply emits_ret.
Qed.

Lemma emits_lowerIncludesOpt (v : value) (t : string) :
  Spec.emits P (JsOps.lowerIncludesOpt v t).
Proof. intros env; destruct v; constructor. Qed.

Lemma emits_includesOpt (v : value) (t : string) :
  Spec.emits P (JsOps.includesOpt v t).
Proof. intros env; destruct v; constructor. Qed.

End MoreTraces.

#[local] Hint Resolve emits_lowerIncludesOpt emits_includesOpt : traces.

(** Goes through a computation, [check] proving the property of each event. *)
Ltac trace_steps_by check :=
  repeat first
    [ progress intros
    | progress cbv beta
    | solve [auto with traces]
    | apply emits_bind
    | apply emits_try_catch
    | apply emits_try_finally
    | apply emits_all2
    | apply emits_orElse
    | apply emits_coalesce
    | apply emits_mapM
    | apply emits_filterM
    | solve [apply emits_emit; check]
    | solve [apply emits_invoke; check]
    | match goal with
      | |- Spec.emits _ (match ?x with _ => _ end) => destruct x
      | |- Spec.emits _ (if ?x then _ else _) => destruct x
      end ].

Section DialogRuns.
Import Async.

Lemma getFingerprints_run (env : Env) (w : value) :
  PatientSyncService.getFingerprints w env
  = (Ok (Spec.fetchedFingerprints w env),
     [Invoke "get_fingerprints" (VObj [("cardNumber", w)])]).
Proof.
  apply injective_projections;
    [apply getFingerprints_settles | apply getFingerprints_requests].
Qed.

Lemma getFacialBiometry_run (env : Env) (w : value) :
  PatientSyncService.getFacialBiometry w env
  = (Ok (Spec.fetchedFacial w env),
     [Invoke "get_facial_biometry" (VObj [("cardNumber", w)])]).
Proof.
  apply injective_projections;
    [apply getFacialBiometry_settles | apply getFacialBiometry_requests].
Qed.

Lemma orString_empty (s : string) : orString s "" = s.
Proof. unfold orString. destruct (String.eqb_spec s ""); congruence. Qed.

(** Once the name and the wallet are resolved the import goes through,
    whatever the two requests are answered. *)
Lemma fetchAndImport_run (env : Env) (resolvedName : string) (resolvedWallet : value) :
  ImportPatientDialog.fetchAndImport resolvedName resolvedWallet env
  = (Ok tt,
     [ Invoke "get_fingerprints" (VObj [("cardNumber", resolvedWallet)]);
       Invoke "get_facial_biometry" (VObj [("cardNumber", resolvedWallet)]);
       OnImport (Behaviour.importedDraft env resolvedName resolvedWallet);
       SetMessage "Paciente importado com sucesso!" Msg.success;
       ClearMessageAfter 3000 ]).
Proof.
  unfold ImportPatientDialog.fetchAndImport, bind at 1, all2.
  rewrite getFingerprints_run, getFacialBiometry_run. cbn.
  unfold Behaviour.importedDraft. now rewrite orString_empty.
Qed.

(** X15: importing a search result whose name is a string always goes
    through: the dialog asks for the fingerprints and the facial image by
    the resolved wallet, never for the details, and whatever it is answered
    (rejections included) it hands one draft to [onImport], reports the
    success and switches the loading indicator off. *)
Theorem importPatient_always_imports (env : Env) (b : Beneficiary.t) (raw : string) :
  Spec.resolvedName b = VStr raw ->
  ImportPatientDialog.importPatient b env
  = (Ok tt,
     [ SetLoading true;
       SetMessage "Importando paciente..." Msg.info;
       Invoke "get_fingerprints" (VObj [("cardNumber", Behaviour.importWallet b)]);
       Invoke "get_facial_biometry" (VObj [("cardNumber", Behaviour.importWallet b)]);
       OnImport (Behaviour.importedDraft env (JsString.trim raw)
                                         (Behaviour.importWallet b));
       SetMessage "Paciente importado com sucesso!" Msg.success;
       ClearMessageAfter 3000;
       SetLoading false ]).
Proof.
  intros H. unfold ImportPatientDialog.importPatient.
  fold (Spec.resolvedName b). fold (Behaviour.importWallet b). rewrite H.
  unfold bind, try_finally, try_catch. cbn [emit ImportPatientDialog.updateMessage
    JsOps.trim ret bind fst snd app].
  unfold bind. cbn [emit ret JsOps.trim].
  rewrite fetchAndImport_run. reflexivity.
Qed.

Lemma importPatient_always_imports_witness :
  Spec.resolvedName
    {| Beneficiary.name := VStr " Ana Lima ";
       Beneficiary.fullName := VUndefined;
       Beneficiary.nome := VUndefined;
       Beneficiary.healthInsurer := "1";
       Beneficiary.cardNumber := "42";
       Beneficiary.completeCardNumber := VStr "" |} = VStr " Ana Lima "
  /\ snd (ImportPatientDialog.importPatient
            {| Beneficiary.name := VStr " Ana Lima ";
               Beneficiary.fullName := VUndefined;
               Beneficiary.nome := VUndefined;
               Beneficiary.healthInsurer := "1";
               Beneficiary.cardNumber := "42";
               Beneficiary.completeCardNumber := VStr "" |} Scenario.facialDown)
     = [ SetLoading true;
         SetMessage "Importando paciente..." Msg.info;
         Invoke "get_fingerprints" (VObj [("cardNumber", VStr "00010000000000042")]);
         Invoke "get_facial_biometry" (VObj [("cardNumber", VStr "00010000000000042")]);
         OnImport {| id := 0; name := "Ana Lima"; wallet := VStr "00010000000000042";
                     facialBiometric := "";
                     digitalBiometrics :=
                       [ {| finger := "Polegar Direito"; data := VStr "QUJD" |} ];
                     imported := true |};
         SetMessage "Paciente importado com sucesso!" Msg.success;
         ClearMessageAfter 3000;
         SetLoading false ].
Proof.
  split; [reflexivity|].
  exact (f_equal snd
           (importPatient_always_imports Scenario.facialDown
              {| Beneficiary.name := VStr " Ana Lima ";
                 Beneficiary.fullName := VUndefined;
                 Beneficiary.nome := VUndefined;
                 Beneficiary.healthInsurer := "1";
                 Beneficiary.cardNumber := "42";
                 Beneficiary.completeCardNumber := VStr "" |} " Ana Lima " eq_refl)).
Defined.

Lemma not_loading_trace (t : list event) :
  Forall (fun ev => Behaviour.isSetLoading ev = false) t ->
  existsb Behaviour.isSetLoading t = false.
Proof.
  induction 1 as [|ev t H _ IH]; [reflexivity|]. cbn. now rewrite H, IH.
Qed.

Lemma bracketed (env : Env) (text : string) (body : M unit) :
  Spec.emits (fun ev => Behaviour.isSetLoading ev = false) body ->
  Behaviour.loadingBracketed
    (snd ((emit (SetLoading true) ;;
           ImportPatientDialog.updateMessage text Msg.info ;;
           try_finally body (emit (SetLoading false))) env)).
Proof.
  intros H. right.
  rewrite snd_bind. cbn [emit fst snd app].
  rewrite snd_bind. cbn [ImportPatientDialog.updateMessage emit bind ret fst snd app].
  rewrite snd_try_finally. cbn [emit snd].
  exists (SetMessage text Msg.info :: snd (body env)). split; [reflexivity|].
  cbn. now apply not_loading_trace, H.
Qed.

(** X16: the import dialog never leaves its loading indicator on: a search,
    an import or a card search that switches it on switches it off as its
    last act, whatever happens in between, a failure of the [catch] block
    itself included; when the input is blank it is not touched at all. *)
Theorem loading_always_ends (env : Env) :
  (forall guarantor modality proposal contract,
      Behaviour.loadingBracketed
        (snd (ImportPatientDialog.searchBeneficiaries guarantor modality proposal
                                                        contract env)))
  /\ (forall b, Behaviour.loadingBracketed (snd (ImportPatientDialog.importPatient b env)))
  /\ (forall cardNumber,
         Behaviour.loadingBracketed
           (snd (ImportPatientDialog.handleCardSearch cardNumber env))).
Proof.
  assert (forall text kind,
             Spec.emits (fun ev => Behaviour.isSetLoading ev = false)
                        (ImportPatientDialog.updateMessage text kind)) as U.
  { intros text kind. unfold ImportPatientDialog.updateMessage.
    trace_steps_by reflexivity. }
  assert (forall n w,
             Spec.emits (fun ev => Behaviour.isSetLoading ev = false)
                        (ImportPatientDialog.fetchAndImport n w)) as F.
  { intros n w. unfold ImportPatientDialog.fetchAndImport,
      PatientSyncService.getFingerprints, PatientSyncService.getFacialBiometry.
    apply emits_bind; [apply emits_all2; trace_steps_by reflexivity|].
    intros [fps facial]. trace_steps_by reflexivity. }
  split; [|split].
  - intros guarantor modality proposal contract.
    unfold ImportPatientDialog.searchBeneficiaries.
    destruct (JsString.trim guarantor =? "")%string; [left; reflexivity|].
    apply bracketed.
    unfold PatientSyncService.searchBeneficiaries, PatientSyncService.normalize,
      PatientSyncService.matchesTerm.
    trace_steps_by reflexivity.
  - intros b. unfold ImportPatientDialog.importPatient. apply bracketed.
    trace_steps_by reflexivity.
  - intros cardNumber. unfold ImportPatientDialog.handleCardSearch.
    destruct (JsString.trim cardNumber =? "")%string; [left; reflexivity|].
    apply bracketed.
    unfold PatientSyncService.getBeneficiaryDetails.
    trace_steps_by reflexivity.
Qed.

End DialogRuns.

(* ===================================================================== *)
(** ** Further properties: the batch of the manager and the store adapter *)
(* ===================================================================== *)

Section Batch.
Import Async PatientManager.

Variable env : Env.
Hypothesis saves : Spec.savesSucceed env.




End Batch.



(** Three imported patients, every request answered: the three are
    synchronized and saved in turn, and the list of the component ends with
    the third alone updated. *)
Example batch_of_three :
  map name (fst (fst (PatientManager.handleSyncAllPatients Scenario.threeImported
                                                           Scenario.allUp)))
  = [""; ""; "Maria Souza"]
  /\ map facialBiometric
         (fst (fst (PatientManager.handleSyncAllPatients Scenario.threeImported
                                                         Scenario.allUp)))
     = [""; ""; "ZmFjZQ=="]
  /\ length (filter Spec.isRequest
               (snd (PatientManager.handleSyncAllPatients Scenario.threeImported
                                                          Scenario.allUp)))
     = 12%nat.
Proof. repeat split. Qed.

Section StoreAdapter.
Import Async PatientStore.

Lemma mapM_toBiometricCamel (env : Env) (ds : list DigitalBiometric) :
  mapM toBiometricCamel
       (map (fun d => VObj [("finger", VStr (finger d)); ("data", data d)]) ds) env
  = (Ok (map (fun d => VObj [("finger", VStr (finger d)); ("data", data d)]) ds), []).
Proof.
  induction ds as [|d ds IH]; [reflexivity|].
  cbn [map mapM].
  rewrite (bind_pure _ _ env (VObj [("finger", VStr (finger d)); ("data", data d)]))
    by reflexivity.
  now rewrite (bind_pure _ _ env _ IH).
Qed.

Lemma toPatientCamel_snake (env : Env) (p : Patient) :
  toPatientCamel (toPatientSnake p) env = (Ok (Behaviour.ofPatient p), []).
Proof.
  unfold toPatientCamel.
  rewrite (bind_pure _ _ env (VNum (id p))) by reflexivity.
  rewrite (bind_pure _ _ env (VStr (name p))) by reflexivity.
  rewrite (bind_pure _ _ env (wallet p)) by reflexivity.
  rewrite (bind_pure _ _ env (VStr (facialBiometric p))) by reflexivity.
  rewrite (bind_pure _ _ env
             (VArr (map (fun d => VObj [("finger", VStr (finger d)); ("data", data d)])
                        (digitalBiometrics p)))) by reflexivity.
  rewrite (bind_pure _ _ env _ (mapM_toBiometricCamel env (digitalBiometrics p))).
  rewrite (bind_pure _ _ env (VBool (imported p))) by reflexivity.
  unfold Behaviour.ofPatient. cbn [Js.truthy]. reflexivity.
Qed.

Lemma mapM_toPatientCamel (env : Env) (patients : list Patient) :
  mapM toPatientCamel (map toPatientSnake patients) env
  = (Ok (map Behaviour.ofPatient patients), []).
Proof.
  induction patients as [|p ps IH]; [reflexivity|].
  cbn [map mapM].
  rewrite (bind_pure _ _ env _ (toPatientCamel_snake env p)).
  now rewrite (bind_pure _ _ env _ IH).
Qed.

(** X18: the store adapter reads back what it writes: [toPatientCamel] of
    [toPatientSnake] of a patient is that patient, field by field, and
    [loadPatients] returns the patients, in their order, of a list that
    [savePatients] has sent. *)
Theorem load_after_save (env : Env) (patients : list Patient) :
  backend env "load_patients" VUndefined = Ok (VArr (map toPatientSnake patients)) ->
  (forall p, toPatientCamel (toPatientSnake p) env = (Ok (Behaviour.ofPatient p), []))
  /\ loadPatients env
     = (Ok (map Behaviour.ofPatient patients), [Invoke "load_patients" VUndefined]).
Proof.
  intros B. split; [intros p; apply toPatientCamel_snake|].
  unfold loadPatients, bind, invoke. rewrite B. cbn [mapAny].
  now rewrite mapM_toPatientCamel.
Qed.

End StoreAdapter.

(* ===================================================================== *)
(** ** The biometric uploader *)
(* ===================================================================== *)

Section Uploader.
Import Async BiometricUploader.

Lemma getImageSrc_prefix (base64 : string) :
  prefix "data:image" (getImageSrc base64) = true.
Proof.
  unfold getImageSrc. destruct (prefix "data:image" base64) eqn:D; [exact D|].
  destruct (prefix "/9j/" base64); [reflexivity|].
  destruct (prefix "iVBOR" base64); [reflexivity|].
  destruct (prefix "R0lGOD" base64); reflexivity.
Qed.

(** X19: the source of the preview is always a [data:image] URL that ends
    with the stored value, and a value that is such a URL already is left as
    it is: [getImageSrc] applied twice is [getImageSrc]. *)
Theorem getImageSrc_data_url (base64 : string) :
  prefix "data:image" (getImageSrc base64) = true
  /\ (exists h, getImageSrc base64 = h ++ base64)
  /\ getImageSrc (getImageSrc base64) = getImageSrc base64.
Proof.
  split; [apply getImageSrc_prefix|]. split.
  - unfold getImageSrc. destruct (prefix "data:image" base64); [now exists ""|].
    destruct (prefix "/9j/" base64); [now exists "data:image/jpeg;base64,"|].
    destruct (prefix "iVBOR" base64); [now exists "data:image/png;base64,"|].
    destruct (prefix "R0lGOD" base64);
      [now exists "data:image/gif;base64," | now exists "data:image;base64,"].
  - unfold getImageSrc at 1. now rewrite getImageSrc_prefix.
Qed.

Lemma split_before (h b : string) :
  Behaviour.allChars (fun c => negb (Behaviour.isComma c)) h = true ->
  JsString.split ","%char (h ++ String ","%char b) = h :: JsString.split ","%char b.
Proof.
  induction h as [|c h IH]; cbn [append JsString.split Behaviour.allChars].
  - now rewrite Ascii.eqb_refl.
  - intros H. apply andb_true_iff in H as [Hc Hh]. rewrite (IH Hh).
    unfold Behaviour.isComma in Hc.
    destruct (Ascii.eqb c ","%char); [discriminate | reflexivity].
Qed.

Lemma uploaded_payload (h payload : string) :
  Behaviour.allChars (fun c => negb (Behaviour.isComma c)) h = true ->
  Behaviour.allChars (fun c => negb (Behaviour.isComma c)) payload = true ->
  uploaded (h ++ String ","%char payload) = VStr payload.
Proof.
  intros H P. unfold uploaded.
  now rewrite (split_before _ _ H), (split_no_separator _ P).
Qed.

Lemma prefix_first (c d : ascii) (t s : string) :
  prefix (String c t) s = true -> c <> d -> prefix (String d t) s = false
                                            /\ forall t', prefix (String d t') s = false.
Proof.
  destruct s as [|a s]; [discriminate|]. cbn [prefix].
  intros H N. destruct (ascii_dec c a) as [<-|]; [|discriminate].
  destruct (ascii_dec d c) as [->|]; [now elim N|]. split; [reflexivity | now intros].
Qed.

(** X20: an image file read by the uploader is shown again as it was read:
    the stored value is what follows the comma of the data URL, the source
    that [getImageSrc] builds from a stored value gives this value back to
    [uploaded], and for the signatures of JPEG, PNG and GIF this source is
    the data URL of that format. *)
Theorem upload_then_preview (payload : string) :
  Behaviour.allChars (fun c => negb (Behaviour.isComma c)) payload = true ->
  prefix "data:image" payload = false ->
  uploaded (getImageSrc payload) = VStr payload
  /\ (forall h, Behaviour.allChars (fun c => negb (Behaviour.isComma c)) h = true ->
                uploaded (h ++ "," ++ payload) = VStr payload)
  /\ (forall mime signature,
        In (mime, signature) Behaviour.signatures ->
        prefix signature payload = true ->
        getImageSrc payload = "data:image/" ++ mime ++ ";base64," ++ payload).
Proof.
  intros P D. split; [|split].
  - unfold getImageSrc. rewrite D.
    destruct (prefix "/9j/" payload);
      [exact (uploaded_payload "data:image/jpeg;base64" payload eq_refl P)|].
    destruct (prefix "iVBOR" payload);
      [exact (uploaded_payload "data:image/png;base64" payload eq_refl P)|].
    destruct (prefix "R0lGOD" payload);
      [exact (uploaded_payload "data:image/gif;base64" payload eq_refl P)|].
    exact (uploaded_payload "data:image;base64" payload eq_refl P).
  - intros h H. exact (uploaded_payload h payload H P).
  - intros mime signature I S. unfold getImageSrc. rewrite D.
    cbn [In Behaviour.signatures] in I.
    destruct I as [I | [I | [I | []]]]; injection I as <- <-.
    + now rewrite S.
    + destruct (prefix_first "i" "/" _ _ S ltac:(discriminate)) as [_ ->].
      now rewrite S.
    + destruct (prefix_first "R" "/" _ _ S ltac:(discriminate)) as [_ ->].
      destruct (prefix_first "R" "i" _ _ S ltac:(discriminate)) as [_ ->].
      now rewrite S.
Qed.

Lemma upload_then_preview_witness :
  uploaded (getImageSrc "iVBORw0KGgo=") = VStr "iVBORw0KGgo="
  /\ getImageSrc "iVBORw0KGgo=" = "data:image/png;base64,iVBORw0KGgo=".
Proof.
  pose proof (upload_then_preview "iVBORw0KGgo=" eq_refl eq_refl) as (U & _ & S).
  split; [exact U|].
  apply (S "png" "iVBOR"); [right; left; reflexivity | reflexivity].
Defined.

Lemma alphabet_or_pad (l : list ascii) :
  forallb Base64.isAlphabet l = true ->
  forallb (fun c => Base64.isAlphabet c || Base64.isPad c) l = true.
Proof.
  induction l as [|c l IH]; cbn; [reflexivity|].
  intros H. apply andb_true_iff in H as [-> H]. exact (IH H).
Qed.

Lemma dropPadding_all (l : list ascii) :
  forallb Base64.isAlphabet (Base64.dropPadding l) = true ->
  forallb (fun c => Base64.isAlphabet c || Base64.isPad c) l = true.
Proof.
  unfold Base64.dropPadding.
  destruct (length l mod 4 =? 0)%nat; [|apply alphabet_or_pad].
  pose proof (rev_involutive l) as I.
  destruct (rev l) as [|p [|q r]]; cbn [rev app] in I; subst l.
  - intros _. reflexivity.
  - destruct (Base64.isPad p) eqn:P; [|apply alphabet_or_pad].
    intros _. cbn. now rewrite P, orb_true_r.
  - destruct (Base64.isPad p) eqn:P; [|apply alphabet_or_pad].
    destruct (Base64.isPad q) eqn:Q; intros H.
    + rewrite !forallb_app. cbn. rewrite P, Q, !orb_true_r.
      now rewrite (alphabet_or_pad _ H).
    + rewrite forallb_app. cbn [forallb]. rewrite P, orb_true_r.
      cbn [rev] in H. now rewrite (alphabet_or_pad _ H).
Qed.

Lemma removeAsciiWhitespace_all (ok : ascii -> bool) (s : string) :
  forallb ok (Base64.removeAsciiWhitespace s) = true ->
  Behaviour.allChars (fun c => ok c || Base64.isAsciiWhitespace c) s = true.
Proof.
  induction s as [|c s IH]; cbn [Base64.removeAsciiWhitespace Behaviour.allChars];
    [reflexivity|].
  destruct (Base64.isAsciiWhitespace c).
  - intros H. now rewrite orb_true_r, (IH H).
  - cbn [forallb]. intros H. apply andb_true_iff in H as [-> H]. now rewrite (IH H).
Qed.

Lemma decodes_chars (s : string) :
  Base64.decodes s = true -> Behaviour.allChars Behaviour.base64Char s = true.
Proof.
  unfold Base64.decodes. intros H. apply andb_true_iff in H as [_ H].
  apply dropPadding_all, removeAsciiWhitespace_all in H. exact H.
Qed.

Lemma allChars_weaken (p q : ascii -> bool) (s : string) :
  (forall c, p c = true -> q c = true) ->
  Behaviour.allChars p s = true -> Behaviour.allChars q s = true.
Proof.
  intros W. induction s as [|c s IH]; cbn; [reflexivity|].
  intros H. apply andb_true_iff in H as [Hc Hs]. now rewrite (W c Hc), (IH Hs).
Qed.

Lemma trimStart_reflects (ok : ascii -> bool) (s : string) :
  (forall c, JsString.isWhiteSpace c = true -> ok c = true) ->
  Behaviour.allChars ok (JsString.trimStart s) = true -> Behaviour.allChars ok s = true.
Proof.
  intros W. induction s as [|c s IH]; cbn [JsString.trimStart]; [easy|].
  destruct (JsString.isWhiteSpace c) eqn:E; [|easy].
  intros H. cbn [Behaviour.allChars]. now rewrite (W c E), (IH H).
Qed.

Lemma trimEnd_reflects (ok : ascii -> bool) (s : string) :
  (forall c, JsString.isWhiteSpace c = true -> ok c = true) ->
  Behaviour.allChars ok (JsString.trimEnd s) = true -> Behaviour.allChars ok s = true.
Proof.
  intros W. induction s as [|c s IH]; cbn [JsString.trimEnd]; [easy|].
  destruct (JsString.trimEnd s) as [|a r].
  - intros H. cbn [Behaviour.allChars]. rewrite (IH eq_refl), andb_true_r.
    destruct (JsString.isWhiteSpace c) eqn:E; [now apply W|].
    cbn in H. now rewrite andb_true_r in H.
  - cbn [Behaviour.allChars] in *. intros H. apply andb_true_iff in H as [-> H].
    now rewrite (IH H).
Qed.

Lemma includes_comma_true (s : string) :
  JsString.includes s "," = true ->
  Behaviour.allChars (fun c => negb (Behaviour.isComma c)) s = false.
Proof.
  intros H. destruct (Behaviour.allChars _ s) eqn:A; [|reflexivity].
  apply includes_substring in H as (a & b & ->).
  exfalso. clear -A. induction a as [|c a IH]; cbn in A; [discriminate|].
  apply andb_true_iff in A as [_ A]. exact (IH A).
Qed.

Lemma base64Char_not_comma (c : ascii) :
  Behaviour.base64Char c = true -> negb (Behaviour.isComma c) = true.
Proof.
  destruct c as [[] [] [] [] [] [] [] []]; vm_compute; congruence.
Qed.

Lemma whiteSpace_not_comma (c : ascii) :
  JsString.isWhiteSpace c = true -> negb (Behaviour.isComma c) = true.
Proof.
  destruct c as [[] [] [] [] [] [] [] []]; vm_compute; congruence.
Qed.

(** X21: an edited value is stored only if it is made of the characters of
    base64, of [=] and of ASCII white space, and then it is stored trimmed;
    any other value is answered with an alert and nothing is stored.  A value
    with a comma, so a data URL, is never stored. *)
Theorem saveEditedBase64_checked (editableBase64 : string) (env : Env) :
  ((saveEditedBase64 editableBase64 env = (Ok (Some (JsString.trim editableBase64)), [])
    /\ Behaviour.allChars Behaviour.base64Char (JsString.trim editableBase64) = true)
   \/ exists text, saveEditedBase64 editableBase64 env = (Ok None, [Alert text]))
  /\ (JsString.includes editableBase64 "," = true ->
      exists text, saveEditedBase64 editableBase64 env = (Ok None, [Alert text])).
Proof.
  assert (Base64.decodes (JsString.trim editableBase64) = false ->
          exists text, saveEditedBase64 editableBase64 env = (Ok None, [Alert text])) as R.
  { intros D. unfold saveEditedBase64. rewrite D. eexists. reflexivity. }
  split.
  - destruct (Base64.decodes (JsString.trim editableBase64)) eqn:D; [left | right; auto].
    split; [|now apply decodes_chars].
    unfold saveEditedBase64. now rewrite D.
  - intros I. apply R.
    destruct (Base64.decodes (JsString.trim editableBase64)) eqn:D; [|reflexivity].
    apply decodes_chars in D.
    apply (allChars_weaken _ _ _ base64Char_not_comma) in D.
    unfold JsString.trim in D.
    apply (trimEnd_reflects _ _ whiteSpace_not_comma) in D.
    apply (trimStart_reflects _ _ whiteSpace_not_comma) in D.
    now rewrite (includes_comma_true _ I) in D.
Qed.

(** Padding is accepted at the end only, and a data URL not at all. *)
Example saveEditedBase64_cases (env : Env) :
  saveEditedBase64 " QUJD " env = (Ok (Some "QUJD"), [])
  /\ saveEditedBase64 "QUI=" env = (Ok (Some "QUI="), [])
  /\ fst (saveEditedBase64 "QU=I" env) = Ok None
  /\ fst (saveEditedBase64 "QUJDR" env) = Ok None
  /\ fst (saveEditedBase64 (getImageSrc "QUJD") env) = Ok None.
Proof. repeat split. Qed.

End Uploader.

(* ===================================================================== *)
(** ** The form that adds and edits a patient *)
(* ===================================================================== *)

Section AddEditForm.
Import Async AddEditPatient.

Lemma eqb_false_neq (s t : string) : (s =? t)%string = false -> s <> t.
Proof. intros E ->. now rewrite String.eqb_refl in E. Qed.

Lemma neq_eqb_false (s t : string) : s <> t -> (s =? t)%string = false.
Proof. intros N. destruct (String.eqb_spec s t); [now elim N | reflexivity]. Qed.

(** X22: the form hands over a patient only when name and wallet are strings
    that are not blank; the patient has both trimmed, the biometrics of the
    form, and the id and the origin of the patient edited (0 and not
    imported for a new one); no error is then set. *)
Theorem handleSave_validates (patient : option Patient) (f : Form.t) (env : Env)
    (errors : FormErrors.t) (p : Patient) :
  fst (handleSave patient f env) = Ok (errors, Some p) ->
  name p = JsString.trim (Form.name f) /\ name p <> ""
  /\ (exists w, Form.wallet f = VStr w /\ wallet p = VStr (JsString.trim w)
                /\ JsString.trim w <> "")
  /\ id p = match patient with Some q => id q | None => 0 end
  /\ imported p = match patient with Some q => imported q | None => false end
  /\ facialBiometric p = Form.facialBiometric f
  /\ digitalBiometrics p = Form.digitalBiometrics f
  /\ errors = Behaviour.noErrors
  /\ snd (handleSave patient f env) = [].
Proof.
  unfold handleSave, validateForm.
  destruct (Form.wallet f) as [| |b|n|w|l|o] eqn:W; try discriminate.
  cbn [JsOps.trim]. unfold bind, ret. cbn [fst snd].
  destruct (JsString.trim (Form.name f) =? "")%string eqn:N;
    destruct (JsString.trim w =? "")%string eqn:T; cbn; try discriminate.
  intros H. injection H as <- <-. cbn.
  repeat split; try reflexivity.
  - now apply eqb_false_neq.
  - exists w. repeat split. now apply eqb_false_neq.
Qed.

Lemma handleSave_validates_witness :
  fst (handleSave None Cases.filled Scenario.allUp)
  = Ok (Behaviour.noErrors,
        Some {| id := 0; name := "Ana Lima"; wallet := VStr "00010000000000042";
                facialBiometric := ""; digitalBiometrics := []; imported := false |})
  /\ "Ana Lima" = JsString.trim (Form.name Cases.filled).
Proof.
  split; [reflexivity|].
  exact (proj1 (handleSave_validates None Cases.filled Scenario.allUp _ _ eq_refl)).
Defined.

(** X23: a patient opened in the form and saved unchanged is handed over as
    it is, provided its name and its wallet are strings without blanks
    around them and not empty. *)
Theorem edit_unchanged (p : Patient) (w : string) (env : Env) :
  JsString.trim (name p) = name p -> name p <> "" ->
  wallet p = VStr w -> JsString.trim w = w -> w <> "" ->
  handleSave (Some p) (initial (Some p)) env = (Ok (Behaviour.noErrors, Some p), []).
Proof.
  intros Tn Nn W Tw Nw. destruct p as [i n wl fb ds im]. cbn in *. subst wl.
  unfold handleSave, validateForm, initial. cbn.
  assert (orString n "" = n) as -> by (unfold orString; now rewrite neq_eqb_false).
  assert (VStr w <|> VStr "" = VStr w) as ->
    by (unfold orValue; destruct w; [now elim Nw | reflexivity]).
  assert (orString fb "" = fb) as ->
    by (unfold orString; destruct (String.eqb_spec fb ""); congruence).
  cbn [JsOps.trim]. unfold bind, ret. cbn.
  rewrite Tn, Tw, (neq_eqb_false _ _ Nn), (neq_eqb_false _ _ Nw). reflexivity.
Qed.

Lemma edit_unchanged_witness :
  handleSave (Some Scenario.maria) (initial (Some Scenario.maria)) Scenario.allUp
  = (Ok (Behaviour.noErrors, Some Scenario.maria), []).
Proof.
  apply (edit_unchanged Scenario.maria "00010000000000042");
    [reflexivity | discriminate | reflexivity | reflexivity | discriminate].
Defined.

Lemma withoutIndex_past {A} (xs : list A) (index from : nat) :
  (index < from)%nat -> withoutIndex index from xs = xs.
Proof.
  revert from. induction xs as [|x r IH]; intros from L; cbn; [reflexivity|].
  destruct (Nat.eqb_spec from index); [lia|]. rewrite IH by lia. reflexivity.
Qed.

Lemma withoutIndex_nth {A} (xs : list A) (index from j : nat) :
  (from <= index)%nat ->
  nth_error (withoutIndex index from xs) j
  = nth_error xs (if (j <? index - from)%nat then j else S j).
Proof.
  revert from j. induction xs as [|x r IH]; intros from j L; cbn [withoutIndex].
  - destruct (j <? index - from)%nat; now destruct j.
  - destruct (Nat.eqb_spec from index) as [->|N].
    + rewrite withoutIndex_past by lia.
      replace (j <? index - index)%nat with false
        by (symmetry; apply Nat.ltb_ge; lia).
      reflexivity.
    + destruct j as [|j].
      * replace (0 <? index - from)%nat with true
          by (symmetry; apply Nat.ltb_lt; lia).
        reflexivity.
      * cbn [nth_error]. rewrite IH by lia.
        destruct (Nat.ltb_spec j (index - S from)), (Nat.ltb_spec (S j) (index - from));
          try lia; reflexivity.
Qed.

Lemma withoutIndex_length {A} (xs : list A) (index from : nat) :
  (from <= index < from + length xs)%nat ->
  S (length (withoutIndex index from xs)) = length xs.
Proof.
  revert from. induction xs as [|x r IH]; intros from L; cbn [withoutIndex length] in *;
    [lia|].
  destruct (Nat.eqb_spec from index) as [->|N].
  - now rewrite withoutIndex_past by lia.
  - cbn [length]. rewrite IH by lia. reflexivity.
Qed.

Lemma withoutIndex_beyond {A} (xs : list A) (index from : nat) :
  (from + length xs <= index)%nat -> withoutIndex index from xs = xs.
Proof.
  revert from. induction xs as [|x r IH]; intros from L; cbn [withoutIndex length] in *;
    [reflexivity|].
  destruct (Nat.eqb_spec from index); [lia|]. rewrite IH by lia. reflexivity.
Qed.

Lemma withoutIndex_last {A} (xs : list A) (x : A) (from : nat) :
  withoutIndex (from + length xs) from (xs ++ [x]) = xs.
Proof.
  revert from. induction xs as [|y r IH]; intros from; cbn [withoutIndex length app].
  - rewrite Nat.add_0_r, Nat.eqb_refl. reflexivity.
  - destruct (Nat.eqb_spec from (from + S (length r))); [lia|].
    replace (from + S (length r))%nat with (S from + length r)%nat by lia.
    now rewrite IH.
Qed.

(** X24: removing the fingerprint at a position of the form takes out that
    entry alone and moves the later ones up by one; a position past the end
    removes nothing; and removing the entry that has just been added gives
    the list back. *)
Theorem remove_digital_biometric (index : nat) (biometrics : list DigitalBiometric) :
  (forall j, nth_error (handleRemoveDigitalBiometric index biometrics) j
             = nth_error biometrics (if (j <? index)%nat then j else S j))
  /\ ((index < length biometrics)%nat ->
      S (length (handleRemoveDigitalBiometric index biometrics)) = length biometrics)
  /\ ((length biometrics <= index)%nat ->
      handleRemoveDigitalBiometric index biometrics = biometrics)
  /\ handleRemoveDigitalBiometric (length biometrics)
       (handleAddDigitalBiometric biometrics) = biometrics.
Proof.
  unfold handleRemoveDigitalBiometric, handleAddDigitalBiometric. repeat split.
  - intros j. rewrite withoutIndex_nth by lia. now rewrite Nat.sub_0_r.
  - intros L. apply withoutIndex_length. lia.
  - intros L. apply withoutIndex_beyond. lia.
  - exact (withoutIndex_last biometrics _ 0%nat).
Qed.

Lemma remove_digital_biometric_witness :
  handleRemoveDigitalBiometric 1
    [ {| finger := "a"; data := VStr "1" |}; {| finger := "b"; data := VStr "2" |};
      {| finger := "c"; data := VStr "3" |} ]
  = [ {| finger := "a"; data := VStr "1" |}; {| finger := "c"; data := VStr "3" |} ]
  /\ S (length (handleRemoveDigitalBiometric 1
         [ {| finger := "a"; data := VStr "1" |}; {| finger := "b"; data := VStr "2" |};
           {| finger := "c"; data := VStr "3" |} ])) = 3%nat.
Proof.
  split; [reflexivity|].
  apply (proj1 (proj2 (remove_digital_biometric 1
    [ {| finger := "a"; data := VStr "1" |}; {| finger := "b"; data := VStr "2" |};
      {| finger := "c"; data := VStr "3" |} ]))).
  cbn. lia.
Defined.

End AddEditForm.

(* ===================================================================== *)
(** ** The local biometry server *)
(* ===================================================================== *)

Section BiometryServer.
Import Async BiometryServerManager.

Lemma handler_keeps_flag (st st' : State) (active : bool) (error : value) (env : Env) :
  fst ((msg <- error.["message"] ;;
        ret (withStatus st active
               ("Erro: " ++ Js.ToString (msg <|> VStr "Falha ao controlar servidor"))
               true)) env) = Ok st' ->
  isServerActive st' = active /\ statusIsError st' = true.
Proof.
  rewrite fst_bind.
  destruct (fst ((error.["message"]) env)) as [msg|e]; [|discriminate].
  cbn. intros H. injection H as <-. split; reflexivity.
Qed.

(** X25: the server manager changes its active flag only when the backend
    has accepted the request, and reports no error then.  It starts the
    server only for the selected patient of the list, who has at least one
    fingerprint, with one request that carries the data of these
    fingerprints in their order and the host and port of the component; it
    stops it with one request for this host and port. *)
Theorem server_follows_backend (env : Env) (patients : list Patient) (st st' : State) :
  fst (toggleServer patients st env) = Ok st' ->
  isServerActive st' = negb (isServerActive st) ->
  statusIsError st' = false
  /\ exists fields,
       snd (toggleServer patients st env)
       = [Invoke (if isServerActive st then "stop_biometry_server"
                  else "start_biometry_server") (VObj fields)]
       /\ (exists r, backend env (if isServerActive st then "stop_biometry_server"
                                  else "start_biometry_server") (VObj fields) = Ok r)
       /\ Js.lookup "host" fields = VStr (serverHost st)
       /\ Js.lookup "port" fields = VNum (serverPort st)
       /\ (isServerActive st = false ->
           exists q, In q patients /\ selectedPatientId st = Some (id q)
                     /\ digitalBiometrics q <> []
                     /\ Js.lookup "biometryData" fields
                        = VArr (map data (digitalBiometrics q))).
Proof.
  unfold toggleServer. rewrite fst_try_catch, snd_try_catch.
  destruct (isServerActive st) eqn:A.
  - rewrite fst_bind, snd_bind.
    unfold BiometryServerService.stopBiometryServer.
    rewrite fst_try_catch, snd_try_catch. unfold invoke. cbn [fst snd].
    destruct (backend env "stop_biometry_server" _) as [r|e] eqn:B.
    + cbn. intros H _. injection H as <-. split; [reflexivity|].
      eexists. split; [reflexivity|]. split; [exists r; exact B|].
      repeat split; try reflexivity. discriminate.
    + cbn [fst throw]. intros H F. apply handler_keeps_flag in H as [H _].
      rewrite H in F. discriminate.
  - unfold selectedPatient.
    destruct (selectedPatientId st) as [n|] eqn:S;
      [destruct (find (fun p => id p =? n) patients) as [q|] eqn:Q|].
    + destruct (length (map data (digitalBiometrics q)) =? 0)%nat eqn:L.
      * cbn. intros H F. injection H as <-. discriminate.
      * rewrite fst_bind, snd_bind.
        unfold BiometryServerService.startBiometryServer.
        rewrite fst_try_catch, snd_try_catch. unfold invoke. cbn [fst snd].
        destruct (backend env "start_biometry_server" _) as [r|e] eqn:B.
        -- cbn. intros H _. injection H as <-. split; [reflexivity|].
           eexists. split; [reflexivity|]. split; [exists r; exact B|].
           repeat split; try reflexivity.
           apply find_some in Q as [I E]. exists q.
           repeat split; try assumption.
           ++ apply Z.eqb_eq in E. now rewrite E.
           ++ intros D. rewrite D in L. discriminate.
        -- cbn [fst throw]. intros H F. apply handler_keeps_flag in H as [H _].
           rewrite H in F. discriminate.
    + cbn. intros H F. injection H as <-. discriminate.
    + cbn. intros H F. injection H as <-. discriminate.
Qed.

Lemma server_follows_backend_witness :
  exists st',
    fst (toggleServer [Scenario.maria] Cases.mariaSelected (Cases.stored [])) = Ok st'
    /\ isServerActive st' = true
    /\ statusIsError st' = false.
Proof.
  eexists. split; [reflexivity|]. split; [reflexivity|].
  exact (proj1 (server_follows_backend (Cases.stored []) [Scenario.maria]
                  Cases.mariaSelected _ eq_refl eq_refl)).
Defined.

(** Without fingerprints, or without a patient selected, no request is made. *)
Example server_needs_fingerprints (env : Env) :
  snd (toggleServer [Scenario.patientOf 7 "42" true] Cases.mariaSelected env) = []
  /\ snd (toggleServer [] Cases.mariaSelected env) = [].
Proof. split; reflexivity. Qed.

End BiometryServer.

(* ===================================================================== *)
(** ** The properties at concrete backends *)
(* ===================================================================== *)

Lemma rejected_save_keeps_list_witness :
  Behaviour.savesFail Cases.allDown
  /\ PatientManager.after [Scenario.maria]
       (PatientManager.handleSavePatient [Scenario.maria] (Scenario.draft "Ana"))
       Cases.allDown = [Scenario.maria].
Proof.
  assert (Behaviour.savesFail Cases.allDown) as F.
  { intros args. exists (VStr "disk full"). reflexivity. }
  split; [exact F|].
  exact (proj1 (rejected_save_keeps_list Cases.allDown [Scenario.maria]
                  (Scenario.draft "Ana") F)).
Defined.

Lemma load_after_save_witness :
  PatientStore.loadPatients (Cases.stored [Scenario.maria])
  = (Ok [Behaviour.ofPatient Scenario.maria], [Invoke "load_patients" VUndefined]).
Proof.
  exact (proj2 (load_after_save (Cases.stored [Scenario.maria]) [Scenario.maria]
                  eq_refl)).
Defined.
